(** * NeuralRAG database layer: a shallow embedding of [db.ts] and [types.ts]

    The store is a SQLite file with the tables [neurons] and [synapses]
    (and [indexed_files], [query_log], [_meta]).  A table is modelled as the
    list of its rows in rowid order, a statement as a function on the store,
    and a method of [NeuralDB] as a computation in a small state-and-exception
    monad: a failed statement throws and leaves the store as it was.

    Conventions of the model:
    - SQLite [REAL] values and JS numbers that carry weights, deltas and day
      counts are rationals ([Q]) and one step of their arithmetic is exact.
      The weight a caller passes may also be NaN ([number]).  Where
      binary64 rounding decides what repeated steps do, the step is also
      given in binary64 ([Binary64]).
    - [uuidv4()], [new Date().toISOString()], [datetime('now')] and
      [julianday('now')] are inputs of the method that reads them.
    - SQLite's [julianday(text)] is a parameter of the development. *)

From Stdlib Require Import ZArith QArith Qminmax Qround Lqa Lia.
From Stdlib Require Import SpecFloat.
From Stdlib Require Import List String Ascii Bool Sorted Permutation.
From Stdlib Require Import Strings.Byte.
Import ListNotations.

Local Open Scope string_scope.
Local Open Scope Z_scope.

(* ================================================================== *)
(** ** types.ts *)

Inductive NeuronType : Type :=
| nt_function | nt_class | nt_method | nt_type | nt_interface
| nt_module | nt_config | nt_doc | nt_variable | nt_export.

Inductive SynapseType : Type :=
| imports | calls | type_reference | extends
| proximity | co_activation | semantic.

Definition SynapseType_eqb (a b : SynapseType) : bool :=
  match a, b with
  | imports, imports | calls, calls | type_reference, type_reference
  | extends, extends | proximity, proximity
  | co_activation, co_activation | semantic, semantic => true
  | _, _ => false
  end.

(** A JS [number] as the [weight] column of [synapses] tells them apart:
    NaN, which SQLite binds as NULL, or a value.  The infinities are not
    modelled. *)
Inductive number : Type :=
| NaN
| Finite (q : Q).

Coercion Finite : Q >-> number.
Bind Scope Q_scope with number.

Definition is_NaN (x : number) : bool :=
  match x with NaN => true | Finite _ => false end.

(** The value of a number that is not NaN. *)
Definition number_value (x : number) : Q :=
  match x with Finite q => q | NaN => 0%Q end.

(** A [Float32Array] is a view on an [ArrayBuffer]: the buffer's bytes, the
    offset of the view in bytes and its length in elements. *)
Module Float32Array.
Record t : Type := mk {
  buffer : list byte;
  byteOffset : nat;
  length : nat
}.

Definition wf (a : t) : Prop :=
  (byteOffset a mod 4 = 0)%nat /\
  (byteOffset a + 4 * length a <= List.length (buffer a))%nat.

(** The bytes of the elements the view shows. *)
Definition bytes (a : t) : list byte :=
  firstn (4 * length a) (skipn (byteOffset a) (buffer a)).

(** [new Float32Array(arrayBuffer)]: a view on the whole buffer; a
    [RangeError] ([None]) when the byte length is no multiple of 4. *)
Definition of_buffer (buf : list byte) : option t :=
  if (List.length buf mod 4 =? 0)%nat
  then Some (mk buf 0 (List.length buf / 4))
  else None.

(** [new Float32Array(0)]. *)
Definition empty : t := mk [] 0 0.
End Float32Array.

Module NeuronCreateInput.
Record t : Type := mk {
  content : string;
  summary : string;
  embedding : Float32Array.t;
  file_path : string;
  start_line : Z;
  end_line : Z;
  type : NeuronType;
  name : string;
  language : string
}.
End NeuronCreateInput.

Module Neuron.
Record t : Type := mk {
  id : string;
  content : string;
  summary : string;
  embedding : Float32Array.t;
  file_path : string;
  start_line : Z;
  end_line : Z;
  type : NeuronType;
  name : string;
  language : string;
  activation_count : Z;
  last_activated : option string;
  created_at : string;
  updated_at : string
}.
End Neuron.

(** [metadata] is kept as its JSON text: [JSON.stringify] on the way in and
    [JSON.parse] on the way out are not modelled. *)
Module SynapseCreateInput.
Record t : Type := mk {
  source_id : string;
  target_id : string;
  weight : number;
  type : SynapseType;
  metadata : option string
}.
End SynapseCreateInput.

Module Synapse.
Record t : Type := mk {
  id : string;
  source_id : string;
  target_id : string;
  weight : Q;
  type : SynapseType;
  metadata : option string;
  fire_count : Z;
  last_fired : option string;
  created_at : string
}.
End Synapse.

(* ================================================================== *)
(** ** db.ts: the tables *)

(** A row of [neurons]; [embedding] is a BLOB or NULL. *)
Module NeuronRow.
Record t : Type := mk {
  id : string;
  content : string;
  summary : string;
  embedding : option (list byte);
  file_path : string;
  start_line : Z;
  end_line : Z;
  type : NeuronType;
  name : string;
  language : string;
  activation_count : Z;
  last_activated : option string;
  created_at : string;
  updated_at : string
}.
End NeuronRow.

(** The part of the database the synapse and neuron methods touch.  A row
    of [synapses] has the columns of [Synapse.t]. *)
Record Store : Type := mkStore {
  neurons : list NeuronRow.t;
  synapses : list Synapse.t
}.

Definition empty_store : Store := mkStore [] [].

Definition set_synapses (s : Store) (l : list Synapse.t) : Store :=
  mkStore (neurons s) l.

Definition set_neurons (s : Store) (l : list NeuronRow.t) : Store :=
  mkStore l (synapses s).

(* ================================================================== *)
(** ** Statements that throw: state and exceptions *)

Inductive Exn : Type :=
| SqliteConstraintForeignKey
| SqliteConstraintPrimaryKey
| SqliteError
| RangeError.

Inductive Result (A : Type) : Type :=
| Ok (a : A)
| Throw (e : Exn).
Arguments Ok {A} a.
Arguments Throw {A} e.

Definition M (A : Type) : Type := Store -> Result A * Store.

Definition ret {A} (a : A) : M A := fun s => (Ok a, s).

Definition throw {A} (e : Exn) : M A := fun s => (Throw e, s).

Definition bind {A B} (c : M A) (k : A -> M B) : M B :=
  fun s => match c s with
           | (Ok a, s') => k a s'
           | (Throw e, s') => (Throw e, s')
           end.

Notation "x <- c ;; k" := (bind c (fun x => k))
  (at level 61, c at next level, right associativity).
Notation "c ;;; k" := (bind c (fun _ => k))
  (at level 61, right associativity).

(** [db.transaction(fn)]: commit when [fn] returns, roll back and rethrow
    when it throws. *)
Definition transaction {A} (body : M A) : M A :=
  fun s => match body s with
           | (Ok a, s') => (Ok a, s')
           | (Throw e, _) => (Throw e, s)
           end.

(** The store a computation leaves behind, and what it returns. *)
Definition exec {A} (c : M A) (s : Store) : Store := snd (c s).
Definition result {A} (c : M A) (s : Store) : Result A := fst (c s).

(* ================================================================== *)
(** ** db.ts: the methods of [NeuralDB] *)

Definition Qgt_bool (a b : Q) : bool := negb (Qle_bool a b).

Definition or_default (delta : option Q) (d : Q) : Q :=
  match delta with Some x => x | None => d end.

(** *** Neuron CRUD *)

(** [rowToNeuron]: a BLOB (a [Buffer], truthy also when empty) is copied
    through [Uint8Array] and viewed as floats; NULL reads as
    [new Float32Array(0)]. *)
Definition rowToNeuron (row : NeuronRow.t) : Result Neuron.t :=
  let embedding :=
    match NeuronRow.embedding row with
    | Some blob => Float32Array.of_buffer blob
    | None => Some Float32Array.empty
    end in
  match embedding with
  | None => Throw RangeError
  | Some e =>
      Ok (Neuron.mk (NeuronRow.id row) (NeuronRow.content row)
            (NeuronRow.summary row) e (NeuronRow.file_path row)
            (NeuronRow.start_line row) (NeuronRow.end_line row)
            (NeuronRow.type row) (NeuronRow.name row)
            (NeuronRow.language row) (NeuronRow.activation_count row)
            (NeuronRow.last_activated row) (NeuronRow.created_at row)
            (NeuronRow.updated_at row))
  end.

Definition getNeuron (id : string) : M (option Neuron.t) :=
  fun s =>
    match find (fun r => String.eqb (NeuronRow.id r) id) (neurons s) with
    | None => (Ok None, s)
    | Some row =>
        match rowToNeuron row with
        | Ok n => (Ok (Some n), s)
        | Throw e => (Throw e, s)
        end
    end.

(** [INSERT INTO neurons ...]: a second row with the same primary key is a
    constraint failure. *)
Definition insert_neuron (row : NeuronRow.t) : M unit :=
  fun s =>
    if existsb (fun r => String.eqb (NeuronRow.id r) (NeuronRow.id row))
         (neurons s)
    then (Throw SqliteConstraintPrimaryKey, s)
    else (Ok tt, set_neurons s (neurons s ++ [row])).

(** [createNeuron]; [id] is the value of [uuidv4()], [now] of
    [new Date().toISOString()].  [input.embedding] is an object, hence
    truthy, and [Buffer.from(input.embedding.buffer)] is the whole of the
    [ArrayBuffer] under the view.  The result is [getNeuron(id)!], which the
    non-null assertion does not change. *)
Definition createNeuron (input : NeuronCreateInput.t) (id now : string)
  : M (option Neuron.t) :=
  let embeddingBuffer :=
    Some (Float32Array.buffer (NeuronCreateInput.embedding input)) in
  insert_neuron
    (NeuronRow.mk id (NeuronCreateInput.content input)
       (NeuronCreateInput.summary input) embeddingBuffer
       (NeuronCreateInput.file_path input)
       (NeuronCreateInput.start_line input)
       (NeuronCreateInput.end_line input)
       (NeuronCreateInput.type input) (NeuronCreateInput.name input)
       (NeuronCreateInput.language input) 0 None now now) ;;;
  getNeuron id.

(** *** Synapse CRUD *)

Definition neuron_exists (id : string) (s : Store) : bool :=
  existsb (fun n => String.eqb (NeuronRow.id n) id) (neurons s).

(** The columns of [UNIQUE(source_id, target_id, type)]. *)
Definition same_edge (sourceId targetId : string) (ty : SynapseType)
  (r : Synapse.t) : bool :=
  String.eqb (Synapse.source_id r) sourceId &&
  String.eqb (Synapse.target_id r) targetId &&
  SynapseType_eqb (Synapse.type r) ty.

Definition conflicts (row r : Synapse.t) : bool :=
  String.eqb (Synapse.id r) (Synapse.id row) ||
  same_edge (Synapse.source_id row) (Synapse.target_id row)
    (Synapse.type row) r.

(** The row the INSERT of [createSynapse] appends when it appends one:
    [fire_count] and [last_fired] take their column defaults.  (For a NaN
    weight no row is appended, see below, and the weight here is not
    used.) *)
Definition new_synapse_row (input : SynapseCreateInput.t) (id now : string)
  : Synapse.t :=
  Synapse.mk id (SynapseCreateInput.source_id input)
    (SynapseCreateInput.target_id input)
    (number_value (SynapseCreateInput.weight input))
    (SynapseCreateInput.type input) (SynapseCreateInput.metadata input)
    0 None now.

(** [INSERT OR IGNORE INTO synapses ...] with [foreign_keys = ON], on the
    values [createSynapse] binds.  A NaN weight is bound as NULL: the row
    fails NOT NULL and is skipped.  A row that collides on the primary key
    or on the unique triple is skipped.  A row that is inserted must
    reference two neurons, and a foreign-key failure is not ignored. *)
Definition insert_or_ignore_synapse (input : SynapseCreateInput.t)
  (id now : string) : M unit :=
  fun s =>
    let row := new_synapse_row input id now in
    if is_NaN (SynapseCreateInput.weight input)
    then (Ok tt, s)
    else if existsb (conflicts row) (synapses s)
    then (Ok tt, s)
    else if neuron_exists (Synapse.source_id row) s &&
            neuron_exists (Synapse.target_id row) s
         then (Ok tt, set_synapses s (synapses s ++ [row]))
         else (Throw SqliteConstraintForeignKey, s).

(** [rowToSynapse]: [fire_count] is NOT NULL, so [?? 0] keeps it. *)
Definition rowToSynapse (row : Synapse.t) : Synapse.t := row.

Definition getSynapse (id : string) : M (option Synapse.t) :=
  fun s =>
    (Ok (option_map rowToSynapse
           (find (fun r => String.eqb (Synapse.id r) id) (synapses s))), s).

Definition createSynapse (input : SynapseCreateInput.t) (id now : string)
  : M (option Synapse.t) :=
  insert_or_ignore_synapse input id now ;;;
  getSynapse id.

(** [createSynapsesBatch]: each item comes with the [uuidv4()] drawn for
    it; the loop runs inside one transaction. *)
Fixpoint insertMany (items : list (string * SynapseCreateInput.t))
  (now : string) : M unit :=
  match items with
  | [] => ret tt
  | (id, input) :: rest =>
      insert_or_ignore_synapse input id now ;;;
      insertMany rest now
  end.

Definition createSynapsesBatch (inputs : list (string * SynapseCreateInput.t))
  (now : string) : M unit :=
  transaction (insertMany inputs now).

(** [UPDATE synapses SET ... WHERE ...]; the value is [result.changes], the
    number of rows the WHERE clause selects. *)
Definition update_synapses (where_ : Synapse.t -> bool)
  (set_ : Synapse.t -> Synapse.t) : M Z :=
  fun s =>
    (Ok (Z.of_nat (List.length (filter where_ (synapses s)))),
     set_synapses s
       (map (fun r => if where_ r then set_ r else r) (synapses s))).

Definition between (sourceId targetId : string) (r : Synapse.t) : bool :=
  String.eqb (Synapse.source_id r) sourceId &&
  String.eqb (Synapse.target_id r) targetId.

Definition strengthened (delta : Q) (now : string) (r : Synapse.t)
  : Synapse.t :=
  Synapse.mk (Synapse.id r) (Synapse.source_id r) (Synapse.target_id r)
    (Qmin 1 (Synapse.weight r + delta))
    (Synapse.type r) (Synapse.metadata r)
    (Synapse.fire_count r + 1) (Some now) (Synapse.created_at r).

Definition weakened (delta : Q) (r : Synapse.t) : Synapse.t :=
  Synapse.mk (Synapse.id r) (Synapse.source_id r) (Synapse.target_id r)
    (Qmax 0 (Synapse.weight r - delta))
    (Synapse.type r) (Synapse.metadata r)
    (Synapse.fire_count r) (Synapse.last_fired r) (Synapse.created_at r).

(** [strengthenSynapse(sourceId, targetId, delta = 0.05)]; [now] is
    [datetime('now')]. *)
Definition strengthenSynapse (sourceId targetId : string)
  (delta : option Q) (now : string) : M unit :=
  update_synapses (between sourceId targetId)
    (strengthened (or_default delta 0.05) now) ;;; ret tt.

(** [weakenSynapse(sourceId, targetId, delta = 0.01)]. *)
Definition weakenSynapse (sourceId targetId : string) (delta : option Q)
  : M unit :=
  update_synapses (between sourceId targetId)
    (weakened (or_default delta 0.01)) ;;; ret tt.

(** [findOrCreateCoActivationSynapse]; [id] and [now_iso] are read only on
    the create path, [now_sql] only on the strengthen path. *)
Definition findOrCreateCoActivationSynapse (sourceId targetId : string)
  (id now_iso now_sql : string) : M unit :=
  fun s =>
    match find (same_edge sourceId targetId co_activation) (synapses s) with
    | Some _ => strengthenSynapse sourceId targetId None now_sql s
    | None =>
        (createSynapse
           (SynapseCreateInput.mk sourceId targetId 0.3 co_activation None)
           id now_iso ;;; ret tt) s
    end.

Section Decay.
(** SQLite's [julianday] on a stored timestamp; NULL ([None]) when the
    text is no date. *)
Variable julianday : string -> option Q.

(** The WHERE clause of [decayUnusedSynapses]; [jnow] is
    [julianday('now')].  A comparison with NULL is not true. *)
Definition stale (daysOld jnow : Q) (r : Synapse.t) : bool :=
  match Synapse.last_fired r with
  | None => false
  | Some t =>
      match julianday t with
      | None => false
      | Some j => Qgt_bool (jnow - j) daysOld
      end
  end &&
  SynapseType_eqb (Synapse.type r) co_activation.

(** [decayUnusedSynapses(daysOld = 7, delta = 0.01)]. *)
Definition decayUnusedSynapses (daysOld delta : option Q) (jnow : Q)
  : M Z :=
  update_synapses (stale (or_default daysOld 7) jnow)
    (weakened (or_default delta 0.01)).
End Decay.

(* ================================================================== *)
(** ** The weight of a strengthened synapse in binary64 *)

Module Binary64.

(** The arithmetic of the REAL column: IEEE 754 binary64, rounding to
    nearest, ties to even. *)
Definition add : spec_float -> spec_float -> spec_float := SFadd 53 1024.








End Binary64.

(* ================================================================== *)
(** ** db.ts: schema migration *)

Module Migration.

Definition SCHEMA_VERSION : Z := 1.

(** A schema object as the statements of [migrate] tell them apart: a
    table with the names of its columns, or an index on a column of a
    table.  Views and triggers are not modelled. *)
Inductive Kind : Type :=
| TableOf (columns : list string)
| IndexOn (table column : string).

(** What [migrate] reads and writes of the database file: the [_meta]
    table with its columns [key] and [value] ([None] while there is
    none), and the other objects under their names.  An entry of
    [objects] under the name [_meta] is an object of that name that is no
    such table.  Rows of the data tables are not touched by a
    migration. *)
Record Database : Type := mkDatabase {
  meta : option (list (string * string));
  objects : list (string * Kind)
}.

(** SQLite compares the names of objects and of columns without regard to
    ASCII case. *)
Definition lower (c : ascii) : ascii :=
  let n := nat_of_ascii c in
  if ((65 <=? n) && (n <=? 90))%nat then ascii_of_nat (n + 32) else c.

Fixpoint lower_name (s : string) : string :=
  match s with
  | String c rest => String (lower c) (lower_name rest)
  | EmptyString => EmptyString
  end.

Definition same_name (a b : string) : bool :=
  String.eqb (lower_name a) (lower_name b).

Definition lookup (name : string) (objs : list (string * Kind))
  : option Kind :=
  option_map snd (find (fun o => same_name (fst o) name) objs).

(** [parseInt(text, 10)] on ASCII text: leading white space, an optional
    sign, then the longest run of decimal digits; [None] is NaN. *)
Definition is_space (c : ascii) : bool :=
  let n := nat_of_ascii c in
  ((9 <=? n) && (n <=? 13) || (n =? 32))%nat.

Definition digit_of (c : ascii) : option Z :=
  let n := nat_of_ascii c in
  if ((48 <=? n) && (n <=? 57))%nat then Some (Z.of_nat n - 48) else None.

Fixpoint skip_space (s : string) : string :=
  match s with
  | String c rest => if is_space c then skip_space rest else s
  | EmptyString => s
  end.

Fixpoint digits (acc : option Z) (s : string) : option Z :=
  match s with
  | String c rest =>
      match digit_of c with
      | Some d =>
          digits (Some (10 * match acc with Some a => a | None => 0 end + d))
            rest
      | None => acc
      end
  | EmptyString => acc
  end.

Definition parseInt (text : string) : option Z :=
  match skip_space text with
  | String "-" rest => option_map Z.opp (digits None rest)
  | String "+" rest => digits None rest
  | s => digits None s
  end.

(** [SELECT value FROM _meta WHERE key = 'schema_version'] *)
Definition select_version (rows : list (string * string)) : option string :=
  option_map snd (find (fun kv => String.eqb (fst kv) "schema_version") rows).

(** [INSERT OR REPLACE INTO _meta (key, value) VALUES (k, v)] *)
Definition insert_or_replace (k v : string) (rows : list (string * string))
  : list (string * string) :=
  filter (fun kv => negb (String.eqb (fst kv) k)) rows ++ [(k, v)].

(** [CREATE TABLE IF NOT EXISTS name (columns)]: nothing to do when a
    table of the name exists, whatever its columns; an index of the name
    is an error. *)
Definition create_table_if_not_exists (name : string) (columns : list string)
  (objs : list (string * Kind)) : Result (list (string * Kind)) :=
  match lookup name objs with
  | Some (TableOf _) => Ok objs
  | Some (IndexOn _ _) => Throw SqliteError
  | None => Ok (objs ++ [(name, TableOf columns)])%list
  end.

(** [CREATE INDEX IF NOT EXISTS name ON table(column)]: the table must
    exist; a table of the index's name is an error; nothing to do when an
    index of the name exists, on whatever column; otherwise the column
    must be one of the table. *)
Definition create_index_if_not_exists (name table column : string)
  (objs : list (string * Kind)) : Result (list (string * Kind)) :=
  match lookup table objs with
  | Some (TableOf columns) =>
      match lookup name objs with
      | Some (TableOf _) => Throw SqliteError
      | Some (IndexOn _ _) => Ok objs
      | None =>
          if existsb (same_name column) columns
          then Ok (objs ++ [(name, IndexOn table column)])%list
          else Throw SqliteError
      end
  | _ => Throw SqliteError
  end.

Inductive Statement : Type :=
| CreateTable (name : string) (columns : list string)
| CreateIndex (name table column : string).

Definition run_statement (st : Statement) (objs : list (string * Kind))
  : Result (list (string * Kind)) :=
  match st with
  | CreateTable name columns => create_table_if_not_exists name columns objs
  | CreateIndex name table column =>
      create_index_if_not_exists name table column objs
  end.

(** [db.exec(script)]: one statement after the other, each committed as
    it ends; the first failure stops the script and what ran before it
    stays. *)
Fixpoint exec_script (script : list Statement) (objs : list (string * Kind))
  : Result unit * list (string * Kind) :=
  match script with
  | [] => (Ok tt, objs)
  | st :: rest =>
      match run_statement st objs with
      | Ok objs' => exec_script rest objs'
      | Throw e => (Throw e, objs)
      end
  end.

Definition version1_tables : list Statement :=
  [CreateTable "neurons"
     ["id"; "content"; "summary"; "embedding"; "file_path"; "start_line";
      "end_line"; "type"; "name"; "language"; "activation_count";
      "last_activated"; "created_at"; "updated_at"];
   CreateTable "synapses"
     ["id"; "source_id"; "target_id"; "weight"; "type"; "metadata";
      "fire_count"; "last_fired"; "created_at"];
   CreateTable "indexed_files"
     ["path"; "language"; "neuron_count"; "last_indexed"; "content_hash"];
   CreateTable "query_log"
     ["id"; "query"; "activated_neuron_ids"; "used_neuron_ids"; "timestamp"]].

Definition version1_indexes : list Statement :=
  [CreateIndex "idx_neurons_file" "neurons" "file_path";
   CreateIndex "idx_neurons_type" "neurons" "type";
   CreateIndex "idx_neurons_name" "neurons" "name";
   CreateIndex "idx_synapses_source" "synapses" "source_id";
   CreateIndex "idx_synapses_target" "synapses" "target_id";
   CreateIndex "idx_synapses_type" "synapses" "type"].

(** The script of the version-1 block. *)
Definition version1_script : list Statement :=
  (version1_tables ++ version1_indexes)%list.

(** What the script creates on a file that has none of it. *)
Definition object_of (st : Statement) : string * Kind :=
  match st with
  | CreateTable name columns => (name, TableOf columns)
  | CreateIndex name table column => (name, IndexOn table column)
  end.

Definition version1_objects : list (string * Kind) :=
  map object_of version1_script.

(** [currentVersion < 1]; a comparison with NaN is false. *)
Definition below_1 (currentVersion : option Z) : bool :=
  match currentVersion with
  | Some v => v <? 1
  | None => false
  end.

(** [String(SCHEMA_VERSION)] *)
Definition SCHEMA_VERSION_text : string := "1".

(** [CREATE TABLE IF NOT EXISTS _meta] and the SELECT of the version
    row: the rows of [_meta], created empty when there is none; an index
    of that name fails the CREATE, a table of that name without the two
    columns fails the SELECT. *)
Definition meta_rows (db : Database) : Result (list (string * string)) :=
  match meta db with
  | Some rows => Ok rows
  | None =>
      match lookup "_meta" (objects db) with
      | Some _ => Throw SqliteError
      | None => Ok []
      end
  end.

(** [migrate]: the value is how it ended, with the file it leaves. *)
Definition migrate (db : Database) : Result unit * Database :=
  match meta_rows db with
  | Throw e => (Throw e, db)
  | Ok rows =>
      let currentVersion :=
        match select_version rows with
        | Some value => parseInt value
        | None => Some 0
        end in
      if below_1 currentVersion
      then
        match exec_script version1_script (objects db) with
        | (Throw e, objs) => (Throw e, mkDatabase (Some rows) objs)
        | (Ok _, objs) =>
            (Ok tt,
             mkDatabase
               (Some (insert_or_replace "schema_version" SCHEMA_VERSION_text
                        rows))
               objs)
        end
      else (Ok tt, mkDatabase (Some rows) (objects db))
  end.

(** The constructor opens the file, sets two pragmas and calls
    [migrate]: the file it returns with, or what it throws. *)
Definition open (db : Database) : Result Database :=
  match migrate db with
  | (Ok _, db') => Ok db'
  | (Throw e, _) => Throw e
  end.


(** The version a file records, when it records one that reads as an
    integer. *)
Definition stored_version (db : Database) : option Z :=
  match meta db with
  | Some rows =>
      match select_version rows with
      | Some value => parseInt value
      | None => None
      end
  | None => None
  end.

(** A file written by a later release: version 2, with a table this
    release does not know. *)
Definition newer_file : Database :=
  mkDatabase (Some [("schema_version", "2")])
    (version1_objects ++ [("neuron_tags", TableOf ["neuron_id"; "tag"])])%list.


End Migration.

(* ================================================================== *)
(** ** Sequences of calls *)

Section Calls.
Variable julianday : string -> option Q.

(** One call of a public method, with the values it reads from its
    environment. *)
Inductive Call : Type :=
| CreateNeuron (input : NeuronCreateInput.t) (id now : string)
| CreateSynapse (input : SynapseCreateInput.t) (id now : string)
| CreateSynapsesBatch (inputs : list (string * SynapseCreateInput.t))
    (now : string)
| StrengthenSynapse (sourceId targetId : string) (delta : option Q)
    (now : string)
| WeakenSynapse (sourceId targetId : string) (delta : option Q)
| DecayUnusedSynapses (daysOld delta : option Q) (jnow : Q)
| FindOrCreateCoActivationSynapse (sourceId targetId : string)
    (id now_iso now_sql : string).

(** The store after a call, whether it returned or threw. *)
Definition call (s : Store) (c : Call) : Store :=
  match c with
  | CreateNeuron input id now => exec (createNeuron input id now) s
  | CreateSynapse input id now => exec (createSynapse input id now) s
  | CreateSynapsesBatch inputs now => exec (createSynapsesBatch inputs now) s
  | StrengthenSynapse a b delta now => exec (strengthenSynapse a b delta now) s
  | WeakenSynapse a b delta => exec (weakenSynapse a b delta) s
  | DecayUnusedSynapses daysOld delta jnow =>
      exec (decayUnusedSynapses julianday daysOld delta jnow) s
  | FindOrCreateCoActivationSynapse a b id now_iso now_sql =>
      exec (findOrCreateCoActivationSynapse a b id now_iso now_sql) s
  end.

Definition run (cs : list Call) (s : Store) : Store :=
  fold_left call cs s.
End Calls.


(* ================================================================== *)
(** ** Properties of stores and of calls *)

Local Open Scope Q_scope.

Definition weight_in_range (s : Store) : Prop :=
  Forall (fun r => 0 <= Synapse.weight r /\ Synapse.weight r <= 1)
    (synapses s).

Definition input_weight_in_range (input : SynapseCreateInput.t) : Prop :=
  match SynapseCreateInput.weight input with
  | Finite w => 0 <= w /\ w <= 1
  | NaN => False
  end.

(** Created weights lie in [[0, 1]] and no delta is negative. *)
Definition weights_admissible (c : Call) : Prop :=
  match c with
  | CreateSynapse input _ _ => input_weight_in_range input
  | CreateSynapsesBatch inputs _ =>
      Forall (fun item => input_weight_in_range (snd item)) inputs
  | StrengthenSynapse _ _ delta _ => 0 <= or_default delta 0.05
  | WeakenSynapse _ _ delta => 0 <= or_default delta 0.01
  | DecayUnusedSynapses _ delta _ => 0 <= or_default delta 0.01
  | CreateNeuron _ _ _ | FindOrCreateCoActivationSynapse _ _ _ _ _ => True
  end.

Definition no_self_loop (s : Store) : Prop :=
  Forall (fun r => Synapse.source_id r <> Synapse.target_id r) (synapses s).

(** The caller names two different neurons. *)
Definition distinct_endpoints (c : Call) : Prop :=
  match c with
  | CreateSynapse input _ _ =>
      SynapseCreateInput.source_id input <> SynapseCreateInput.target_id input
  | CreateSynapsesBatch inputs _ =>
      Forall (fun item => SynapseCreateInput.source_id (snd item) <>
                          SynapseCreateInput.target_id (snd item)) inputs
  | FindOrCreateCoActivationSynapse a b _ _ _ => a <> b
  | _ => True
  end.

(** [UNIQUE(source_id, target_id, type)] as a property of the table. *)
Definition edge_key (r : Synapse.t) : string * string * SynapseType :=
  (Synapse.source_id r, Synapse.target_id r, Synapse.type r).

Definition unique_edges (s : Store) : Prop :=
  NoDup (map edge_key (synapses s)).

(** [id] is the primary key of no row: what [uuidv4()] is relied on for. *)
Definition fresh_id (id : string) (s : Store) : Prop :=
  existsb (fun r => String.eqb (Synapse.id r) id) (synapses s) = false.

Definition edge_exists (a b : string) (ty : SynapseType) (s : Store) : Prop :=
  existsb (same_edge a b ty) (synapses s) = true.

Definition edge_of (input : SynapseCreateInput.t) : Synapse.t -> bool :=
  same_edge (SynapseCreateInput.source_id input)
    (SynapseCreateInput.target_id input) (SynapseCreateInput.type input).

(** The unique key an input asks for. *)
Definition input_key (input : SynapseCreateInput.t)
  : string * string * SynapseType :=
  (SynapseCreateInput.source_id input, SynapseCreateInput.target_id input,
   SynapseCreateInput.type input).

(* ================================================================== *)
(** ** A small store to evaluate on *)

Module Sample.
Local Open Scope string_scope.

Definition vec : Float32Array.t :=
  Float32Array.mk [x00; x00; x80; x3f; x00; x00; x00; x40] 0 2.

Definition chunk (name : string) : NeuronCreateInput.t :=
  NeuronCreateInput.mk "export const x = 1" "a constant" vec "src/a.ts"
    1 3 nt_variable name "ts".

(** Two neurons, [N1] and [N3], and no synapse. *)
Definition two_neurons : Store :=
  exec (createNeuron (chunk "y") "N3" "2026-01-01T00:00:00.000Z")
    (exec (createNeuron (chunk "x") "N1" "2026-01-01T00:00:00.000Z")
       empty_store).

Definition edge (ty : SynapseType) (w : Q) : SynapseCreateInput.t :=
  SynapseCreateInput.mk "N1" "N3" w ty None.

(** [N1 -> N3] twice: an [imports] edge and a [co_activation] edge. *)
Definition two_edges : Store :=
  exec (createSynapse (edge co_activation 0.3) "S2"
          "2026-01-02T00:00:00.000Z")
    (exec (createSynapse (edge imports 0.5) "S1"
             "2026-01-02T00:00:00.000Z") two_neurons).

(** The same edges after they fired once: [strengthenSynapse] has set
    [last_fired] on both. *)
Definition fired_edges : Store :=
  exec (strengthenSynapse "N1" "N3" (Some 0.1) "2026-01-03 00:00:00")
    two_edges.

(** [new Float32Array([1, 2]).subarray(1)]: the second of two floats, a
    view of length 1 at byte 4 of an 8-byte buffer. *)
Definition subarray : Float32Array.t :=
  Float32Array.mk [x00; x00; x80; x3f; x00; x00; x00; x40] 4 1.

(** [new Float32Array(new ArrayBuffer(10), 0, 2)]: two floats at the
    start of a buffer of ten bytes. *)
Definition odd_buffer : Float32Array.t :=
  Float32Array.mk [x00; x00; x80; x3f; x00; x00; x00; x40; x00; x00] 0 2.

Definition chunk_of (e : Float32Array.t) : NeuronCreateInput.t :=
  NeuronCreateInput.mk "export const x = 1" "a constant" e "src/a.ts"
    1 3 nt_variable "x" "ts".

(** A [julianday] that knows two timestamps. *)
Definition julianday (t : string) : option Q :=
  if String.eqb t "2026-01-03 00:00:00" then Some 2461043.5
  else if String.eqb t "2026-01-20 00:00:00" then Some 2461060.5
  else None.
End Sample.

(* ================================================================== *)
(** ** Repeated co-activation *)

(** One call of [findOrCreateCoActivationSynapse(a, b)]; [env] is the uuid
    and the two clock readings it may use. *)
Definition observe_co_activation (a b : string)
  (env : string * string * string) : Call :=
  let '(id, now_iso, now_sql) := env in
  FindOrCreateCoActivationSynapse a b id now_iso now_sql.


(* ================================================================== *)
(** ** db.ts: the other methods on neurons and synapses *)

(** [ORDER BY]: the rows in key order.  SQLite leaves the order of rows
    with equal keys open; here they stay in table order. *)
Fixpoint insert_sorted {A} (leb : A -> A -> bool) (x : A) (l : list A)
  : list A :=
  match l with
  | [] => [x]
  | y :: rest => if leb x y then x :: l else y :: insert_sorted leb x rest
  end.

Definition order_by {A} (leb : A -> A -> bool) (l : list A) : list A :=
  fold_right (insert_sorted leb) [] l.

(** The row the INSERT of [createNeuron] and of [createNeuronsBatch]
    binds. *)
Definition neuron_row (input : NeuronCreateInput.t) (id now : string)
  : NeuronRow.t :=
  NeuronRow.mk id (NeuronCreateInput.content input)
    (NeuronCreateInput.summary input)
    (Some (Float32Array.buffer (NeuronCreateInput.embedding input)))
    (NeuronCreateInput.file_path input)
    (NeuronCreateInput.start_line input)
    (NeuronCreateInput.end_line input)
    (NeuronCreateInput.type input) (NeuronCreateInput.name input)
    (NeuronCreateInput.language input) 0 None now now.

(** [createNeuronsBatch]: each input comes with the [uuidv4()] drawn for
    it; the loop runs inside one transaction and the ids are returned in
    input order. *)
Fixpoint insertManyNeurons (items : list (string * NeuronCreateInput.t))
  (now : string) : M unit :=
  match items with
  | [] => ret tt
  | (id, input) :: rest =>
      insert_neuron (neuron_row input id now) ;;;
      insertManyNeurons rest now
  end.

Definition createNeuronsBatch (inputs : list (string * NeuronCreateInput.t))
  (now : string) : M (list string) :=
  transaction (insertManyNeurons inputs now) ;;; ret (map fst inputs).

(** [rows.map(r => this.rowToNeuron(r))]: the first row that does not
    convert throws. *)
Fixpoint rowsToNeurons (rows : list NeuronRow.t) : Result (list Neuron.t) :=
  match rows with
  | [] => Ok []
  | row :: rest =>
      match rowToNeuron row with
      | Throw e => Throw e
      | Ok n =>
          match rowsToNeurons rest with
          | Throw e => Throw e
          | Ok ns => Ok (n :: ns)
          end
      end
  end.

Definition in_file (filePath : string) (r : NeuronRow.t) : bool :=
  String.eqb (NeuronRow.file_path r) filePath.

Definition by_start_line (x y : NeuronRow.t) : bool :=
  (NeuronRow.start_line x <=? NeuronRow.start_line y)%Z.

(** [ORDER BY file_path, start_line]: texts compare byte by byte. *)
Definition by_file_then_line (x y : NeuronRow.t) : bool :=
  match String.compare (NeuronRow.file_path x) (NeuronRow.file_path y) with
  | Lt => true
  | Eq => by_start_line x y
  | Gt => false
  end.

Definition getNeuronsByFile (filePath : string) : M (list Neuron.t) :=
  fun s =>
    match rowsToNeurons
            (order_by by_start_line (filter (in_file filePath) (neurons s)))
    with
    | Ok ns => (Ok ns, s)
    | Throw e => (Throw e, s)
    end.

Definition getAllNeurons : M (list Neuron.t) :=
  fun s =>
    match rowsToNeurons (order_by by_file_then_line (neurons s)) with
    | Ok ns => (Ok ns, s)
    | Throw e => (Throw e, s)
    end.

Definition mem_id (id : string) (ids : list string) : bool :=
  existsb (String.eqb id) ids.

(** [deleteNeuronsByFile]: with [foreign_keys = ON] the two
    [ON DELETE CASCADE] references delete every synapse that starts or
    ends at a deleted neuron; [result.changes] counts the neurons only. *)
Definition deleteNeuronsByFile (filePath : string) : M Z :=
  fun s =>
    let deleted := map NeuronRow.id (filter (in_file filePath) (neurons s)) in
    (Ok (Z.of_nat (List.length deleted)),
     mkStore
       (filter (fun r => negb (in_file filePath r)) (neurons s))
       (filter (fun r => negb (mem_id (Synapse.source_id r) deleted ||
                               mem_id (Synapse.target_id r) deleted))
          (synapses s))).

Definition activated (now : string) (r : NeuronRow.t) : NeuronRow.t :=
  NeuronRow.mk (NeuronRow.id r) (NeuronRow.content r) (NeuronRow.summary r)
    (NeuronRow.embedding r) (NeuronRow.file_path r) (NeuronRow.start_line r)
    (NeuronRow.end_line r) (NeuronRow.type r) (NeuronRow.name r)
    (NeuronRow.language r) (NeuronRow.activation_count r + 1) (Some now)
    (NeuronRow.created_at r) now.

(** [updateNeuronActivation]; [now] is [datetime('now')]. *)
Definition updateNeuronActivation (id now : string) : M unit :=
  fun s =>
    (Ok tt,
     set_neurons s
       (map (fun r => if String.eqb (NeuronRow.id r) id
                      then activated now r else r) (neurons s))).

(** [ORDER BY weight DESC] *)
Definition by_weight_desc (x y : Synapse.t) : bool :=
  Qle_bool (Synapse.weight y) (Synapse.weight x).

Definition from_neuron (neuronId : string) (r : Synapse.t) : bool :=
  String.eqb (Synapse.source_id r) neuronId.

Definition to_neuron (neuronId : string) (r : Synapse.t) : bool :=
  String.eqb (Synapse.target_id r) neuronId.

Definition select_synapses (where_ : Synapse.t -> bool)
  : M (list Synapse.t) :=
  fun s =>
    (Ok (map rowToSynapse (order_by by_weight_desc (filter where_ (synapses s)))),
     s).

Definition getOutgoingSynapses (neuronId : string) : M (list Synapse.t) :=
  select_synapses (from_neuron neuronId).

Definition getIncomingSynapses (neuronId : string) : M (list Synapse.t) :=
  select_synapses (to_neuron neuronId).

Definition getConnectedSynapses (neuronId : string) : M (list Synapse.t) :=
  select_synapses (fun r => from_neuron neuronId r || to_neuron neuronId r).

(* ================================================================== *)
(** ** db.ts: indexed files, the query log, statistics *)

Module IndexedFile.
Record t : Type := mk {
  path : string;
  language : string;
  neuron_count : Z;
  last_indexed : string;
  content_hash : string
}.
End IndexedFile.

(** [Omit<IndexedFile, 'last_indexed'>] *)
Module IndexedFileInput.
Record t : Type := mk {
  path : string;
  language : string;
  neuron_count : Z;
  content_hash : string
}.
End IndexedFileInput.

(** A row of [query_log]; the two id lists stand for their JSON text. *)
Module QueryLog.
Record t : Type := mk {
  id : string;
  query : string;
  activated_neuron_ids : list string;
  used_neuron_ids : option (list string);
  timestamp : string
}.
End QueryLog.

Module GraphStats.
Record t : Type := mk {
  neuron_count : Z;
  synapse_count : Z;
  file_count : Z;
  languages : list string;
  last_indexed : option string;
  total_queries : Z;
  avg_activation_depth : Z
}.
End GraphStats.

(** The four data tables of [brain.db]. *)
Record Brain : Type := mkBrain {
  graph : Store;
  indexed_files : list IndexedFile.t;
  query_log : list QueryLog.t
}.

Definition empty_brain : Brain := mkBrain empty_store [] [].

Definition has_path (p : string) (f : IndexedFile.t) : bool :=
  String.eqb (IndexedFile.path f) p.

(** [upsertIndexedFile]: INSERT OR REPLACE deletes the row of the same
    path, if any, and inserts the new one; [now] is [datetime('now')]. *)
Definition upsertIndexedFile (file : IndexedFileInput.t) (now : string)
  (b : Brain) : Brain :=
  mkBrain (graph b)
    (filter (fun f => negb (has_path (IndexedFileInput.path file) f))
       (indexed_files b)
     ++ [IndexedFile.mk (IndexedFileInput.path file)
           (IndexedFileInput.language file)
           (IndexedFileInput.neuron_count file) now
           (IndexedFileInput.content_hash file)])
    (query_log b).

(** [getIndexedFile]: the row, or [undefined] ([None]) when there is
    none. *)
Definition getIndexedFile (filePath : string) (b : Brain)
  : option IndexedFile.t :=
  find (has_path filePath) (indexed_files b).

Definition getAllIndexedFiles (b : Brain) : list IndexedFile.t :=
  indexed_files b.

Definition deleteIndexedFile (filePath : string) (b : Brain) : Brain :=
  mkBrain (graph b)
    (filter (fun f => negb (has_path filePath f)) (indexed_files b))
    (query_log b).

(** [logQuery]; [id] is [uuidv4()], [now] the column default
    [datetime('now')].  A plain INSERT: a used primary key is a constraint
    failure.  [usedIds], when given, is an array and hence truthy. *)
Definition logQuery (query : string) (activatedIds : list string)
  (usedIds : option (list string)) (id now : string) (b : Brain)
  : Result unit * Brain :=
  if existsb (fun q => String.eqb (QueryLog.id q) id) (query_log b)
  then (Throw SqliteConstraintPrimaryKey, b)
  else (Ok tt,
        mkBrain (graph b) (indexed_files b)
          (query_log b ++ [QueryLog.mk id query activatedIds usedIds now])).

(** [MAX(text)] with the BINARY collation; NULL on no rows. *)
Definition max_text (l : list string) : option string :=
  fold_left
    (fun acc t =>
       match acc with
       | None => Some t
       | Some m => if String.leb m t then Some t else Some m
       end) l None.

(** [SELECT DISTINCT language FROM neurons WHERE language != ''] *)
Definition distinct_languages (rows : list NeuronRow.t) : list string :=
  nodup string_dec
    (filter (fun l => negb (String.eqb l EmptyString))
       (map NeuronRow.language rows)).

Definition getStats (b : Brain) : GraphStats.t :=
  GraphStats.mk
    (Z.of_nat (List.length (neurons (graph b))))
    (Z.of_nat (List.length (synapses (graph b))))
    (Z.of_nat (List.length (indexed_files b)))
    (distinct_languages (neurons (graph b)))
    (max_text (map IndexedFile.last_indexed (indexed_files b)))
    (Z.of_nat (List.length (query_log b)))
    0.

(** [clearAll]: the four DELETEs. *)
Definition clearAll (b : Brain) : Brain := mkBrain (mkStore [] []) [] [].

(** A method on the graph tables, run on the database. *)
Definition on_graph {A} (c : M A) (b : Brain) : Brain :=
  mkBrain (exec c (graph b)) (indexed_files b) (query_log b).

Section Actions.
Variable julianday : string -> option Q.

(** One call of any method that writes, with what it reads from its
    environment. *)
Inductive Action : Type :=
| OnGraph (c : Call)
| CreateNeuronsBatch (inputs : list (string * NeuronCreateInput.t))
    (now : string)
| DeleteNeuronsByFile (filePath : string)
| UpdateNeuronActivation (id now : string)
| UpsertIndexedFile (file : IndexedFileInput.t) (now : string)
| DeleteIndexedFile (filePath : string)
| LogQuery (query : string) (activatedIds : list string)
    (usedIds : option (list string)) (id now : string)
| ClearAll.

Definition perform (b : Brain) (a : Action) : Brain :=
  match a with
  | OnGraph c =>
      mkBrain (call julianday (graph b) c) (indexed_files b) (query_log b)
  | CreateNeuronsBatch inputs now => on_graph (createNeuronsBatch inputs now) b
  | DeleteNeuronsByFile filePath => on_graph (deleteNeuronsByFile filePath) b
  | UpdateNeuronActivation id now => on_graph (updateNeuronActivation id now) b
  | UpsertIndexedFile file now => upsertIndexedFile file now b
  | DeleteIndexedFile filePath => deleteIndexedFile filePath b
  | LogQuery query activatedIds usedIds id now =>
      snd (logQuery query activatedIds usedIds id now b)
  | ClearAll => clearAll b
  end.

Definition perform_all (acts : list Action) (b : Brain) : Brain :=
  fold_left perform acts b.
End Actions.

(** *** The constraints the schema declares *)

(** [PRIMARY KEY] of [neurons] and of [synapses]. *)
Definition unique_neuron_ids (s : Store) : Prop :=
  NoDup (map NeuronRow.id (neurons s)).

Definition unique_synapse_ids (s : Store) : Prop :=
  NoDup (map Synapse.id (synapses s)).

(** The two [REFERENCES neurons(id)]. *)
Definition endpoints_exist (s : Store) : Prop :=
  Forall (fun r => neuron_exists (Synapse.source_id r) s = true /\
                   neuron_exists (Synapse.target_id r) s = true)
    (synapses s).

(** [PRIMARY KEY] of [indexed_files] and of [query_log]. *)
Definition unique_paths (b : Brain) : Prop :=
  NoDup (map IndexedFile.path (indexed_files b)).

Definition unique_query_ids (b : Brain) : Prop :=
  NoDup (map QueryLog.id (query_log b)).

(** What the schema declares of the two graph tables, and of the
    database. *)
Definition graph_constraints (s : Store) : Prop :=
  unique_neuron_ids s /\
  unique_synapse_ids s /\
  unique_edges s /\
  endpoints_exist s.

Definition schema_holds (b : Brain) : Prop :=
  graph_constraints (graph b) /\
  unique_paths b /\
  unique_query_ids b.

(** The uuids drawn for a batch are new and pairwise different. *)
Definition fresh_ids {I} (items : list (string * I)) (s : Store) : Prop :=
  NoDup (map fst items) /\
  Forall (fun item => fresh_id (fst item) s) items.

Definition endpoints_stored (input : SynapseCreateInput.t) (s : Store)
  : bool :=
  neuron_exists (SynapseCreateInput.source_id input) s &&
  neuron_exists (SynapseCreateInput.target_id input) s.

Definition fresh_neuron_ids (inputs : list (string * NeuronCreateInput.t))
  (s : Store) : Prop :=
  NoDup (map fst inputs) /\
  Forall (fun item => neuron_exists (fst item) s = false) inputs.

(** The view shows the whole of its buffer. *)
Definition whole_buffer (e : Float32Array.t) : Prop :=
  Float32Array.byteOffset e = O /\
  (4 * Float32Array.length e)%nat = List.length (Float32Array.buffer e).

(** The neuron [createNeuron] is to return for an input. *)
Definition neuron_of (input : NeuronCreateInput.t) (id now : string)
  : Neuron.t :=
  Neuron.mk id (NeuronCreateInput.content input)
    (NeuronCreateInput.summary input) (NeuronCreateInput.embedding input)
    (NeuronCreateInput.file_path input) (NeuronCreateInput.start_line input)
    (NeuronCreateInput.end_line input) (NeuronCreateInput.type input)
    (NeuronCreateInput.name input) (NeuronCreateInput.language input)
    0 None now now.
(* ================================================================== *)
(** ** Basic facts about the statements *)

Lemma SynapseType_eqb_eq a b : SynapseType_eqb a b = true <-> a = b.
Proof. destruct a, b; simpl; split; intros H; try reflexivity; discriminate H. Qed.

Lemma SynapseType_eqb_refl a : SynapseType_eqb a a = true.
Proof. now apply SynapseType_eqb_eq. Qed.


Ltac unfold_m :=
  unfold exec, result, createSynapse, strengthenSynapse, weakenSynapse,
    getSynapse, update_synapses, bind, ret, throw in *.

Lemma update_synapses_rows where_ set_ s :
  synapses (exec (update_synapses where_ set_) s) =
  map (fun r => if where_ r then set_ r else r) (synapses s).
Proof. reflexivity. Qed.

Lemma update_synapses_neurons where_ set_ s :
  neurons (exec (update_synapses where_ set_) s) = neurons s.
Proof. reflexivity. Qed.

Lemma strengthenSynapse_rows a b delta now s :
  synapses (exec (strengthenSynapse a b delta now) s) =
  map (fun r => if between a b r
                then strengthened (or_default delta 0.05) now r else r)
    (synapses s).
Proof. reflexivity. Qed.

Lemma weakenSynapse_rows a b delta s :
  synapses (exec (weakenSynapse a b delta) s) =
  map (fun r => if between a b r
                then weakened (or_default delta 0.01) r else r)
    (synapses s).
Proof. reflexivity. Qed.

Lemma same_edge_conflicts row r :
  same_edge (Synapse.source_id row) (Synapse.target_id row)
    (Synapse.type row) r = true ->
  conflicts row r = true.
Proof. unfold conflicts. intros ->. apply orb_true_r. Qed.

Lemma same_edge_iff a b ty r :
  same_edge a b ty r = true <->
  Synapse.source_id r = a /\ Synapse.target_id r = b /\ Synapse.type r = ty.
Proof.
  unfold same_edge.
  rewrite !andb_true_iff, !String.eqb_eq, SynapseType_eqb_eq. tauto.
Qed.

Lemma between_iff a b r :
  between a b r = true <->
  Synapse.source_id r = a /\ Synapse.target_id r = b.
Proof. unfold between. now rewrite andb_true_iff, !String.eqb_eq. Qed.


Lemma find_none_existsb {A} (f : A -> bool) l :
  find f l = None <-> existsb f l = false.
Proof.
  induction l as [|x l IH]; simpl; [tauto|].
  destruct (f x); simpl; [split; discriminate | exact IH].
Qed.

Lemma filter_nil_existsb {A} (f : A -> bool) l :
  existsb f l = false -> filter f l = [].
Proof.
  induction l as [|x l IH]; simpl; [reflexivity|].
  destruct (f x); simpl; [discriminate | exact IH].
Qed.

(** The three outcomes of [INSERT OR IGNORE]: skipped, appended, refused. *)
Lemma insert_or_ignore_synapse_cases input id now s :
  let row := new_synapse_row input id now in
  ((is_NaN (SynapseCreateInput.weight input) = true \/
    existsb (conflicts row) (synapses s) = true) /\
   insert_or_ignore_synapse input id now s = (Ok tt, s)) \/
  (is_NaN (SynapseCreateInput.weight input) = false /\
   existsb (conflicts row) (synapses s) = false /\
   neuron_exists (Synapse.source_id row) s = true /\
   neuron_exists (Synapse.target_id row) s = true /\
   insert_or_ignore_synapse input id now s =
   (Ok tt, set_synapses s (synapses s ++ [row]))) \/
  (is_NaN (SynapseCreateInput.weight input) = false /\
   existsb (conflicts row) (synapses s) = false /\
   insert_or_ignore_synapse input id now s =
   (Throw SqliteConstraintForeignKey, s)).
Proof.
  intros row. unfold insert_or_ignore_synapse. fold row.
  destruct (is_NaN (SynapseCreateInput.weight input)); [left; auto|].
  destruct (existsb (conflicts row) (synapses s)); [left; auto|].
  destruct (neuron_exists (Synapse.source_id row) s);
    destruct (neuron_exists (Synapse.target_id row) s); simpl; auto 7.
Qed.

(** A NaN weight: the row is skipped, whatever the store holds. *)
Lemma insert_or_ignore_synapse_NaN input id now s :
  SynapseCreateInput.weight input = NaN ->
  insert_or_ignore_synapse input id now s = (Ok tt, s).
Proof.
  intros H. unfold insert_or_ignore_synapse. now rewrite H.
Qed.

(** A weight that is a number: the statement looks at the store only. *)
Lemma insert_or_ignore_synapse_number input id now s :
  is_NaN (SynapseCreateInput.weight input) = false ->
  insert_or_ignore_synapse input id now s =
  let row := new_synapse_row input id now in
  if existsb (conflicts row) (synapses s)
  then (Ok tt, s)
  else if neuron_exists (Synapse.source_id row) s &&
          neuron_exists (Synapse.target_id row) s
       then (Ok tt, set_synapses s (synapses s ++ [row]))
       else (Throw SqliteConstraintForeignKey, s).
Proof.
  intros H. unfold insert_or_ignore_synapse. now rewrite H.
Qed.

Lemma insert_or_ignore_synapse_exec input id now s :
  exec (insert_or_ignore_synapse input id now) s = s \/
  (is_NaN (SynapseCreateInput.weight input) = false /\
   existsb (conflicts (new_synapse_row input id now)) (synapses s) = false /\
   exec (insert_or_ignore_synapse input id now) s =
   set_synapses s (synapses s ++ [new_synapse_row input id now])).
Proof.
  unfold exec.
  destruct (insert_or_ignore_synapse_cases input id now s)
    as [[_ ->]|[(Hn & Hc & _ & _ & ->)|(_ & _ & ->)]]; simpl; auto.
Qed.

Lemma createSynapse_exec input id now s :
  exec (createSynapse input id now) s =
  exec (insert_or_ignore_synapse input id now) s.
Proof.
  unfold exec, createSynapse, bind, getSynapse.
  now destruct (insert_or_ignore_synapse _ _ _ s) as [[[]|e] s'].
Qed.

(** The store after [findOrCreateCoActivationSynapse]: an UPDATE of the
    pair when the edge is found, an INSERT OR IGNORE when it is not. *)
Lemma findOrCreateCoActivationSynapse_exec a b id now_iso now_sql s :
  exec (findOrCreateCoActivationSynapse a b id now_iso now_sql) s =
  match find (same_edge a b co_activation) (synapses s) with
  | Some _ =>
      exec (update_synapses (between a b) (strengthened 0.05 now_sql)) s
  | None =>
      exec (insert_or_ignore_synapse
              (SynapseCreateInput.mk a b 0.3 co_activation None)
              id now_iso) s
  end.
Proof.
  unfold exec at 1. unfold findOrCreateCoActivationSynapse.
  destruct (find (same_edge a b co_activation) (synapses s));
    [reflexivity|].
  rewrite <- createSynapse_exec. unfold exec, bind, ret.
  now destruct (createSynapse _ id now_iso s) as [[x|e] s'].
Qed.

(* ================================================================== *)
(** ** Strengthening and weakening one pair of neurons *)

Local Open Scope Q_scope.

Lemma nth_error_update {A} (w : A -> bool) (f : A -> A) l i r :
  nth_error l i = Some r ->
  nth_error (map (fun x => if w x then f x else x) l) i =
  Some (if w r then f r else r).
Proof. intros H. now rewrite nth_error_map, H. Qed.

(** C8: a row between [a] and [b] is rewritten by [strengthenSynapse] to
    weight [min(1, weight + delta)], [fire_count + 1] and
    [last_fired = now], and by [weakenSynapse] to weight
    [max(0, weight - delta)] with [fire_count] and [last_fired] as they
    were; identity, endpoints and type of the row stay. *)
Theorem C8_strengthen_weaken_row :
  forall (s : Store) (a b now : string) (delta : Q) (i : nat) (r : Synapse.t),
    nth_error (synapses s) i = Some r ->
    Synapse.source_id r = a ->
    Synapse.target_id r = b ->
    (exists r',
        nth_error
          (synapses (exec (strengthenSynapse a b (Some delta) now) s)) i
        = Some r' /\
        Synapse.weight r' = Qmin 1 (Synapse.weight r + delta) /\
        Synapse.fire_count r' = (Synapse.fire_count r + 1)%Z /\
        Synapse.last_fired r' = Some now /\
        Synapse.id r' = Synapse.id r /\
        Synapse.source_id r' = a /\ Synapse.target_id r' = b /\
        Synapse.type r' = Synapse.type r) /\
    (exists r',
        nth_error (synapses (exec (weakenSynapse a b (Some delta)) s)) i
        = Some r' /\
        Synapse.weight r' = Qmax 0 (Synapse.weight r - delta) /\
        Synapse.fire_count r' = Synapse.fire_count r /\
        Synapse.last_fired r' = Synapse.last_fired r /\
        Synapse.id r' = Synapse.id r /\
        Synapse.source_id r' = a /\ Synapse.target_id r' = b /\
        Synapse.type r' = Synapse.type r).
Proof.
  intros s a b now delta i r Hi Ha Hb.
  assert (Hab : between a b r = true) by now apply between_iff.
  split.
  - exists (strengthened delta now r).
    rewrite strengthenSynapse_rows, (nth_error_update _ _ _ _ _ Hi), Hab.
    simpl. auto 10.
  - exists (weakened delta r).
    rewrite weakenSynapse_rows, (nth_error_update _ _ _ _ _ Hi), Hab.
    simpl. auto 10.
Qed.

Lemma C8_witness :
  (exists r',
      nth_error
        (synapses (exec (strengthenSynapse "N1" "N3" (Some 0.1)
                           "2026-01-03 00:00:00") Sample.two_edges)) 0
      = Some r' /\
      Synapse.weight r' = Qmin 1 (0.5 + 0.1) /\
      Synapse.fire_count r' = (0 + 1)%Z /\
      Synapse.last_fired r' = Some "2026-01-03 00:00:00"%string /\
      Synapse.id r' = "S1"%string /\
      Synapse.source_id r' = "N1"%string /\
      Synapse.target_id r' = "N3"%string /\
      Synapse.type r' = imports) /\
  (exists r',
      nth_error
        (synapses (exec (weakenSynapse "N1" "N3" (Some 0.1))
                     Sample.two_edges)) 0
      = Some r' /\
      Synapse.weight r' = Qmax 0 (0.5 - 0.1) /\
      Synapse.fire_count r' = 0%Z /\
      Synapse.last_fired r' = None /\
      Synapse.id r' = "S1"%string /\
      Synapse.source_id r' = "N1"%string /\
      Synapse.target_id r' = "N3"%string /\
      Synapse.type r' = imports).
Proof.
  exact (C8_strengthen_weaken_row Sample.two_edges "N1" "N3"
           "2026-01-03 00:00:00" 0.1 0
           (new_synapse_row (Sample.edge imports 0.5) "S1"
              "2026-01-02T00:00:00.000Z")
           eq_refl eq_refl eq_refl).
Defined.

(* ================================================================== *)
(** ** Creating an edge that is already there *)

Lemma fresh_id_find id s :
  fresh_id id s ->
  find (fun r => String.eqb (Synapse.id r) id) (synapses s) = None.
Proof. intros H. now apply find_none_existsb. Qed.

Lemma existsb_conflicts_of_edge row s :
  existsb (same_edge (Synapse.source_id row) (Synapse.target_id row)
             (Synapse.type row)) (synapses s) = true ->
  existsb (conflicts row) (synapses s) = true.
Proof.
  rewrite !existsb_exists. intros (r & Hin & Hr).
  exists r. split; [exact Hin | now apply same_edge_conflicts].
Qed.

Lemma insert_or_ignore_synapse_skips input id now s :
  existsb (conflicts (new_synapse_row input id now)) (synapses s) = true ->
  insert_or_ignore_synapse input id now s = (Ok tt, s).
Proof.
  intros H. unfold insert_or_ignore_synapse. rewrite H.
  now destruct (is_NaN _).
Qed.

(** C10: when a row with the triple of [input] is stored and the drawn id
    is new, [createSynapse] changes nothing and its value is [null]. *)
Theorem C10_createSynapse_duplicate_returns_null :
  forall (s : Store) (input : SynapseCreateInput.t) (id now : string),
    existsb (edge_of input) (synapses s) = true ->
    fresh_id id s ->
    createSynapse input id now s = (Ok None, s).
Proof.
  intros s input id now Hedge Hfresh.
  unfold createSynapse, bind.
  rewrite (insert_or_ignore_synapse_skips input id now s
             (existsb_conflicts_of_edge (new_synapse_row input id now) s
                Hedge)).
  unfold getSynapse. now rewrite (fresh_id_find id s Hfresh).
Qed.

Lemma C10_witness :
  createSynapse (Sample.edge imports 0.9) "S9" "2026-01-05T00:00:00.000Z"
    Sample.two_edges
  = (Ok None, Sample.two_edges).
Proof.
  apply (C10_createSynapse_duplicate_returns_null Sample.two_edges
           (Sample.edge imports 0.9) "S9" "2026-01-05T00:00:00.000Z");
    reflexivity.
Defined.

(* ================================================================== *)
(** ** Insert-if-absent *)

Lemma conflicts_false_no_edge row l :
  existsb (conflicts row) l = false ->
  existsb (same_edge (Synapse.source_id row) (Synapse.target_id row)
             (Synapse.type row)) l = false.
Proof.
  induction l as [|r l IH]; simpl; [reflexivity|].
  rewrite !orb_false_iff. unfold conflicts at 1. rewrite orb_false_iff.
  intros [[_ H] Hl]. auto.
Qed.

Lemma no_conflict_intro row l :
  existsb (fun r => String.eqb (Synapse.id r) (Synapse.id row)) l = false ->
  existsb (same_edge (Synapse.source_id row) (Synapse.target_id row)
             (Synapse.type row)) l = false ->
  existsb (conflicts row) l = false.
Proof.
  induction l as [|r l IH]; simpl; [reflexivity|].
  rewrite !orb_false_iff. unfold conflicts at 1.
  intros [-> H1] [-> H2]. auto.
Qed.

(** An INSERT OR IGNORE leaves the rows of every stored edge alone. *)
Lemma insert_or_ignore_keeps_edge input id now a b ty s :
  edge_exists a b ty s ->
  edge_exists a b ty (exec (insert_or_ignore_synapse input id now) s) /\
  filter (same_edge a b ty)
    (synapses (exec (insert_or_ignore_synapse input id now) s))
  = filter (same_edge a b ty) (synapses s).
Proof.
  unfold edge_exists. intros He.
  destruct (insert_or_ignore_synapse_exec input id now s)
    as [->|(_ & Hc & ->)]; [now split|].
  set (row := new_synapse_row input id now) in *.
  simpl. rewrite existsb_app, He, filter_app. simpl. split; [reflexivity|].
  destruct (same_edge a b ty row) eqn:Hrow; [|now rewrite app_nil_r].
  apply same_edge_iff in Hrow. destruct Hrow as (<- & <- & <-).
  apply conflicts_false_no_edge in Hc. congruence.
Qed.

Lemma exec_insert_then {A} input id now (k : M A) s :
  exec (insert_or_ignore_synapse input id now ;;; k) s =
  exec k (exec (insert_or_ignore_synapse input id now) s) \/
  exec (insert_or_ignore_synapse input id now ;;; k) s = s.
Proof.
  unfold exec, bind.
  destruct (insert_or_ignore_synapse_cases input id now s)
    as [[_ ->]|[(_ & _ & _ & _ & ->)|(_ & _ & ->)]]; simpl; auto.
Qed.

Lemma insertMany_keeps_edge items now a b ty :
  forall s,
    edge_exists a b ty s ->
    filter (same_edge a b ty) (synapses (exec (insertMany items now) s))
    = filter (same_edge a b ty) (synapses s).
Proof.
  induction items as [|[id input] rest IH]; intros s He; [reflexivity|].
  simpl insertMany.
  destruct (exec_insert_then input id now
              (insertMany rest now) s) as [-> | ->]; [|reflexivity].
  destruct (insert_or_ignore_keeps_edge input id now
              a b ty s He) as [He' Hf].
  now rewrite IH, Hf.
Qed.

Lemma exec_transaction {A} (body : M A) s :
  exec (transaction body) s = exec body s \/ exec (transaction body) s = s.
Proof.
  unfold exec, transaction. destruct (body s) as [[x|e] s']; simpl; auto.
Qed.


Lemma existsb_app_l {A} (f : A -> bool) l l' :
  existsb f l = true -> existsb f (l ++ l') = true.
Proof. intros H. now rewrite existsb_app, H. Qed.

Lemma fresh_id_snoc id row s :
  fresh_id id s ->
  Synapse.id row <> id ->
  fresh_id id (set_synapses s (synapses s ++ [row])).
Proof.
  unfold fresh_id. simpl. intros H Hne. rewrite existsb_app, H. simpl.
  rewrite orb_false_r. now apply String.eqb_neq.
Qed.

Lemma fresh_ids_tail {I} id (input : I) rest s :
  fresh_ids ((id, input) :: rest) s ->
  fresh_id id s /\ ~ In id (map fst rest) /\ fresh_ids rest s.
Proof.
  intros [Hnd Hf]. simpl in Hnd.
  inversion Hnd; subst. inversion Hf; subst. repeat split; assumption.
Qed.

Lemma fresh_ids_after_insert {I} id (rest : list (string * I)) row s :
  Synapse.id row = id ->
  ~ In id (map fst rest) ->
  fresh_ids rest s ->
  fresh_ids rest (set_synapses s (synapses s ++ [row])).
Proof.
  intros Hid Hnot [Hnd Hf]. split; [exact Hnd|].
  apply Forall_forall. intros item Hin.
  apply fresh_id_snoc; [now apply (proj1 (Forall_forall _ _) Hf)|].
  rewrite Hid. intros ->. apply Hnot. now apply in_map.
Qed.

Lemma conflict_fresh_has_edge row s :
  fresh_id (Synapse.id row) s ->
  existsb (conflicts row) (synapses s) = true ->
  existsb (same_edge (Synapse.source_id row) (Synapse.target_id row)
             (Synapse.type row)) (synapses s) = true.
Proof.
  unfold fresh_id. induction (synapses s) as [|r l IH]; simpl;
    [discriminate|].
  rewrite orb_false_iff. intros [Hr Hl]. unfold conflicts at 1.
  rewrite Hr. simpl. destruct (same_edge _ _ _ r); [reflexivity|]. simpl.
  now apply IH.
Qed.

Lemma edge_of_new_row input j id now :
  edge_of input (new_synapse_row j id now) = true <->
  input_key j = input_key input.
Proof.
  unfold edge_of, input_key. rewrite same_edge_iff.
  cbn [new_synapse_row Synapse.source_id Synapse.target_id Synapse.type].
  split; [intros (-> & -> & ->); reflexivity | intros H; now injection H].
Qed.

Lemma edge_of_own_row input id now :
  edge_of input (new_synapse_row input id now) = true.
Proof. now apply edge_of_new_row. Qed.

(** With a weight that is a number, a triple that is not stored, a new
    uuid and two stored neurons, the INSERT OR IGNORE appends its row. *)
Lemma insert_or_ignore_synapse_appends input id now s :
  is_NaN (SynapseCreateInput.weight input) = false ->
  existsb (edge_of input) (synapses s) = false ->
  fresh_id id s ->
  endpoints_stored input s = true ->
  insert_or_ignore_synapse input id now s =
  (Ok tt, set_synapses s (synapses s ++ [new_synapse_row input id now])).
Proof.
  intros Hn Hno Hfresh Hend.
  rewrite insert_or_ignore_synapse_number by exact Hn. cbv zeta.
  rewrite (no_conflict_intro (new_synapse_row input id now) (synapses s)
             Hfresh Hno).
  cbn [new_synapse_row Synapse.source_id Synapse.target_id].
  unfold endpoints_stored in Hend. now rewrite Hend.
Qed.

(** The loop of a batch whose weights are numbers, on stored neurons and
    with new uuids: it returns and only appends; the triple of every input
    is stored afterwards; and a triple that was not stored has the one row
    of the first input that asks for it. *)
Lemma insertMany_inserts items now :
  forall s,
    Forall (fun item =>
              is_NaN (SynapseCreateInput.weight (snd item)) = false) items ->
    Forall (fun item => endpoints_stored (snd item) s = true) items ->
    fresh_ids items s ->
    exists added,
      insertMany items now s = (Ok tt, set_synapses s (synapses s ++ added)) /\
      Forall (fun item =>
                existsb (edge_of (snd item)) (synapses s ++ added) = true)
        items /\
      (forall pre id input post,
          items = (pre ++ (id, input) :: post)%list ->
          existsb (edge_of input) (synapses s) = false ->
          ~ In (input_key input) (map (fun item => input_key (snd item)) pre) ->
          filter (edge_of input) (synapses s ++ added)
          = [new_synapse_row input id now]).
Proof.
  induction items as [|[id0 input0] rest IH]; intros s Hnum Hall Hfresh.
  - exists []. rewrite app_nil_r. destruct s. split; [reflexivity|].
    split; [constructor|]. intros [|p pre] id input post E; discriminate E.
  - inversion Hnum as [|? ? Hn0 Hnrest]; subst.
    inversion Hall as [|? ? Hhead Hrest]; subst.
    cbn [snd] in Hn0, Hhead.
    destruct (fresh_ids_tail _ _ _ _ Hfresh) as (Hid & Hnot & Hfr).
    set (row := new_synapse_row input0 id0 now).
    simpl insertMany. unfold bind.
    destruct (existsb (edge_of input0) (synapses s)) eqn:Hedge.
    + rewrite (insert_or_ignore_synapse_skips input0 id0 now s
                 (existsb_conflicts_of_edge row s Hedge)).
      destruct (IH s Hnrest Hrest Hfr) as (added & E & Hedges & Hfirst).
      exists added. split; [exact E|]. split.
      * constructor; [|exact Hedges]. now apply existsb_app_l.
      * intros [|p pre] id input post Eq Hno Hpre; cbn [app] in Eq.
        -- injection Eq as E1 E2 E3. subst id input post. congruence.
        -- injection Eq as E1 E2. subst p rest. apply (Hfirst pre id input post eq_refl Hno).
           intros Hin. apply Hpre. now right.
    + rewrite (insert_or_ignore_synapse_appends input0 id0 now s Hn0 Hedge
                 Hid Hhead). fold row.
      destruct (IH (set_synapses s (synapses s ++ [row])) Hnrest Hrest
                  (fresh_ids_after_insert id0 rest row s eq_refl Hnot Hfr))
        as (added & E & Hedges & Hfirst).
      exists (row :: added). cbn [synapses set_synapses] in E, Hedges, Hfirst.
      assert (Happ : forall l : list Synapse.t,
                 ((synapses s ++ [row]) ++ l = synapses s ++ row :: l)%list).
      { intros l. now rewrite <- app_assoc. }
      rewrite Happ in E, Hedges.
      split; [exact E|]. split.
      * constructor; [|exact Hedges].
        rewrite existsb_app. cbn [existsb snd]. unfold row.
        now rewrite edge_of_own_row, orb_true_r.
      * intros [|p pre] id input post Eq Hno Hpre; cbn [app] in Eq.
        -- injection Eq as E1 E2 E3. subst id input post.
           assert (He : edge_exists (SynapseCreateInput.source_id input0)
                          (SynapseCreateInput.target_id input0)
                          (SynapseCreateInput.type input0)
                          (set_synapses s (synapses s ++ [row]))).
           { unfold edge_exists. cbn [synapses set_synapses].
             rewrite existsb_app. cbn [existsb]. unfold row.
             fold (edge_of input0).
             now rewrite edge_of_own_row, orb_true_r. }
           assert (K := insertMany_keeps_edge rest now _ _ _ _ He).
           unfold exec in K. rewrite E in K.
           cbn [snd synapses set_synapses] in K. fold (edge_of input0) in K.
           rewrite K, filter_app, (filter_nil_existsb _ _ Hno).
           cbn [filter app]. unfold row. now rewrite edge_of_own_row.
        -- injection Eq as E1 E2. subst p rest. rewrite <- Happ.
           apply (Hfirst pre id input post eq_refl).
           ++ rewrite existsb_app, Hno. cbn [existsb orb].
              rewrite orb_false_r. apply not_true_iff_false.
              intros Hrow. apply edge_of_new_row in Hrow.
              apply Hpre. left. cbn [snd]. exact Hrow.
           ++ intros Hin. apply Hpre. now right.
Qed.




(* ================================================================== *)
(** ** Properties of every row, kept by every call *)

Section RowProperty.
Variable P : Synapse.t -> Prop.

Lemma insert_or_ignore_Forall input id now s :
  P (new_synapse_row input id now) ->
  Forall P (synapses s) ->
  Forall P (synapses (exec (insert_or_ignore_synapse input id now) s)).
Proof.
  intros Hrow Hs.
  destruct (insert_or_ignore_synapse_exec input id now s)
    as [->|(_ & _ & ->)]; [exact Hs|].
  simpl. apply Forall_app. split; [exact Hs | now constructor].
Qed.

Lemma insertMany_Forall items now :
  Forall (fun item => P (new_synapse_row (snd item) (fst item) now)) items ->
  forall s,
    Forall P (synapses s) ->
    Forall P (synapses (exec (insertMany items now) s)).
Proof.
  induction 1 as [|[id input] rest Hd _ IH]; intros s Hs; [exact Hs|].
  simpl insertMany.
  destruct (exec_insert_then input id now
              (insertMany rest now) s) as [-> | ->]; [|exact Hs].
  apply IH. now apply insert_or_ignore_Forall.
Qed.

Lemma createSynapsesBatch_Forall items now s :
  Forall (fun item => P (new_synapse_row (snd item) (fst item) now)) items ->
  Forall P (synapses s) ->
  Forall P (synapses (exec (createSynapsesBatch items now) s)).
Proof.
  intros Hitems Hs. unfold createSynapsesBatch.
  destruct (exec_transaction (insertMany items now) s) as [-> | ->];
    [|exact Hs].
  now apply insertMany_Forall.
Qed.

Lemma update_synapses_Forall where_ set_ s :
  (forall r, P r -> P (set_ r)) ->
  Forall P (synapses s) ->
  Forall P (synapses (exec (update_synapses where_ set_) s)).
Proof.
  intros Hset Hs. rewrite update_synapses_rows.
  apply Forall_map. revert Hs. apply Forall_impl.
  intros r Hr. destruct (where_ r); auto.
Qed.

Lemma findOrCreateCoActivationSynapse_Forall a b id now_iso now_sql s :
  (forall r, P r -> P (strengthened 0.05 now_sql r)) ->
  P (new_synapse_row (SynapseCreateInput.mk a b 0.3 co_activation None)
       id now_iso) ->
  Forall P (synapses s) ->
  Forall P
    (synapses
       (exec (findOrCreateCoActivationSynapse a b id now_iso now_sql) s)).
Proof.
  intros Hst Hnew Hs. rewrite findOrCreateCoActivationSynapse_exec.
  destruct (find (same_edge a b co_activation) (synapses s)).
  - now apply update_synapses_Forall.
  - now apply insert_or_ignore_Forall.
Qed.
End RowProperty.

Lemma createNeuron_synapses input id now s :
  synapses (exec (createNeuron input id now) s) = synapses s.
Proof.
  unfold exec, createNeuron, bind, insert_neuron, getNeuron.
  destruct (existsb _ (neurons s)); [reflexivity|]. simpl.
  destruct (find _ (neurons s ++ _)) as [row|]; [|reflexivity].
  now destruct (rowToNeuron row).
Qed.

(* ================================================================== *)
(** ** One row for each triple *)

Lemma same_edge_key a b ty r :
  same_edge a b ty r = true <-> edge_key r = (a, b, ty).
Proof.
  rewrite same_edge_iff. unfold edge_key. split.
  - now intros (-> & -> & ->).
  - intros H. now injection H.
Qed.

Lemma no_edge_not_in row l :
  existsb (same_edge (Synapse.source_id row) (Synapse.target_id row)
             (Synapse.type row)) l = false ->
  ~ In (edge_key row) (map edge_key l).
Proof.
  intros Hno Hin. apply in_map_iff in Hin. destruct Hin as (r & Hk & Hin).
  assert (existsb (same_edge (Synapse.source_id row) (Synapse.target_id row)
                     (Synapse.type row)) l = true); [|congruence].
  apply existsb_exists. exists r. split; [exact Hin|].
  now apply same_edge_key.
Qed.

Lemma NoDup_snoc {A} (x : A) l : NoDup l -> ~ In x l -> NoDup (l ++ [x]).
Proof.
  induction 1 as [|y l Hy Hl IH]; intros Hx; simpl.
  - constructor; [intros [] | constructor].
  - constructor.
    + rewrite in_app_iff. intros [H|[H|[]]]; [now apply Hy|].
      apply Hx. now left.
    + apply IH. intros H. apply Hx. now right.
Qed.

Lemma insert_or_ignore_unique input id now s :
  unique_edges s ->
  unique_edges (exec (insert_or_ignore_synapse input id now) s).
Proof.
  unfold unique_edges. intros Hs.
  destruct (insert_or_ignore_synapse_exec input id now s)
    as [->|(_ & Hc & ->)]; [exact Hs|].
  simpl. rewrite map_app. apply NoDup_snoc; [exact Hs|].
  apply no_edge_not_in. now apply conflicts_false_no_edge.
Qed.

Lemma insertMany_unique items now :
  forall s, unique_edges s -> unique_edges (exec (insertMany items now) s).
Proof.
  induction items as [|[id input] rest IH]; intros s Hs; [exact Hs|].
  simpl insertMany.
  destruct (exec_insert_then input id now
              (insertMany rest now) s) as [-> | ->]; [|exact Hs].
  apply IH. now apply insert_or_ignore_unique.
Qed.

Lemma update_synapses_unique where_ set_ s :
  (forall r, edge_key (set_ r) = edge_key r) ->
  unique_edges s -> unique_edges (exec (update_synapses where_ set_) s).
Proof.
  unfold unique_edges. intros Hset Hs.
  rewrite update_synapses_rows, map_map.
  erewrite map_ext; [exact Hs|].
  intros r. simpl. destruct (where_ r); [apply Hset | reflexivity].
Qed.

Lemma call_unique julianday c s :
  unique_edges s -> unique_edges (call julianday s c).
Proof.
  destruct c as [input id now | input id now | inputs now
                | a b delta now | a b delta | daysOld delta jnow
                | a b id now_iso now_sql]; cbn [call]; intros Hs.
  - unfold unique_edges. now rewrite createNeuron_synapses.
  - rewrite createSynapse_exec. now apply insert_or_ignore_unique.
  - unfold createSynapsesBatch.
    destruct (exec_transaction (insertMany inputs now) s) as [-> | ->];
      [|exact Hs].
    now apply insertMany_unique.
  - now apply (update_synapses_unique (between a b)
                 (strengthened (or_default delta 0.05) now)).
  - now apply (update_synapses_unique (between a b)
                 (weakened (or_default delta 0.01))).
  - now apply update_synapses_unique.
  - rewrite findOrCreateCoActivationSynapse_exec.
    destruct (find (same_edge a b co_activation) (synapses s)).
    + now apply update_synapses_unique.
    + now apply insert_or_ignore_unique.
Qed.

(** No sequence of calls stores a second row for a triple. *)
Theorem unique_edges_kept :
  forall (julianday : string -> option Q) (cs : list Call) (s : Store),
    unique_edges s -> unique_edges (run julianday cs s).
Proof.
  intros julianday cs. unfold run.
  induction cs as [|c cs IH]; intros s Hs; [exact Hs|].
  simpl. apply IH. now apply call_unique.
Qed.

(* ================================================================== *)
(** ** Weights between 0 and 1 *)

Lemma strengthened_in_range delta now r :
  0 <= delta ->
  0 <= Synapse.weight r /\ Synapse.weight r <= 1 ->
  0 <= Synapse.weight (strengthened delta now r) /\
  Synapse.weight (strengthened delta now r) <= 1.
Proof.
  intros Hd [H0 H1]. simpl. split.
  - apply Q.min_glb; lra.
  - apply Q.le_min_l.
Qed.

Lemma weakened_in_range delta r :
  0 <= delta ->
  0 <= Synapse.weight r /\ Synapse.weight r <= 1 ->
  0 <= Synapse.weight (weakened delta r) /\
  Synapse.weight (weakened delta r) <= 1.
Proof.
  intros Hd [H0 H1]. simpl. split.
  - apply Q.le_max_l.
  - apply Q.max_lub; lra.
Qed.

Lemma input_weight_in_range_row input id now :
  input_weight_in_range input ->
  0 <= Synapse.weight (new_synapse_row input id now) /\
  Synapse.weight (new_synapse_row input id now) <= 1.
Proof.
  unfold input_weight_in_range. cbn [new_synapse_row Synapse.weight].
  now destruct (SynapseCreateInput.weight input).
Qed.

Lemma call_weight_in_range julianday c s :
  weights_admissible c ->
  weight_in_range s ->
  weight_in_range (call julianday s c).
Proof.
  unfold weight_in_range.
  destruct c as [input id now | input id now | inputs now
                | a b delta now | a b delta | daysOld delta jnow
                | a b id now_iso now_sql];
    cbn [call weights_admissible]; intros Hc Hs.
  - now rewrite createNeuron_synapses.
  - rewrite createSynapse_exec. apply insert_or_ignore_Forall; [|exact Hs].
    now apply input_weight_in_range_row.
  - apply createSynapsesBatch_Forall; [|exact Hs].
    revert Hc. apply Forall_impl. intros [id input].
    apply input_weight_in_range_row.
  - rewrite strengthenSynapse_rows. apply Forall_map. revert Hs.
    apply Forall_impl. intros r Hr. destruct (between a b r); [|exact Hr].
    now apply strengthened_in_range.
  - rewrite weakenSynapse_rows. apply Forall_map. revert Hs.
    apply Forall_impl. intros r Hr. destruct (between a b r); [|exact Hr].
    now apply weakened_in_range.
  - apply update_synapses_Forall; [|exact Hs].
    intros r Hr. now apply weakened_in_range.
  - apply findOrCreateCoActivationSynapse_Forall; [| |exact Hs].
    + intros r Hr. apply strengthened_in_range; [lra | exact Hr].
    + simpl. lra.
Qed.

(** What the store does keep: when every created weight lies in [[0, 1]]
    and no delta is negative, a store whose weights lie in [[0, 1]] keeps
    them there through any sequence of calls. *)
Theorem weights_stay_in_range :
  forall (julianday : string -> option Q) (cs : list Call) (s : Store),
    Forall weights_admissible cs ->
    weight_in_range s ->
    weight_in_range (run julianday cs s).
Proof.
  intros julianday cs. unfold run.
  induction cs as [|c cs IH]; intros s Hcs Hs; [exact Hs|].
  inversion Hcs as [|? ? Hc Hrest]; subst. simpl.
  apply IH; [exact Hrest|]. now apply call_weight_in_range.
Qed.

Example weights_stay_in_range_sample :
  weight_in_range
    (run Sample.julianday
       [CreateSynapse (Sample.edge imports 0.5) "S1" "2026-01-02T00:00:00.000Z";
        FindOrCreateCoActivationSynapse "N1" "N3" "S2"
          "2026-01-02T00:00:00.000Z" "2026-01-02 00:00:00";
        StrengthenSynapse "N1" "N3" (Some 0.7) "2026-01-03 00:00:00";
        WeakenSynapse "N1" "N3" None;
        DecayUnusedSynapses (Some 7) (Some 2) 2461060.5]
       Sample.two_neurons).
Proof.
  apply (weights_stay_in_range Sample.julianday).
  - repeat constructor; simpl; lra.
  - constructor.
Qed.

(** C1 fails on the code: the UPDATEs clamp the weight, the INSERT of
    [createSynapse] binds [input.weight] as it is, so on a store whose
    weights are in range an input weight of 5 is stored as 5. *)
Theorem C1_createSynapse_stores_weight_outside_range :
  weight_in_range Sample.two_neurons /\
  map Synapse.weight
    (synapses
       (exec (createSynapse (Sample.edge imports 5) "S1"
                "2026-01-02T00:00:00.000Z") Sample.two_neurons)) = [5] /\
  ~ weight_in_range
      (exec (createSynapse (Sample.edge imports 5) "S1"
               "2026-01-02T00:00:00.000Z") Sample.two_neurons).
Proof.
  split; [constructor|]. split; [reflexivity|].
  intros H. apply Forall_inv in H. simpl in H. lra.
Qed.

(* ================================================================== *)
(** ** Self-loops *)

Lemma call_no_self_loop julianday c s :
  distinct_endpoints c ->
  no_self_loop s ->
  no_self_loop (call julianday s c).
Proof.
  unfold no_self_loop.
  destruct c as [input id now | input id now | inputs now
                | a b delta now | a b delta | daysOld delta jnow
                | a b id now_iso now_sql];
    cbn [call distinct_endpoints]; intros Hc Hs.
  - now rewrite createNeuron_synapses.
  - rewrite createSynapse_exec. now apply insert_or_ignore_Forall.
  - apply createSynapsesBatch_Forall; [|exact Hs].
    revert Hc. apply Forall_impl. now intros [id input].
  - rewrite strengthenSynapse_rows. apply Forall_map. revert Hs.
    apply Forall_impl. intros r Hr. now destruct (between a b r).
  - rewrite weakenSynapse_rows. apply Forall_map. revert Hs.
    apply Forall_impl. intros r Hr. now destruct (between a b r).
  - apply update_synapses_Forall; [|exact Hs]. now intros r Hr.
  - apply findOrCreateCoActivationSynapse_Forall; [| |exact Hs].
    + now intros r Hr.
    + exact Hc.
Qed.

(** C4, as the code has it: the store has no check on the endpoints, and a
    store without self-loops stays without them through any sequence of
    calls in which every created edge is given two different ids. *)
Theorem C4_no_self_loop_from_distinct_inputs :
  forall (julianday : string -> option Q) (cs : list Call) (s : Store),
    Forall distinct_endpoints cs ->
    no_self_loop s ->
    no_self_loop (run julianday cs s).
Proof.
  intros julianday cs. unfold run.
  induction cs as [|c cs IH]; intros s Hcs Hs; [exact Hs|].
  inversion Hcs as [|? ? Hc Hrest]; subst. simpl.
  apply IH; [exact Hrest|]. now apply call_no_self_loop.
Qed.

Lemma C4_witness :
  no_self_loop
    (run Sample.julianday
       [CreateSynapse (Sample.edge imports 0.5) "S1" "2026-01-02T00:00:00.000Z";
        CreateSynapsesBatch
          [("S3"%string, SynapseCreateInput.mk "N3" "N1" 0.4 calls None)]
          "2026-01-02T00:00:00.000Z";
        FindOrCreateCoActivationSynapse "N1" "N3" "S2"
          "2026-01-02T00:00:00.000Z" "2026-01-02 00:00:00"]
       Sample.two_neurons).
Proof.
  apply (C4_no_self_loop_from_distinct_inputs Sample.julianday).
  - repeat constructor; simpl; discriminate.
  - constructor.
Defined.

(** C4 as stated fails: a call with equal source and target ids stores a
    self-loop, through [createSynapse] and through
    [findOrCreateCoActivationSynapse] alike. *)
Lemma C4_counterexample :
  no_self_loop Sample.two_neurons /\
  map (fun r => (Synapse.source_id r, Synapse.target_id r))
    (synapses
       (exec (createSynapse (SynapseCreateInput.mk "N1" "N1" 0.5 calls None)
                "S1" "2026-01-02T00:00:00.000Z") Sample.two_neurons))
  = [("N1"%string, "N1"%string)] /\
  ~ no_self_loop
      (exec (createSynapse (SynapseCreateInput.mk "N1" "N1" 0.5 calls None)
               "S1" "2026-01-02T00:00:00.000Z") Sample.two_neurons) /\
  ~ no_self_loop
      (exec (findOrCreateCoActivationSynapse "N1" "N1" "S1"
               "2026-01-02T00:00:00.000Z" "2026-01-02 00:00:00")
         Sample.two_neurons).
Proof.
  split; [constructor|]. split; [reflexivity|].
  split; intros H; apply Forall_inv in H; now apply H.
Qed.

(* ================================================================== *)
(** ** Co-activation: strengthen or create, and saturation *)








Lemma findOrCreateCoActivationSynapse_existing a b id now_iso now_sql s :
  edge_exists a b co_activation s ->
  synapses (exec (findOrCreateCoActivationSynapse a b id now_iso now_sql) s)
  = map (fun r => if between a b r then strengthened 0.05 now_sql r else r)
      (synapses s).
Proof.
  unfold edge_exists, exec, findOrCreateCoActivationSynapse. intros He.
  destruct (find (same_edge a b co_activation) (synapses s)) eqn:E;
    [reflexivity|].
  apply find_none_existsb in E. congruence.
Qed.

Lemma same_edge_strengthened a b ty delta now r :
  same_edge a b ty (strengthened delta now r) = same_edge a b ty r.
Proof. reflexivity. Qed.





(** *** The same step in binary64 *)














(** The scenario of the specification: one creation at 0.3 and fourteen
    strengthenings by 0.05 end at weight 1. *)
Example fifteen_observations :
  map Synapse.weight
    (synapses
       (run Sample.julianday
          (map (observe_co_activation "N1" "N3")
             (repeat ("S2"%string, "2026-01-02T00:00:00.000Z"%string,
                      "2026-01-02 00:00:00"%string) 15))
          Sample.two_neurons)) = [1].
Proof. vm_compute. reflexivity. Qed.

(* ================================================================== *)
(** ** Decay *)




(** The decay of the sample: of the two fired edges only the
    [co_activation] row is rewritten, and the call returns 1. *)
Example decay_sample :
  decayUnusedSynapses Sample.julianday (Some 7) (Some 0.05) 2461060.5
    Sample.fired_edges
  = (Ok 1%Z,
     set_synapses Sample.fired_edges
       [strengthened 0.1 "2026-01-03 00:00:00"
          (new_synapse_row (Sample.edge imports 0.5) "S1"
             "2026-01-02T00:00:00.000Z");
        weakened 0.05
          (strengthened 0.1 "2026-01-03 00:00:00"
             (new_synapse_row (Sample.edge co_activation 0.3) "S2"
                "2026-01-02T00:00:00.000Z"))]).
Proof. reflexivity. Qed.

(* ================================================================== *)
(** ** What an observation leaves alone *)

(** Rows of other pairs of neurons are not touched by an observation of
    [(a, b)] that finds its edge. *)
Lemma observation_frame_other_pairs a b id now_iso now_sql s i r :
  edge_exists a b co_activation s ->
  nth_error (synapses s) i = Some r ->
  between a b r = false ->
  nth_error
    (synapses (exec (findOrCreateCoActivationSynapse a b id now_iso now_sql) s))
    i = Some r.
Proof.
  intros He Hi Hab.
  rewrite (findOrCreateCoActivationSynapse_existing _ _ _ _ _ _ He).
  now rewrite (nth_error_update _ _ _ _ _ Hi), Hab.
Qed.

(** Rows of the pair [(a, b)] are all strengthened, whatever their type:
    the UPDATE of [strengthenSynapse] has no condition on [type]. *)
Lemma observation_strengthens_every_type a b id now_iso now_sql s i r :
  edge_exists a b co_activation s ->
  nth_error (synapses s) i = Some r ->
  between a b r = true ->
  nth_error
    (synapses (exec (findOrCreateCoActivationSynapse a b id now_iso now_sql) s))
    i = Some (strengthened 0.05 now_sql r).
Proof.
  intros He Hi Hab.
  rewrite (findOrCreateCoActivationSynapse_existing _ _ _ _ _ _ He).
  now rewrite (nth_error_update _ _ _ _ _ Hi), Hab.
Qed.

(** C7 fails on the code: with an [imports] edge and a [co_activation]
    edge from [N1] to [N3], an observation of [(N1, N3)] rewrites both
    rows; the [imports] row goes from weight 0.5, [fire_count] 0 and no
    [last_fired] to weight 0.55, [fire_count] 1 and [last_fired] now. *)
Theorem C7_observation_rewrites_structural_edge :
  let imports_row :=
    new_synapse_row (Sample.edge imports 0.5) "S1" "2026-01-02T00:00:00.000Z" in
  let after :=
    exec (findOrCreateCoActivationSynapse "N1" "N3" "S9"
            "2026-01-03T00:00:00.000Z" "2026-01-03 00:00:00")
      Sample.two_edges in
  nth_error (synapses Sample.two_edges) 0 = Some imports_row /\
  nth_error (synapses after) 0
  = Some (Synapse.mk "S1" "N1" "N3" (Qmin 1 (0.5 + 0.05)) imports None 1
            (Some "2026-01-03 00:00:00"%string) "2026-01-02T00:00:00.000Z") /\
  ~ Qmin 1 (0.5 + 0.05) == Synapse.weight imports_row /\
  1%Z <> Synapse.fire_count imports_row /\
  Some "2026-01-03 00:00:00"%string <> Synapse.last_fired imports_row.
Proof.
  repeat split; try reflexivity; try discriminate.
Qed.

(* ================================================================== *)
(** ** Neuron round trip *)

Lemma find_app_new {A} (f : A -> bool) l x :
  existsb f l = false -> f x = true -> find f (l ++ [x]) = Some x.
Proof.
  induction l as [|y l IH]; simpl; intros Hl Hx; [now rewrite Hx|].
  apply orb_false_iff in Hl. destruct Hl as [-> Hl]. auto.
Qed.

Lemma of_buffer_whole (e : Float32Array.t) :
  Float32Array.byteOffset e = O ->
  (4 * Float32Array.length e)%nat = List.length (Float32Array.buffer e) ->
  Float32Array.of_buffer (Float32Array.buffer e) = Some e.
Proof.
  destruct e as [buf off len].
  cbn [Float32Array.byteOffset Float32Array.length Float32Array.buffer].
  intros -> Hlen. unfold Float32Array.of_buffer. rewrite <- Hlen.
  replace (4 * len)%nat with (len * 4)%nat by lia.
  now rewrite Nat.Div0.mod_mul, Nat.div_mul.
Qed.

(** When the embedding is a view on the whole of its buffer and the uuid is
    new, [createNeuron] returns the neuron it stored: every input field and
    the embedding read back as they went in. *)
Lemma createNeuron_roundtrip_whole_buffer input id now s :
  existsb (fun r => String.eqb (NeuronRow.id r) id) (neurons s) = false ->
  Float32Array.byteOffset (NeuronCreateInput.embedding input) = O ->
  (4 * Float32Array.length (NeuronCreateInput.embedding input))%nat
  = List.length (Float32Array.buffer (NeuronCreateInput.embedding input)) ->
  result (createNeuron input id now) s
  = Ok (Some (Neuron.mk id (NeuronCreateInput.content input)
                (NeuronCreateInput.summary input)
                (NeuronCreateInput.embedding input)
                (NeuronCreateInput.file_path input)
                (NeuronCreateInput.start_line input)
                (NeuronCreateInput.end_line input)
                (NeuronCreateInput.type input)
                (NeuronCreateInput.name input)
                (NeuronCreateInput.language input) 0 None now now)).
Proof.
  intros Hfresh Hoff Hlen.
  unfold result, createNeuron, bind, insert_neuron, getNeuron.
  cbn [NeuronRow.id]. rewrite Hfresh. cbn [neurons set_neurons].
  rewrite (find_app_new _ _ _ Hfresh) by (cbn [NeuronRow.id]; apply String.eqb_refl).
  unfold rowToNeuron. cbn [NeuronRow.embedding].
  now rewrite (of_buffer_whole _ Hoff Hlen).
Qed.

(** The empty embedding is such a view: it reads back with length 0. *)
Example createNeuron_empty_embedding :
  option_map (fun n => Float32Array.length (Neuron.embedding n))
    match result (createNeuron (Sample.chunk_of Float32Array.empty) "N1"
                    "2026-01-01T00:00:00.000Z") empty_store with
    | Ok n => n
    | Throw _ => None
    end = Some O.
Proof. reflexivity. Qed.

(** C9 fails on the code: [createNeuron] stores [input.embedding.buffer],
    the whole buffer under the view.  For the one-float view
    [new Float32Array([1, 2]).subarray(1)] it stores eight bytes, and
    [getNeuron] reads back two floats whose bytes are not the four bytes
    of the input. *)
Theorem C9_subarray_embedding_not_preserved :
  Float32Array.wf Sample.subarray /\
  Float32Array.bytes Sample.subarray = [x00; x00; x00; x40] /\
  exists n,
    result (createNeuron (Sample.chunk_of Sample.subarray) "N1"
              "2026-01-01T00:00:00.000Z") empty_store = Ok (Some n) /\
    Neuron.content n = NeuronCreateInput.content (Sample.chunk_of Sample.subarray) /\
    Float32Array.length (Neuron.embedding n) = 2%nat /\
    Float32Array.bytes (Neuron.embedding n)
    = [x00; x00; x80; x3f; x00; x00; x00; x40] /\
    Float32Array.bytes (Neuron.embedding n)
    <> Float32Array.bytes Sample.subarray.
Proof.
  split; [split; [reflexivity | simpl; lia]|]. split; [reflexivity|].
  eexists. split; [reflexivity|].
  repeat split; discriminate.
Qed.

(* ================================================================== *)
(** ** Opening a file of another schema version *)

(** C5, as the code has it: [migrate] compares the stored version with 1
    only by [currentVersion < 1]; a file whose version is newer than
    [SCHEMA_VERSION] is opened without error and left exactly as it is. *)
Theorem C5_newer_schema_opens_unchanged :
  forall (db : Migration.Database) (v : Z),
    Migration.stored_version db = Some v ->
    (Migration.SCHEMA_VERSION < v)%Z ->
    Migration.open db = Ok db.
Proof.
  intros [meta objects] v Hv Hnewer.
  unfold Migration.stored_version in Hv. cbn [Migration.meta] in Hv.
  destruct meta as [rows|]; [|discriminate].
  unfold Migration.open, Migration.migrate, Migration.meta_rows.
  cbn [Migration.meta Migration.objects].
  destruct (Migration.select_version rows) as [value|]; [|discriminate].
  rewrite Hv. unfold Migration.below_1.
  unfold Migration.SCHEMA_VERSION in Hnewer.
  destruct (Z.ltb_spec v 1); [lia | reflexivity].
Qed.

Lemma C5_witness : Migration.open Migration.newer_file = Ok Migration.newer_file.
Proof.
  apply (C5_newer_schema_opens_unchanged Migration.newer_file 2);
    reflexivity.
Defined.

(** C5 as stated fails: the file records version 2, which is newer than
    the known version 1, and opening it returns. *)
Lemma C5_counterexample :
  Migration.stored_version Migration.newer_file = Some 2%Z /\
  (Migration.SCHEMA_VERSION < 2)%Z /\
  Migration.open Migration.newer_file = Ok Migration.newer_file /\
  forall e, Migration.open Migration.newer_file <> Throw e.
Proof.
  split; [reflexivity|]. split; [reflexivity|]. split; [reflexivity|].
  discriminate.
Qed.

(** A new file is brought to version 1, and migrating again changes
    nothing. *)
Example migrate_new_file :
  Migration.open (Migration.mkDatabase None [])
  = Ok (Migration.mkDatabase (Some [("schema_version", "1")]%string)
          Migration.version1_objects) /\
  Migration.open
    (Migration.mkDatabase (Some [("schema_version", "1")]%string)
       Migration.version1_objects)
  = Ok (Migration.mkDatabase (Some [("schema_version", "1")]%string)
          Migration.version1_objects).
Proof. split; reflexivity. Qed.

(** [parseInt] on the texts a version row may hold; a text without a
    leading integer is NaN, which is not below 1, so such a file is left as
    it is as well. *)
Example parseInt_samples :
  Migration.parseInt "1" = Some 1%Z /\
  Migration.parseInt " 2" = Some 2%Z /\
  Migration.parseInt "-3" = Some (-3)%Z /\
  Migration.parseInt "+12abc" = Some 12%Z /\
  Migration.parseInt "0" = Some 0%Z /\
  Migration.parseInt "v2" = None /\
  Migration.parseInt "" = None /\
  Migration.open (Migration.mkDatabase (Some [("schema_version", "v2")]%string) [])
  = Ok (Migration.mkDatabase (Some [("schema_version", "v2")]%string) []).
Proof. repeat split. Qed.

(* ================================================================== *)
(** ** ORDER BY *)

Section OrderBy.
Context {A : Type} (leb : A -> A -> bool).

Lemma insert_sorted_perm x l : Permutation (insert_sorted leb x l) (x :: l).
Proof.
  induction l as [|y l IH]; simpl; [reflexivity|].
  destruct (leb x y); [reflexivity|].
  rewrite IH. apply perm_swap.
Qed.

Lemma order_by_perm l : Permutation (order_by leb l) l.
Proof.
  induction l as [|x l IH]; simpl; [reflexivity|].
  rewrite insert_sorted_perm. now constructor.
Qed.

Hypothesis leb_total : forall x y, leb x y = true \/ leb y x = true.

Lemma insert_sorted_HdRel a x l :
  leb a x = true ->
  HdRel (fun u v => leb u v = true) a l ->
  HdRel (fun u v => leb u v = true) a (insert_sorted leb x l).
Proof.
  intros Hax Hl. destruct l as [|y l]; simpl; [now constructor|].
  destruct (leb x y); constructor; [exact Hax|].
  now inversion Hl.
Qed.

Lemma insert_sorted_Sorted x l :
  Sorted (fun u v => leb u v = true) l ->
  Sorted (fun u v => leb u v = true) (insert_sorted leb x l).
Proof.
  induction 1 as [|y l Hl IH Hy]; simpl; [repeat constructor|].
  destruct (leb x y) eqn:Hxy.
  - constructor; [now constructor | now constructor].
  - constructor; [exact IH|].
    apply insert_sorted_HdRel; [|exact Hy].
    destruct (leb_total x y); congruence.
Qed.

Lemma order_by_Sorted l : Sorted (fun u v => leb u v = true) (order_by leb l).
Proof.
  induction l as [|x l IH]; simpl; [constructor|].
  now apply insert_sorted_Sorted.
Qed.

Hypothesis leb_trans :
  forall x y z, leb x y = true -> leb y z = true -> leb x z = true.

Lemma order_by_StronglySorted l :
  StronglySorted (fun u v => leb u v = true) (order_by leb l).
Proof.
  apply Sorted_StronglySorted; [|apply order_by_Sorted].
  intros x y z. apply leb_trans.
Qed.
End OrderBy.

Lemma StronglySorted_weaken {A} (R R' : A -> A -> Prop) l :
  (forall x y, R x y -> R' x y) ->
  StronglySorted R l -> StronglySorted R' l.
Proof.
  intros HR. induction 1 as [|x l Hl IH Hx]; constructor; [exact IH|].
  revert Hx. apply Forall_impl. apply HR.
Qed.

Lemma by_weight_desc_total x y :
  by_weight_desc x y = true \/ by_weight_desc y x = true.
Proof.
  unfold by_weight_desc. rewrite !Qle_bool_iff.
  destruct (Qlt_le_dec (Synapse.weight x) (Synapse.weight y)) as [H|H];
    [right; now apply Qlt_le_weak | now left].
Qed.

Lemma by_weight_desc_trans x y z :
  by_weight_desc x y = true -> by_weight_desc y z = true ->
  by_weight_desc x z = true.
Proof.
  unfold by_weight_desc. rewrite !Qle_bool_iff. intros H1 H2.
  now apply Qle_trans with (Synapse.weight y).
Qed.

Lemma select_synapses_spec where_ s :
  exists l,
    select_synapses where_ s = (Ok l, s) /\
    Permutation l (filter where_ (synapses s)) /\
    StronglySorted (fun x y => Synapse.weight y <= Synapse.weight x) l.
Proof.
  exists (order_by by_weight_desc (filter where_ (synapses s))).
  split; [|split].
  - unfold select_synapses, rowToSynapse. now rewrite map_id.
  - apply order_by_perm.
  - eapply StronglySorted_weaken;
      [|apply (order_by_StronglySorted by_weight_desc by_weight_desc_total
                 by_weight_desc_trans)].
    intros x y H. now apply Qle_bool_iff.
Qed.

Lemma perm_in_iff {A} (l l' : list A) x :
  Permutation l l' -> (In x l <-> In x l').
Proof.
  intros H. split; apply Permutation_in; [exact H | now symmetry].
Qed.

(** X1: [getOutgoingSynapses], [getIncomingSynapses] and
    [getConnectedSynapses] read without writing; each returns exactly the
    stored rows that start at, end at, or touch the neuron, every row as
    often as it is stored, heaviest first. *)
Theorem X1_synapse_queries :
  forall (neuronId : string) (s : Store),
  exists out inc con,
    getOutgoingSynapses neuronId s = (Ok out, s) /\
    getIncomingSynapses neuronId s = (Ok inc, s) /\
    getConnectedSynapses neuronId s = (Ok con, s) /\
    Permutation out (filter (from_neuron neuronId) (synapses s)) /\
    Permutation inc (filter (to_neuron neuronId) (synapses s)) /\
    Permutation con
      (filter (fun r => from_neuron neuronId r || to_neuron neuronId r)
         (synapses s)) /\
    (forall r, In r out <->
               In r (synapses s) /\ Synapse.source_id r = neuronId) /\
    (forall r, In r inc <->
               In r (synapses s) /\ Synapse.target_id r = neuronId) /\
    (forall r, In r con <-> In r out \/ In r inc) /\
    StronglySorted (fun x y => Synapse.weight y <= Synapse.weight x) out /\
    StronglySorted (fun x y => Synapse.weight y <= Synapse.weight x) inc /\
    StronglySorted (fun x y => Synapse.weight y <= Synapse.weight x) con.
Proof.
  intros neuronId s.
  destruct (select_synapses_spec (from_neuron neuronId) s)
    as (out & Eo & Po & So).
  destruct (select_synapses_spec (to_neuron neuronId) s)
    as (inc & Ei & Pi & Si).
  destruct (select_synapses_spec
              (fun r => from_neuron neuronId r || to_neuron neuronId r) s)
    as (con & Ec & Pc & Sc).
  exists out, inc, con.
  assert (Ho : forall r, In r out <->
                         In r (synapses s) /\ Synapse.source_id r = neuronId).
  { intros r. rewrite (perm_in_iff _ _ r Po), filter_In.
    unfold from_neuron. now rewrite String.eqb_eq. }
  assert (Hi : forall r, In r inc <->
                         In r (synapses s) /\ Synapse.target_id r = neuronId).
  { intros r. rewrite (perm_in_iff _ _ r Pi), filter_In.
    unfold to_neuron. now rewrite String.eqb_eq. }
  repeat (split; [assumption|]). split; [|auto].
  intros r. rewrite Ho, Hi, (perm_in_iff _ _ r Pc), filter_In, orb_true_iff.
  unfold from_neuron, to_neuron. rewrite !String.eqb_eq. tauto.
Qed.

(* ================================================================== *)
(** ** Creating a synapse: the new row, and the missing neuron *)

(** X2: on a triple that is not stored yet, with a weight that is a
    number, a new uuid and two stored neurons, [createSynapse] appends one
    row and returns it: the input's endpoints, weight, type and metadata,
    [fire_count] 0, no [last_fired], [created_at] now.  With a NaN weight
    and a new uuid it stores nothing and returns null, whatever the
    store holds. *)
Theorem X2_createSynapse_returns_new_row :
  forall (s : Store) (input : SynapseCreateInput.t) (id now : string),
    (forall w : Q,
        SynapseCreateInput.weight input = Finite w ->
        existsb (edge_of input) (synapses s) = false ->
        fresh_id id s ->
        neuron_exists (SynapseCreateInput.source_id input) s = true ->
        neuron_exists (SynapseCreateInput.target_id input) s = true ->
        let row :=
          Synapse.mk id (SynapseCreateInput.source_id input)
            (SynapseCreateInput.target_id input)
            w (SynapseCreateInput.type input)
            (SynapseCreateInput.metadata input) 0 None now in
        createSynapse input id now s
        = (Ok (Some row), set_synapses s (synapses s ++ [row])) /\
        result (getSynapse id) (exec (createSynapse input id now) s)
        = Ok (Some row)) /\
    (SynapseCreateInput.weight input = NaN ->
     fresh_id id s ->
     createSynapse input id now s = (Ok None, s)).
Proof.
  intros s input id now. split.
  - intros w Hw Hno Hfresh Ha Hb row.
    assert (Hrow : new_synapse_row input id now = row).
    { unfold new_synapse_row, row. now rewrite Hw. }
    assert (E : createSynapse input id now s
                = (Ok (Some row), set_synapses s (synapses s ++ [row]))).
    { unfold createSynapse, bind.
      rewrite (insert_or_ignore_synapse_appends input id now s);
        [| now rewrite Hw | exact Hno | exact Hfresh
         | unfold endpoints_stored; now rewrite Ha, Hb].
      rewrite Hrow. unfold getSynapse. cbn [synapses set_synapses].
      rewrite (find_app_new _ _ row Hfresh)
        by (cbn [Synapse.id row]; apply String.eqb_refl).
      reflexivity. }
    split; [exact E|].
    unfold exec. rewrite E. unfold result, getSynapse.
    cbn [snd fst synapses set_synapses].
    rewrite (find_app_new _ _ row Hfresh)
      by (cbn [Synapse.id row]; apply String.eqb_refl).
    reflexivity.
  - intros Hw Hfresh. unfold createSynapse, bind.
    rewrite (insert_or_ignore_synapse_NaN input id now s Hw).
    unfold getSynapse. now rewrite (fresh_id_find id s Hfresh).
Qed.

Lemma X2_witness :
  (createSynapse (Sample.edge calls 0.4) "S4" "2026-01-06T00:00:00.000Z"
     Sample.two_edges
   = (Ok (Some (Synapse.mk "S4" "N1" "N3" 0.4 calls None 0 None
                  "2026-01-06T00:00:00.000Z")),
      set_synapses Sample.two_edges
        (synapses Sample.two_edges ++
         [Synapse.mk "S4" "N1" "N3" 0.4 calls None 0 None
            "2026-01-06T00:00:00.000Z"])) /\
   result (getSynapse "S4")
     (exec (createSynapse (Sample.edge calls 0.4) "S4"
              "2026-01-06T00:00:00.000Z") Sample.two_edges)
   = Ok (Some (Synapse.mk "S4" "N1" "N3" 0.4 calls None 0 None
                 "2026-01-06T00:00:00.000Z"))) /\
  createSynapse (SynapseCreateInput.mk "N1" "N3" NaN calls None) "S4"
    "2026-01-06T00:00:00.000Z" Sample.two_edges
  = (Ok None, Sample.two_edges).
Proof.
  split.
  - apply (proj1 (X2_createSynapse_returns_new_row Sample.two_edges
                    (Sample.edge calls 0.4) "S4" "2026-01-06T00:00:00.000Z")
             0.4); reflexivity.
  - apply (proj2 (X2_createSynapse_returns_new_row Sample.two_edges
                    (SynapseCreateInput.mk "N1" "N3" NaN calls None) "S4"
                    "2026-01-06T00:00:00.000Z")); reflexivity.
Defined.

(** X3: a synapse whose weight is a number, that would be inserted but
    names a neuron that is not stored, is refused: [createSynapse], and
    [findOrCreateCoActivationSynapse] on its create path, throw the
    foreign-key failure and store nothing.  With a NaN weight the row is
    skipped before the foreign keys are looked at: [createSynapse] returns
    null and nothing is thrown. *)
Theorem X3_missing_neuron_is_refused :
  forall (s : Store) (a b id now_iso now_sql : string) (w : Q)
         (ty : SynapseType) (metadata : option string),
    neuron_exists a s = false \/ neuron_exists b s = false ->
    fresh_id id s ->
    (existsb (same_edge a b ty) (synapses s) = false ->
     createSynapse (SynapseCreateInput.mk a b (Finite w) ty metadata)
       id now_iso s
     = (Throw SqliteConstraintForeignKey, s)) /\
    (existsb (same_edge a b co_activation) (synapses s) = false ->
     findOrCreateCoActivationSynapse a b id now_iso now_sql s
     = (Throw SqliteConstraintForeignKey, s)) /\
    createSynapse (SynapseCreateInput.mk a b NaN ty metadata) id now_iso s
    = (Ok None, s).
Proof.
  intros s a b id now_iso now_sql w ty metadata Hmiss Hfresh.
  assert (Hfk : neuron_exists a s && neuron_exists b s = false).
  { apply andb_false_iff. exact Hmiss. }
  assert (H : forall ty' (w' : Q) md,
             existsb (same_edge a b ty') (synapses s) = false ->
             createSynapse (SynapseCreateInput.mk a b w' ty' md)
               id now_iso s
             = (Throw SqliteConstraintForeignKey, s)).
  { intros ty' w' md Hno.
    unfold createSynapse, bind, insert_or_ignore_synapse.
    cbn [SynapseCreateInput.weight is_NaN].
    rewrite no_conflict_intro by assumption.
    cbn [new_synapse_row Synapse.source_id Synapse.target_id
         SynapseCreateInput.source_id SynapseCreateInput.target_id].
    now rewrite Hfk. }
  split; [|split].
  - intros Hno. now apply H.
  - intros Hno. unfold findOrCreateCoActivationSynapse.
    apply find_none_existsb in Hno as Hfind. rewrite Hfind.
    unfold bind at 1. now rewrite (H co_activation 0.3 None Hno).
  - unfold createSynapse, bind.
    rewrite insert_or_ignore_synapse_NaN by reflexivity.
    unfold getSynapse. now rewrite (fresh_id_find id s Hfresh).
Qed.

Lemma X3_witness :
  createSynapse (SynapseCreateInput.mk "N1" "N9" 0.5 imports None) "S4"
    "2026-01-06T00:00:00.000Z" Sample.two_edges
  = (Throw SqliteConstraintForeignKey, Sample.two_edges) /\
  findOrCreateCoActivationSynapse "N1" "N9" "S4" "2026-01-06T00:00:00.000Z"
    "2026-01-06 00:00:00" Sample.two_edges
  = (Throw SqliteConstraintForeignKey, Sample.two_edges) /\
  createSynapse (SynapseCreateInput.mk "N1" "N9" NaN imports None) "S4"
    "2026-01-06T00:00:00.000Z" Sample.two_edges
  = (Ok None, Sample.two_edges).
Proof.
  destruct (X3_missing_neuron_is_refused Sample.two_edges "N1" "N9" "S4"
              "2026-01-06T00:00:00.000Z" "2026-01-06 00:00:00" 0.5 imports
              None (or_intror eq_refl) eq_refl) as (H1 & H2 & H3).
  split; [apply H1; reflexivity|]. split; [apply H2; reflexivity | exact H3].
Defined.

(* ================================================================== *)
(** ** A batch of synapses: all or nothing *)

Lemma stored_edge_has_endpoints a b ty s :
  endpoints_exist s ->
  existsb (same_edge a b ty) (synapses s) = true ->
  neuron_exists a s = true /\ neuron_exists b s = true.
Proof.
  unfold endpoints_exist. rewrite Forall_forall, existsb_exists.
  intros Hs (r & Hin & Hr). apply same_edge_iff in Hr.
  destruct Hr as (<- & <- & _). now apply Hs.
Qed.

Lemma endpoints_exist_snoc row s :
  endpoints_exist s ->
  neuron_exists (Synapse.source_id row) s = true ->
  neuron_exists (Synapse.target_id row) s = true ->
  endpoints_exist (set_synapses s (synapses s ++ [row])).
Proof.
  unfold endpoints_exist. simpl. intros Hs Ha Hb.
  apply Forall_app. split; [exact Hs|]. now repeat constructor.
Qed.

Lemma insertMany_refuses items now :
  forall s,
    endpoints_exist s ->
    fresh_ids items s ->
    Exists (fun item =>
              is_NaN (SynapseCreateInput.weight (snd item)) = false /\
              endpoints_stored (snd item) s = false) items ->
    result (insertMany items now) s = Throw SqliteConstraintForeignKey.
Proof.
  induction items as [|[id input] rest IH]; intros s Hs Hfresh Hbad;
    [inversion Hbad|].
  destruct (fresh_ids_tail _ _ _ _ Hfresh) as (Hid & Hnot & Hrest).
  unfold result. simpl insertMany. unfold bind.
  destruct (insert_or_ignore_synapse_cases input id now s)
    as [[Hskip ->]|[(Hn & Hc & Ha & Hb & ->)|(Hn & Hc & ->)]];
    [| |reflexivity].
  - apply IH; [exact Hs | exact Hrest|].
    inversion Hbad as [? ? [Hnum Hhead]|]; subst; [|assumption].
    exfalso. cbn [snd] in Hnum, Hhead.
    destruct Hskip as [HN|Hc]; [congruence|].
    apply (conflict_fresh_has_edge (new_synapse_row input id now) s Hid)
      in Hc.
    destruct (stored_edge_has_endpoints _ _ _ s Hs Hc) as [Ha Hb].
    unfold endpoints_stored in Hhead. simpl in Hhead, Ha, Hb.
    rewrite Ha, Hb in Hhead. discriminate.
  - apply IH.
    + now apply endpoints_exist_snoc.
    + now apply (fresh_ids_after_insert id).
    + inversion Hbad as [? ? [Hnum Hhead]|]; subst; [|assumption].
      unfold endpoints_stored in Hhead. simpl in Hhead, Ha, Hb.
      rewrite Ha, Hb in Hhead. discriminate.
Qed.

Lemma insertMany_all_NaN items now s :
  Forall (fun item => is_NaN (SynapseCreateInput.weight (snd item)) = true)
    items ->
  insertMany items now s = (Ok tt, s).
Proof.
  induction 1 as [|[id input] rest Hd _ IH]; [reflexivity|].
  simpl insertMany. unfold bind, insert_or_ignore_synapse.
  cbn [snd] in Hd. now rewrite Hd.
Qed.

(** The inputs with a NaN weight may as well not be in the batch. *)
Lemma insertMany_without_NaN items now :
  forall s,
    insertMany items now s
    = insertMany
        (filter (fun item =>
                   negb (is_NaN (SynapseCreateInput.weight (snd item))))
           items) now s.
Proof.
  induction items as [|[id input] rest IH]; intros s; [reflexivity|].
  cbn [filter snd].
  destruct (is_NaN (SynapseCreateInput.weight input)) eqn:E; cbn [negb].
  - rewrite <- IH. simpl insertMany. unfold bind, insert_or_ignore_synapse.
    now rewrite E.
  - simpl insertMany. unfold bind.
    destruct (insert_or_ignore_synapse input id now s) as [[[]|e] s'];
      [apply IH | reflexivity].
Qed.

(** X4: [createSynapsesBatch] is all or nothing.  When the store keeps its
    foreign keys, the uuids are new and one input whose weight is a number
    names a neuron that is not stored, the call throws the foreign-key
    failure and the store is as before, whatever the inputs before it had
    inserted; and whenever the call throws, the store is as before.  A
    batch of inputs whose weights are all NaN throws nothing and stores
    nothing, whatever neurons they name. *)
Theorem X4_createSynapsesBatch_rolls_back :
  forall (s : Store) (inputs : list (string * SynapseCreateInput.t))
         (now : string),
    (endpoints_exist s ->
     fresh_ids inputs s ->
     Exists (fun item =>
               is_NaN (SynapseCreateInput.weight (snd item)) = false /\
               endpoints_stored (snd item) s = false) inputs ->
     createSynapsesBatch inputs now s = (Throw SqliteConstraintForeignKey, s))
    /\
    (forall e,
        result (createSynapsesBatch inputs now) s = Throw e ->
        exec (createSynapsesBatch inputs now) s = s) /\
    (Forall (fun item =>
               is_NaN (SynapseCreateInput.weight (snd item)) = true) inputs ->
     createSynapsesBatch inputs now s = (Ok tt, s)).
Proof.
  intros s inputs now. split; [|split].
  - intros Hs Hfresh Hbad.
    assert (H := insertMany_refuses inputs now s Hs Hfresh Hbad).
    unfold createSynapsesBatch, transaction. unfold result in H.
    destruct (insertMany inputs now s) as [[x|e] s']; simpl in H;
      [discriminate|].
    now injection H as ->.
  - intros e. unfold result, exec, createSynapsesBatch, transaction.
    destruct (insertMany inputs now s) as [[x|e'] s']; simpl;
      [discriminate | reflexivity].
  - intros Hall. unfold createSynapsesBatch, transaction.
    now rewrite (insertMany_all_NaN inputs now s Hall).
Qed.

Lemma X4_witness :
  createSynapsesBatch
    [("S4"%string, SynapseCreateInput.mk "N3" "N1" 0.2 calls None);
     ("S5"%string, SynapseCreateInput.mk "N1" "N9" 0.2 calls None)]
    "2026-01-06T00:00:00.000Z" Sample.two_edges
  = (Throw SqliteConstraintForeignKey, Sample.two_edges) /\
  createSynapsesBatch
    [("S5"%string, SynapseCreateInput.mk "N1" "N9" NaN calls None)]
    "2026-01-06T00:00:00.000Z" Sample.two_edges
  = (Ok tt, Sample.two_edges).
Proof.
  split.
  - apply (proj1 (X4_createSynapsesBatch_rolls_back Sample.two_edges
                    [("S4"%string,
                      SynapseCreateInput.mk "N3" "N1" 0.2 calls None);
                     ("S5"%string,
                      SynapseCreateInput.mk "N1" "N9" 0.2 calls None)]
                    "2026-01-06T00:00:00.000Z")).
    + repeat constructor.
    + split; [|repeat constructor].
      repeat constructor; simpl; intuition discriminate.
    + apply Exists_cons_tl, Exists_cons_hd. split; reflexivity.
  - apply (proj2 (proj2 (X4_createSynapsesBatch_rolls_back Sample.two_edges
                    [("S5"%string,
                      SynapseCreateInput.mk "N1" "N9" NaN calls None)]
                    "2026-01-06T00:00:00.000Z"))).
    repeat constructor.
Defined.

(** X5: when the weights of the inputs of [createSynapsesBatch] are
    numbers, every input names two stored neurons and the uuids are new,
    the call returns, leaves the stored rows where they are and only
    appends, and the triple of every input is stored afterwards.  Inputs
    with a NaN weight are skipped: the call does what it does without
    them. *)
Theorem X5_createSynapsesBatch_stores_every_edge :
  forall (s : Store) (inputs : list (string * SynapseCreateInput.t))
         (now : string),
    (Forall (fun item =>
               is_NaN (SynapseCreateInput.weight (snd item)) = false) inputs ->
     Forall (fun item => endpoints_stored (snd item) s = true) inputs ->
     fresh_ids inputs s ->
     exists added,
       createSynapsesBatch inputs now s
       = (Ok tt, set_synapses s (synapses s ++ added)) /\
       Forall (fun item =>
                 existsb (edge_of (snd item)) (synapses s ++ added) = true)
         inputs) /\
    createSynapsesBatch inputs now s
    = createSynapsesBatch
        (filter (fun item =>
                   negb (is_NaN (SynapseCreateInput.weight (snd item))))
           inputs) now s.
Proof.
  intros s inputs now. split.
  - intros Hnum Hall Hfresh.
    destruct (insertMany_inserts inputs now s Hnum Hall Hfresh)
      as (added & E & Hedges & _).
    exists added. split; [|exact Hedges].
    unfold createSynapsesBatch, transaction. now rewrite E.
  - unfold createSynapsesBatch, transaction.
    now rewrite <- insertMany_without_NaN.
Qed.

Lemma X5_witness :
  exists added,
    createSynapsesBatch
      [("S4"%string, SynapseCreateInput.mk "N3" "N1" 0.2 calls None);
       ("S5"%string, SynapseCreateInput.mk "N1" "N3" 0.9 imports None);
       ("S6"%string, SynapseCreateInput.mk "N3" "N1" 0.7 calls None)]
      "2026-01-06T00:00:00.000Z" Sample.two_edges
    = (Ok tt,
       set_synapses Sample.two_edges (synapses Sample.two_edges ++ added)) /\
    Forall (fun item =>
              existsb (edge_of (snd item))
                (synapses Sample.two_edges ++ added) = true)
      [("S4"%string, SynapseCreateInput.mk "N3" "N1" 0.2 calls None);
       ("S5"%string, SynapseCreateInput.mk "N1" "N3" 0.9 imports None);
       ("S6"%string, SynapseCreateInput.mk "N3" "N1" 0.7 calls None)].
Proof.
  apply (proj1 (X5_createSynapsesBatch_stores_every_edge Sample.two_edges
                  [("S4"%string,
                    SynapseCreateInput.mk "N3" "N1" 0.2 calls None);
                   ("S5"%string,
                    SynapseCreateInput.mk "N1" "N3" 0.9 imports None);
                   ("S6"%string,
                    SynapseCreateInput.mk "N3" "N1" 0.7 calls None)]
                  "2026-01-06T00:00:00.000Z")).
  - repeat constructor.
  - repeat constructor.
  - split; [|repeat constructor].
    repeat constructor; simpl; intuition discriminate.
Defined.

(* ================================================================== *)
(** ** The schema's constraints hold in every reachable database *)

Section Keeps.
Variable G : Store -> Prop.

Lemma keeps_bind {A B} (c : M A) (k : A -> M B) :
  (forall s, G s -> G (exec c s)) ->
  (forall x s, G s -> G (exec (k x) s)) ->
  forall s, G s -> G (exec (bind c k) s).
Proof.
  intros Hc Hk s Hs. unfold exec, bind in *.
  specialize (Hc s Hs). destruct (c s) as [[x|e] s']; simpl in *;
    [now apply Hk | exact Hc].
Qed.

Lemma keeps_ret {A} (x : A) : forall s, G s -> G (exec (ret x) s).
Proof. now intros s Hs. Qed.

Lemma keeps_transaction {A} (body : M A) :
  (forall s, G s -> G (exec body s)) ->
  forall s, G s -> G (exec (transaction body) s).
Proof.
  intros Hb s Hs. destruct (exec_transaction body s) as [-> | ->]; auto.
Qed.
End Keeps.

Lemma not_in_ids {A} (f : A -> string) id l :
  existsb (fun r => String.eqb (f r) id) l = false -> ~ In id (map f l).
Proof.
  intros Hno Hin. apply in_map_iff in Hin. destruct Hin as (r & Hr & Hin).
  assert (existsb (fun r => String.eqb (f r) id) l = true); [|congruence].
  apply existsb_exists. exists r. split; [exact Hin|].
  now apply String.eqb_eq.
Qed.

Lemma NoDup_map_filter {A B} (f : A -> B) (p : A -> bool) l :
  NoDup (map f l) -> NoDup (map f (filter p l)).
Proof.
  induction l as [|x l IH]; simpl; intros H; [constructor|].
  inversion H as [|? ? Hx Hl]; subst.
  destruct (p x); simpl; [|auto]. constructor; [|auto].
  intros Hin. apply Hx. apply in_map_iff in Hin.
  destruct Hin as (y & Hy & Hin). apply filter_In in Hin.
  apply in_map_iff. exists y. tauto.
Qed.

Lemma neuron_exists_iff id s :
  neuron_exists id s = true <-> In id (map NeuronRow.id (neurons s)).
Proof.
  unfold neuron_exists. rewrite existsb_exists, in_map_iff.
  split; intros (n & H1 & H2); exists n.
  - apply String.eqb_eq in H2. auto.
  - split; [exact H2 | now apply String.eqb_eq].
Qed.

Lemma endpoints_exist_neurons s s' :
  (forall id, neuron_exists id s = true -> neuron_exists id s' = true) ->
  synapses s' = synapses s ->
  endpoints_exist s -> endpoints_exist s'.
Proof.
  unfold endpoints_exist. intros Hn ->. apply Forall_impl.
  intros r [Ha Hb]. auto.
Qed.

(** *** The four statements that write to the graph tables *)

Lemma insert_neuron_keeps row :
  forall s, graph_constraints s ->
            graph_constraints (exec (insert_neuron row) s).
Proof.
  intros s (Hn & Hi & He & Hf). unfold exec, insert_neuron.
  destruct (existsb _ (neurons s)) eqn:Hid; simpl; [now repeat split|].
  repeat split; try assumption.
  - unfold unique_neuron_ids. simpl. rewrite map_app.
    apply NoDup_snoc; [exact Hn | now apply not_in_ids].
  - apply (endpoints_exist_neurons s); [|reflexivity | exact Hf].
    intros id. unfold neuron_exists. simpl. apply existsb_app_l.
Qed.

Lemma conflicts_false_fresh row l :
  existsb (conflicts row) l = false ->
  existsb (fun r => String.eqb (Synapse.id r) (Synapse.id row)) l = false.
Proof.
  induction l as [|r l IH]; simpl; [reflexivity|].
  unfold conflicts at 1. rewrite !orb_false_iff. intros [[-> _] Hl]. auto.
Qed.

Lemma insert_or_ignore_synapse_keeps input id now :
  forall s, graph_constraints s ->
            graph_constraints (exec (insert_or_ignore_synapse input id now) s).
Proof.
  intros s (Hn & Hi & He & Hf).
  split; [|split; [|split; [now apply insert_or_ignore_unique|]]];
    unfold exec;
    destruct (insert_or_ignore_synapse_cases input id now s)
      as [[Hc ->]|[(_ & Hc & Ha & Hb & ->)|(_ & Hc & ->)]];
    cbn [snd synapses neurons set_synapses]; try assumption.
  - unfold unique_synapse_ids. simpl. rewrite map_app.
    apply NoDup_snoc; [exact Hi|]. apply not_in_ids.
    exact (conflicts_false_fresh _ _ Hc).
  - now apply endpoints_exist_snoc.
Qed.

Lemma update_synapses_keeps where_ set_ :
  (forall r, Synapse.id (set_ r) = Synapse.id r /\
             Synapse.source_id (set_ r) = Synapse.source_id r /\
             Synapse.target_id (set_ r) = Synapse.target_id r /\
             Synapse.type (set_ r) = Synapse.type r) ->
  forall s, graph_constraints s ->
            graph_constraints (exec (update_synapses where_ set_) s).
Proof.
  intros Hset s (Hn & Hi & He & Hf). repeat split.
  - exact Hn.
  - unfold unique_synapse_ids. rewrite update_synapses_rows, map_map.
    erewrite map_ext; [exact Hi|].
    intros r. simpl. destruct (where_ r); [apply Hset | reflexivity].
  - apply update_synapses_unique; [|exact He].
    intros r. unfold edge_key. destruct (Hset r) as (_ & -> & -> & ->).
    reflexivity.
  - unfold endpoints_exist. rewrite update_synapses_rows.
    apply Forall_map. revert Hf. apply Forall_impl.
    intros r Hr. destruct (where_ r); [|exact Hr].
    destruct (Hset r) as (_ & -> & -> & _). exact Hr.
Qed.

Lemma deleteNeuronsByFile_keeps filePath :
  forall s, graph_constraints s ->
            graph_constraints (exec (deleteNeuronsByFile filePath) s).
Proof.
  intros s (Hn & Hi & He & Hf). unfold exec, deleteNeuronsByFile. simpl.
  repeat split.
  - now apply NoDup_map_filter.
  - now apply NoDup_map_filter.
  - now apply NoDup_map_filter.
  - unfold endpoints_exist in *. simpl. rewrite Forall_forall in *.
    intros r Hin. apply filter_In in Hin. destruct Hin as [Hin Hkeep].
    apply negb_true_iff, orb_false_iff in Hkeep. destruct Hkeep as [Ka Kb].
    destruct (Hf r Hin) as [Ha Hb].
    assert (Hstay : forall id,
               neuron_exists id s = true ->
               mem_id id (map NeuronRow.id
                            (filter (in_file filePath) (neurons s))) = false ->
               existsb (fun n => String.eqb (NeuronRow.id n) id)
                 (filter (fun n => negb (in_file filePath n)) (neurons s))
               = true).
    { intros id Hex Hmem. unfold neuron_exists in Hex.
      apply existsb_exists in Hex. destruct Hex as (n & Hn1 & Hn2).
      apply existsb_exists. exists n. split; [|exact Hn2].
      apply filter_In. split; [exact Hn1|]. apply negb_true_iff.
      destruct (in_file filePath n) eqn:Hfile; [|reflexivity].
      assert (mem_id id (map NeuronRow.id
                           (filter (in_file filePath) (neurons s))) = true);
        [|congruence].
      apply existsb_exists. exists (NeuronRow.id n). split.
      - apply in_map. apply filter_In. auto.
      - apply String.eqb_eq in Hn2. rewrite Hn2. apply String.eqb_refl. }
    unfold neuron_exists. simpl. split; apply Hstay; assumption.
Qed.

Lemma updateNeuronActivation_keeps id now :
  forall s, graph_constraints s ->
            graph_constraints (exec (updateNeuronActivation id now) s).
Proof.
  intros s (Hn & Hi & He & Hf). unfold exec, updateNeuronActivation. simpl.
  assert (Hids : map NeuronRow.id
                   (map (fun r => if String.eqb (NeuronRow.id r) id
                                  then activated now r else r) (neurons s))
                 = map NeuronRow.id (neurons s)).
  { rewrite map_map. apply map_ext. intros r.
    now destruct (String.eqb (NeuronRow.id r) id). }
  repeat split; try assumption.
  - unfold unique_neuron_ids. simpl. now rewrite Hids.
  - apply (endpoints_exist_neurons s); [|reflexivity | exact Hf].
    intros x. rewrite !neuron_exists_iff. simpl. now rewrite Hids.
Qed.

(** *** The methods *)

Lemma getNeuron_exec id s : exec (getNeuron id) s = s.
Proof.
  unfold exec, getNeuron.
  destruct (find _ (neurons s)) as [row|]; [|reflexivity].
  now destruct (rowToNeuron row).
Qed.

Lemma insertMany_keeps items now :
  forall s, graph_constraints s ->
            graph_constraints (exec (insertMany items now) s).
Proof.
  induction items as [|[id input] rest IH]; [now intros s Hs|].
  simpl insertMany. apply keeps_bind.
  - apply insert_or_ignore_synapse_keeps.
  - intros _. exact IH.
Qed.

Lemma insertManyNeurons_keeps items now :
  forall s, graph_constraints s ->
            graph_constraints (exec (insertManyNeurons items now) s).
Proof.
  induction items as [|[id input] rest IH]; [now intros s Hs|].
  simpl insertManyNeurons. apply keeps_bind.
  - apply insert_neuron_keeps.
  - intros _. exact IH.
Qed.

Lemma strengthened_same_row delta now r :
  Synapse.id (strengthened delta now r) = Synapse.id r /\
  Synapse.source_id (strengthened delta now r) = Synapse.source_id r /\
  Synapse.target_id (strengthened delta now r) = Synapse.target_id r /\
  Synapse.type (strengthened delta now r) = Synapse.type r.
Proof. now repeat split. Qed.

Lemma weakened_same_row delta r :
  Synapse.id (weakened delta r) = Synapse.id r /\
  Synapse.source_id (weakened delta r) = Synapse.source_id r /\
  Synapse.target_id (weakened delta r) = Synapse.target_id r /\
  Synapse.type (weakened delta r) = Synapse.type r.
Proof. now repeat split. Qed.

Lemma call_keeps julianday c :
  forall s, graph_constraints s -> graph_constraints (call julianday s c).
Proof.
  destruct c as [input id now | input id now | inputs now
                | a b delta now | a b delta | daysOld delta jnow
                | a b id now_iso now_sql]; cbn [call]; intros s Hs.
  - unfold createNeuron. apply keeps_bind; [| |exact Hs].
    + apply insert_neuron_keeps.
    + intros _ s' Hs'. now rewrite getNeuron_exec.
  - rewrite createSynapse_exec. now apply insert_or_ignore_synapse_keeps.
  - unfold createSynapsesBatch. apply keeps_transaction; [|exact Hs].
    apply insertMany_keeps.
  - unfold strengthenSynapse. apply keeps_bind; [| |exact Hs].
    + apply update_synapses_keeps. intros r. apply strengthened_same_row.
    + intros x. now apply keeps_ret.
  - unfold weakenSynapse. apply keeps_bind; [| |exact Hs].
    + apply update_synapses_keeps. intros r. apply weakened_same_row.
    + intros x. now apply keeps_ret.
  - apply update_synapses_keeps; [|exact Hs].
    intros r. apply weakened_same_row.
  - rewrite findOrCreateCoActivationSynapse_exec.
    destruct (find (same_edge a b co_activation) (synapses s)).
    + apply update_synapses_keeps; [|exact Hs].
      intros r. apply strengthened_same_row.
    + now apply insert_or_ignore_synapse_keeps.
Qed.

Lemma perform_keeps julianday a :
  forall b, schema_holds b -> schema_holds (perform julianday b a).
Proof.
  destruct a as [c | inputs now | filePath | id now | file now | filePath
                | query activatedIds usedIds id now | ];
    intros b (Hg & Hp & Hq); cbn [perform].
  - split; [|now split]. now apply call_keeps.
  - split; [|now split]. cbn [on_graph graph].
    unfold createNeuronsBatch. apply keeps_bind; [| |exact Hg].
    + apply keeps_transaction. apply insertManyNeurons_keeps.
    + intros x. now apply keeps_ret.
  - split; [|now split]. now apply deleteNeuronsByFile_keeps.
  - split; [|now split]. now apply updateNeuronActivation_keeps.
  - split; [exact Hg|]. split; [|exact Hq].
    unfold unique_paths, upsertIndexedFile. cbn [indexed_files].
    rewrite map_app. apply NoDup_snoc; [now apply NoDup_map_filter|].
    cbn [map IndexedFile.path]. intros Hin. apply in_map_iff in Hin.
    destruct Hin as (f & Hf & Hin). apply filter_In in Hin.
    destruct Hin as [_ Hne]. unfold has_path in Hne.
    rewrite Hf, String.eqb_refl in Hne. discriminate.
  - split; [exact Hg|]. split; [|exact Hq].
    unfold unique_paths, deleteIndexedFile. cbn [indexed_files].
    now apply NoDup_map_filter.
  - unfold logQuery.
    destruct (existsb _ (query_log b)) eqn:Hid; cbn [snd];
      [exact (conj Hg (conj Hp Hq))|].
    split; [exact Hg|]. split; [exact Hp|].
    unfold unique_query_ids. cbn [query_log]. rewrite map_app.
    apply NoDup_snoc; [exact Hq | now apply not_in_ids].
  - repeat split; constructor.
Qed.

(** X6: every method keeps what the schema declares: the primary keys of
    the four tables stay unique, no triple [(source_id, target_id, type)]
    is stored twice, and both ends of every synapse are stored neurons,
    also after [deleteNeuronsByFile], whose cascade removes the synapses
    of the neurons it deletes. *)
Theorem X6_schema_constraints_kept :
  forall (julianday : string -> option Q) (acts : list Action) (b : Brain),
    schema_holds b ->
    schema_holds (perform_all julianday acts b).
Proof.
  intros julianday acts. unfold perform_all.
  induction acts as [|a acts IH]; intros b Hb; [exact Hb|].
  simpl. apply IH. now apply perform_keeps.
Qed.

Lemma X6_witness :
  schema_holds
    (perform_all Sample.julianday
       [OnGraph (CreateNeuron (Sample.chunk "x") "N1" "2026-01-01T00:00:00.000Z");
        CreateNeuronsBatch
          [("N3"%string, Sample.chunk "y"); ("N1"%string, Sample.chunk "z")]
          "2026-01-01T00:00:00.000Z";
        CreateNeuronsBatch [("N3"%string, Sample.chunk "y")]
          "2026-01-01T00:00:00.000Z";
        OnGraph (CreateSynapse (Sample.edge imports 0.5) "S1"
                   "2026-01-02T00:00:00.000Z");
        OnGraph (FindOrCreateCoActivationSynapse "N1" "N3" "S2"
                   "2026-01-02T00:00:00.000Z" "2026-01-02 00:00:00");
        UpsertIndexedFile (IndexedFileInput.mk "src/a.ts" "ts" 2 "9f86d081")
          "2026-01-02 00:00:00";
        LogQuery "where is x" ["N1"; "N3"]%string None "Q1"
          "2026-01-02 00:00:01";
        UpdateNeuronActivation "N1" "2026-01-02 00:00:01";
        DeleteNeuronsByFile "src/a.ts"]
       empty_brain).
Proof.
  apply (X6_schema_constraints_kept Sample.julianday).
  repeat split; constructor.
Defined.

(* ================================================================== *)
(** ** Deleting the neurons of a file *)

Lemma filter_all {A} (p : A -> bool) l :
  (forall x, In x l -> p x = true) -> filter p l = l.
Proof.
  induction l as [|x l IH]; simpl; intros H; [reflexivity|].
  rewrite (H x) by now left. f_equal. apply IH. intros y Hy. apply H.
  now right.
Qed.

Lemma filter_none {A} (p : A -> bool) l :
  (forall x, In x l -> p x = false) -> filter p l = [].
Proof.
  induction l as [|x l IH]; simpl; intros H; [reflexivity|].
  rewrite (H x) by now left. apply IH. intros y Hy. apply H. now right.
Qed.

Lemma mem_id_iff id ids : mem_id id ids = true <-> In id ids.
Proof.
  unfold mem_id. rewrite existsb_exists. split.
  - intros (x & Hin & Hx). apply String.eqb_eq in Hx. now subst.
  - intros Hin. exists id. split; [exact Hin | apply String.eqb_refl].
Qed.

Lemma deleteNeuronsByFile_nothing filePath s :
  filter (in_file filePath) (neurons s) = [] ->
  deleteNeuronsByFile filePath s = (Ok 0%Z, s).
Proof.
  intros Hgone. unfold deleteNeuronsByFile. rewrite Hgone.
  destruct s as [ns ss]. simpl in *. f_equal. f_equal.
  - apply filter_all. intros n Hin. apply negb_true_iff.
    destruct (in_file filePath n) eqn:Hf; [|reflexivity].
    assert (H : In n (filter (in_file filePath) ns))
      by (apply filter_In; auto).
    rewrite Hgone in H. contradiction.
  - now apply filter_all.
Qed.

(** X7: [deleteNeuronsByFile] returns the number of neurons of the file
    and removes exactly them; a synapse stays if and only if neither of
    its ends is a deleted neuron; afterwards the file has no neuron, and
    deleting again returns 0 and changes nothing. *)
Theorem X7_deleteNeuronsByFile :
  forall (filePath : string) (s : Store),
    let s' := exec (deleteNeuronsByFile filePath) s in
    result (deleteNeuronsByFile filePath) s
    = Ok (Z.of_nat (List.length (filter (in_file filePath) (neurons s)))) /\
    (forall n, In n (neurons s') <->
               In n (neurons s) /\ NeuronRow.file_path n <> filePath) /\
    (forall r, In r (synapses s') <->
               In r (synapses s) /\
               ~ exists n, In n (neurons s) /\
                           NeuronRow.file_path n = filePath /\
                           (NeuronRow.id n = Synapse.source_id r \/
                            NeuronRow.id n = Synapse.target_id r)) /\
    result (getNeuronsByFile filePath) s' = Ok [] /\
    deleteNeuronsByFile filePath s' = (Ok 0%Z, s').
Proof.
  intros filePath s s'.
  assert (Hgone : filter (in_file filePath) (neurons s') = []).
  { apply filter_none. intros n Hin. unfold s', exec in Hin. simpl in Hin.
    apply filter_In in Hin. now apply negb_true_iff. }
  assert (Hdel : forall id,
             In id (map NeuronRow.id (filter (in_file filePath) (neurons s)))
             <-> exists n, In n (neurons s) /\
                           NeuronRow.file_path n = filePath /\
                           NeuronRow.id n = id).
  { intros id. rewrite in_map_iff. split.
    - intros (n & Hid & Hin). apply filter_In in Hin. exists n.
      unfold in_file in Hin. rewrite String.eqb_eq in Hin. tauto.
    - intros (n & Hin & Hf & Hid). exists n. split; [exact Hid|].
      apply filter_In. unfold in_file. rewrite String.eqb_eq. tauto. }
  split; [|split; [|split; [|split]]].
  - unfold result, deleteNeuronsByFile. simpl. now rewrite length_map.
  - intros n. unfold s', exec. simpl. rewrite filter_In, negb_true_iff.
    unfold in_file. now rewrite String.eqb_neq.
  - intros r. unfold s', exec. simpl.
    rewrite filter_In, negb_true_iff, orb_false_iff,
      <- !not_true_iff_false, !mem_id_iff, !Hdel.
    split.
    + intros (Hin & Ha & Hb). split; [exact Hin|].
      intros (n & Hn & Hf & [Hid|Hid]); [apply Ha | apply Hb]; now exists n.
    + intros (Hin & Hno). split; [exact Hin|].
      split; intros (n & Hn & Hf & Hid); apply Hno; exists n; tauto.
  - unfold result, getNeuronsByFile. now rewrite Hgone.
  - now apply deleteNeuronsByFile_nothing.
Qed.

(* ================================================================== *)
(** ** Counting an activation *)

Lemma find_map_same_test {A} (p : A -> bool) (f : A -> A) l :
  (forall x, p (f x) = p x) ->
  find p (map f l) = option_map f (find p l).
Proof.
  intros Hp. induction l as [|x l IH]; simpl; [reflexivity|].
  rewrite Hp. now destruct (p x).
Qed.

Lemma getNeuron_result id s :
  result (getNeuron id) s =
  match find (fun r => String.eqb (NeuronRow.id r) id) (neurons s) with
  | None => Ok None
  | Some row =>
      match rowToNeuron row with
      | Ok n => Ok (Some n)
      | Throw e => Throw e
      end
  end.
Proof.
  unfold result, getNeuron.
  destruct (find _ (neurons s)) as [row|]; [|reflexivity].
  now destruct (rowToNeuron row).
Qed.

(** X8: [updateNeuronActivation] touches no synapse and no other neuron;
    the neuron of the id reads back with [activation_count] one higher,
    [last_activated] and [updated_at] now and everything else as it was;
    an id that is not stored changes nothing. *)
Theorem X8_updateNeuronActivation :
  forall (s : Store) (id now : string),
    let s' := exec (updateNeuronActivation id now) s in
    synapses s' = synapses s /\
    (forall n,
        result (getNeuron id) s = Ok (Some n) ->
        result (getNeuron id) s'
        = Ok (Some (Neuron.mk (Neuron.id n) (Neuron.content n)
                      (Neuron.summary n) (Neuron.embedding n)
                      (Neuron.file_path n) (Neuron.start_line n)
                      (Neuron.end_line n) (Neuron.type n) (Neuron.name n)
                      (Neuron.language n) (Neuron.activation_count n + 1)
                      (Some now) (Neuron.created_at n) now))) /\
    (forall other,
        other <> id ->
        result (getNeuron other) s' = result (getNeuron other) s) /\
    (neuron_exists id s = false -> s' = s).
Proof.
  intros s id now s'.
  assert (Hfind : forall x,
             find (fun r => String.eqb (NeuronRow.id r) x) (neurons s')
             = option_map (fun r => if String.eqb (NeuronRow.id r) id
                                    then activated now r else r)
                 (find (fun r => String.eqb (NeuronRow.id r) x) (neurons s))).
  { intros x. unfold s', exec, updateNeuronActivation. simpl.
    apply find_map_same_test. intros r.
    now destruct (String.eqb (NeuronRow.id r) id). }
  split; [reflexivity|]. split; [|split].
  - intros n. rewrite !getNeuron_result, Hfind.
    destruct (find _ (neurons s)) as [row|] eqn:E; [|discriminate].
    apply find_some in E. destruct E as [_ E]. cbn [option_map]. rewrite E.
    unfold rowToNeuron. cbn [activated NeuronRow.embedding].
    destruct (match NeuronRow.embedding row with
              | Some blob => Float32Array.of_buffer blob
              | None => Some Float32Array.empty
              end) as [e|]; [|discriminate].
    intros H. injection H as <-. reflexivity.
  - intros other Hne. rewrite !getNeuron_result, Hfind.
    destruct (find _ (neurons s)) as [row|] eqn:E; [|reflexivity].
    apply find_some in E. destruct E as [_ E]. cbn [option_map].
    apply String.eqb_eq in E. rewrite E.
    apply String.eqb_neq in Hne. now rewrite Hne.
  - intros Hno. unfold s', exec, updateNeuronActivation. simpl.
    destruct s as [ns ss]. unfold set_neurons. simpl. f_equal.
    rewrite <- (map_id ns) at 2. apply map_ext_in. intros r Hin.
    destruct (String.eqb (NeuronRow.id r) id) eqn:E; [|reflexivity].
    unfold neuron_exists in Hno. simpl in Hno.
    assert (existsb (fun n => String.eqb (NeuronRow.id n) id) ns = true);
      [|congruence].
    apply existsb_exists. now exists r.
Qed.

Lemma X8_witness :
  result (getNeuron "N1")
    (exec (updateNeuronActivation "N1" "2026-01-07 00:00:00")
       Sample.two_edges)
  = Ok (Some (Neuron.mk "N1" "export const x = 1" "a constant" Sample.vec
                "src/a.ts" 1 3 nt_variable "x" "ts" (0 + 1)
                (Some "2026-01-07 00:00:00"%string)
                "2026-01-01T00:00:00.000Z" "2026-01-07 00:00:00")) /\
  result (getNeuron "N3")
    (exec (updateNeuronActivation "N1" "2026-01-07 00:00:00")
       Sample.two_edges)
  = result (getNeuron "N3") Sample.two_edges /\
  exec (updateNeuronActivation "N9" "2026-01-07 00:00:00") Sample.two_edges
  = Sample.two_edges.
Proof.
  split; [|split].
  - apply (proj1 (proj2 (X8_updateNeuronActivation Sample.two_edges "N1"
                           "2026-01-07 00:00:00"))
             (Neuron.mk "N1" "export const x = 1" "a constant" Sample.vec
                "src/a.ts" 1 3 nt_variable "x" "ts" 0 None
                "2026-01-01T00:00:00.000Z" "2026-01-01T00:00:00.000Z")).
    reflexivity.
  - apply (X8_updateNeuronActivation Sample.two_edges "N1"
             "2026-01-07 00:00:00"). discriminate.
  - apply (X8_updateNeuronActivation Sample.two_edges "N9"
             "2026-01-07 00:00:00"). reflexivity.
Defined.

(* ================================================================== *)
(** ** A batch of neurons *)

Lemma neuron_exists_snoc id row s :
  neuron_exists id (set_neurons s (neurons s ++ [row])) =
  neuron_exists id s || String.eqb (NeuronRow.id row) id.
Proof.
  unfold neuron_exists. simpl. rewrite existsb_app. simpl.
  now rewrite orb_false_r.
Qed.

Lemma insertManyNeurons_inserts inputs now :
  forall s,
    fresh_neuron_ids inputs s ->
    insertManyNeurons inputs now s
    = (Ok tt,
       set_neurons s
         (neurons s ++
          map (fun item => neuron_row (snd item) (fst item) now) inputs)).
Proof.
  induction inputs as [|[id input] rest IH]; intros s [Hnd Hf].
  - simpl. rewrite app_nil_r. now destruct s.
  - simpl in Hnd. inversion Hnd as [|? ? Hnot Hnd']; subst.
    inversion Hf as [|? ? Hid Hf']; subst. simpl in Hid.
    simpl insertManyNeurons. unfold bind, insert_neuron.
    cbn [neuron_row NeuronRow.id]. unfold neuron_exists in Hid. rewrite Hid.
    fold (neuron_row input id now).
    rewrite IH.
    + cbn [neurons set_neurons map fst snd]. now rewrite <- app_assoc.
    + split; [exact Hnd'|]. apply Forall_forall. intros item Hin.
      rewrite neuron_exists_snoc.
      rewrite (proj1 (Forall_forall _ _) Hf' item Hin). simpl.
      apply String.eqb_neq. intros E. apply Hnot. simpl in E. rewrite E.
      now apply in_map.
Qed.

Lemma insertManyNeurons_collides inputs now :
  forall s,
    (exists id, In id (map fst inputs) /\ neuron_exists id s = true) \/
    ~ NoDup (map fst inputs) ->
    result (insertManyNeurons inputs now) s = Throw SqliteConstraintPrimaryKey.
Proof.
  induction inputs as [|[id input] rest IH]; intros s Hbad.
  - destruct Hbad as [(id & [] & _)|H]; exfalso. apply H. constructor.
  - unfold result. simpl insertManyNeurons. unfold bind, insert_neuron.
    cbn [neuron_row NeuronRow.id].
    destruct (existsb (fun r => String.eqb (NeuronRow.id r) id) (neurons s))
      eqn:Hid; [reflexivity|].
    fold (neuron_row input id now). apply IH.
    destruct Hbad as [(x & Hin & Hx)|Hdup].
    + left. exists x. simpl in Hin. destruct Hin as [<-|Hin].
      * unfold neuron_exists in Hx. congruence.
      * split; [exact Hin|]. rewrite neuron_exists_snoc, Hx. reflexivity.
    + destruct (in_dec string_dec id (map fst rest)) as [Hin|Hnot].
      * left. exists id. split; [exact Hin|].
        rewrite neuron_exists_snoc. cbn [neuron_row NeuronRow.id].
        now rewrite String.eqb_refl, orb_true_r.
      * right. intros Hnd. apply Hdup. simpl. now constructor.
Qed.

Lemma find_app_absent {A} (p : A -> bool) l l' :
  existsb p l = false -> find p (l ++ l') = find p l'.
Proof.
  induction l as [|x l IH]; simpl; [reflexivity|].
  rewrite orb_false_iff. intros [-> H]. auto.
Qed.

Lemma find_batch_row inputs now id input :
  NoDup (map fst inputs) ->
  In (id, input) inputs ->
  find (fun r => String.eqb (NeuronRow.id r) id)
    (map (fun item => neuron_row (snd item) (fst item) now) inputs)
  = Some (neuron_row input id now).
Proof.
  induction inputs as [|[id' input'] rest IH]; intros Hnd Hin; [destruct Hin|].
  simpl in Hnd. inversion Hnd as [|? ? Hnot Hnd']; subst.
  cbn [map find fst snd neuron_row NeuronRow.id].
  destruct Hin as [E|Hin].
  - injection E as -> ->. now rewrite String.eqb_refl.
  - destruct (String.eqb_spec id' id) as [->|_].
    + exfalso. apply Hnot. apply (in_map fst) in Hin. exact Hin.
    + now apply IH.
Qed.

(** X9: [createNeuronsBatch] is all or nothing.  With uuids that are new
    and pairwise different it appends one row per input, in input order,
    and returns the ids in that order; each input whose embedding is a view
    on its whole buffer then reads back through [getNeuron] as it went in.
    When a uuid is in use or drawn twice, the call throws the primary-key
    failure and the store is as before. *)
Theorem X9_createNeuronsBatch :
  forall (s : Store) (inputs : list (string * NeuronCreateInput.t))
         (now : string),
    (fresh_neuron_ids inputs s ->
     createNeuronsBatch inputs now s
     = (Ok (map fst inputs),
        set_neurons s
          (neurons s ++
           map (fun item => neuron_row (snd item) (fst item) now) inputs)) /\
     forall id input,
       In (id, input) inputs ->
       whole_buffer (NeuronCreateInput.embedding input) ->
       result (getNeuron id) (exec (createNeuronsBatch inputs now) s)
       = Ok (Some (neuron_of input id now))) /\
    ((exists id, In id (map fst inputs) /\ neuron_exists id s = true) \/
     ~ NoDup (map fst inputs) ->
     createNeuronsBatch inputs now s = (Throw SqliteConstraintPrimaryKey, s)).
Proof.
  intros s inputs now. split.
  - intros Hfresh.
    assert (E : createNeuronsBatch inputs now s
                = (Ok (map fst inputs),
                   set_neurons s
                     (neurons s ++
                      map (fun item => neuron_row (snd item) (fst item) now)
                        inputs))).
    { unfold createNeuronsBatch, bind, transaction.
      now rewrite (insertManyNeurons_inserts inputs now s Hfresh). }
    split; [exact E|].
    intros id input Hin [Hoff Hlen]. unfold exec. rewrite E.
    rewrite getNeuron_result. cbn [snd neurons set_neurons].
    destruct Hfresh as [Hnd Hf].
    rewrite find_app_absent
      by exact (proj1 (Forall_forall _ _) Hf (id, input) Hin).
    rewrite (find_batch_row inputs now id input Hnd Hin).
    unfold rowToNeuron, neuron_row, neuron_of. cbn [NeuronRow.embedding].
    now rewrite (of_buffer_whole _ Hoff Hlen).
  - intros Hbad.
    assert (H := insertManyNeurons_collides inputs now s Hbad).
    unfold createNeuronsBatch, bind, transaction. unfold result in H.
    destruct (insertManyNeurons inputs now s) as [[x|e] s']; simpl in H;
      [discriminate|].
    now injection H as ->.
Qed.

Lemma X9_witness :
  (createNeuronsBatch
     [("N4"%string, Sample.chunk "u"); ("N5"%string, Sample.chunk "v")]
     "2026-01-08T00:00:00.000Z" Sample.two_edges
   = (Ok ["N4"; "N5"]%string,
      set_neurons Sample.two_edges
        (neurons Sample.two_edges ++
         [neuron_row (Sample.chunk "u") "N4" "2026-01-08T00:00:00.000Z";
          neuron_row (Sample.chunk "v") "N5" "2026-01-08T00:00:00.000Z"])) /\
   forall id input,
     In (id, input)
       [("N4"%string, Sample.chunk "u"); ("N5"%string, Sample.chunk "v")] ->
     whole_buffer (NeuronCreateInput.embedding input) ->
     result (getNeuron id)
       (exec (createNeuronsBatch
                [("N4"%string, Sample.chunk "u");
                 ("N5"%string, Sample.chunk "v")]
                "2026-01-08T00:00:00.000Z") Sample.two_edges)
     = Ok (Some (neuron_of input id "2026-01-08T00:00:00.000Z"))) /\
  createNeuronsBatch
    [("N4"%string, Sample.chunk "u"); ("N1"%string, Sample.chunk "v")]
    "2026-01-08T00:00:00.000Z" Sample.two_edges
  = (Throw SqliteConstraintPrimaryKey, Sample.two_edges).
Proof.
  split.
  - apply (X9_createNeuronsBatch Sample.two_edges
             [("N4"%string, Sample.chunk "u"); ("N5"%string, Sample.chunk "v")]
             "2026-01-08T00:00:00.000Z").
    split; [|repeat constructor].
    repeat constructor; simpl; intuition discriminate.
  - apply (X9_createNeuronsBatch Sample.two_edges
             [("N4"%string, Sample.chunk "u"); ("N1"%string, Sample.chunk "v")]
             "2026-01-08T00:00:00.000Z").
    left. exists "N1"%string. split; [simpl; auto | reflexivity].
Defined.

(* ================================================================== *)
(** ** The order of texts *)

Lemma ascii_compare_refl c : Ascii.compare c c = Eq.
Proof. unfold Ascii.compare. apply N.compare_refl. Qed.

Lemma ascii_compare_lt_trans a b c :
  Ascii.compare a b = Lt -> Ascii.compare b c = Lt -> Ascii.compare a c = Lt.
Proof.
  unfold Ascii.compare. rewrite !N.compare_lt_iff. apply N.lt_trans.
Qed.

Lemma string_compare_refl s : String.compare s s = Eq.
Proof.
  induction s as [|c s IH]; simpl; [reflexivity|].
  now rewrite ascii_compare_refl.
Qed.

Lemma string_compare_lt_trans :
  forall a b c,
    String.compare a b = Lt -> String.compare b c = Lt ->
    String.compare a c = Lt.
Proof.
  induction a as [|x a IH]; intros [|y b] [|z c]; simpl;
    try discriminate; try reflexivity.
  destruct (Ascii.compare x y) eqn:Exy; try discriminate;
    destruct (Ascii.compare y z) eqn:Eyz; try discriminate; intros H1 H2.
  - apply Ascii.compare_eq_iff in Exy, Eyz. subst.
    rewrite ascii_compare_refl. now apply (IH b).
  - apply Ascii.compare_eq_iff in Exy. subst. now rewrite Eyz.
  - apply Ascii.compare_eq_iff in Eyz. subst. now rewrite Exy.
  - now rewrite (ascii_compare_lt_trans x y z).
Qed.

Lemma string_leb_iff a b :
  String.leb a b = true <-> String.compare a b = Lt \/ a = b.
Proof.
  unfold String.leb. destruct (String.compare a b) eqn:E.
  - apply String.compare_eq_iff in E. tauto.
  - tauto.
  - split; [discriminate|]. intros [H| ->]; [discriminate|].
    rewrite string_compare_refl in E. discriminate.
Qed.

Lemma string_leb_trans a b c :
  String.leb a b = true -> String.leb b c = true -> String.leb a c = true.
Proof.
  rewrite !string_leb_iff. intros [H1| ->] [H2| ->]; auto.
  left. now apply (string_compare_lt_trans a b c).
Qed.

Lemma string_leb_refl a : String.leb a a = true.
Proof. apply string_leb_iff. now right. Qed.

(** *** The two orders on neurons *)

Lemma by_start_line_total x y :
  by_start_line x y = true \/ by_start_line y x = true.
Proof. unfold by_start_line. rewrite !Z.leb_le. lia. Qed.

Lemma by_start_line_trans x y z :
  by_start_line x y = true -> by_start_line y z = true ->
  by_start_line x z = true.
Proof. unfold by_start_line. rewrite !Z.leb_le. lia. Qed.

Lemma by_file_then_line_iff x y :
  by_file_then_line x y = true <->
  String.compare (NeuronRow.file_path x) (NeuronRow.file_path y) = Lt \/
  (NeuronRow.file_path x = NeuronRow.file_path y /\
   (NeuronRow.start_line x <= NeuronRow.start_line y)%Z).
Proof.
  unfold by_file_then_line, by_start_line.
  destruct (String.compare _ _) eqn:E.
  - apply String.compare_eq_iff in E. rewrite Z.leb_le. split; [tauto|].
    intros [H|[_ H]]; [discriminate | exact H].
  - split; [tauto | reflexivity].
  - split; [discriminate|]. intros [H|[H _]]; [discriminate|].
    rewrite H, string_compare_refl in E. discriminate.
Qed.

Lemma by_file_then_line_total x y :
  by_file_then_line x y = true \/ by_file_then_line y x = true.
Proof.
  rewrite !by_file_then_line_iff.
  rewrite (String.compare_antisym (NeuronRow.file_path y)
             (NeuronRow.file_path x)).
  destruct (String.compare (NeuronRow.file_path x) (NeuronRow.file_path y))
    eqn:E; simpl; auto.
  apply String.compare_eq_iff in E.
  destruct (Z.le_ge_cases (NeuronRow.start_line x) (NeuronRow.start_line y));
    auto.
Qed.

Lemma by_file_then_line_trans x y z :
  by_file_then_line x y = true -> by_file_then_line y z = true ->
  by_file_then_line x z = true.
Proof.
  rewrite !by_file_then_line_iff.
  intros [H1|[E1 L1]] [H2|[E2 L2]].
  - left. now apply (string_compare_lt_trans _ (NeuronRow.file_path y)).
  - left. now rewrite <- E2.
  - left. now rewrite E1.
  - right. split; [congruence | lia].
Qed.

(* ================================================================== *)
(** ** Lists of neurons *)

Lemma rowToNeuron_fields row n :
  rowToNeuron row = Ok n ->
  Neuron.id n = NeuronRow.id row /\
  Neuron.file_path n = NeuronRow.file_path row /\
  Neuron.start_line n = NeuronRow.start_line row.
Proof.
  unfold rowToNeuron.
  destruct (match NeuronRow.embedding row with
            | Some blob => Float32Array.of_buffer blob
            | None => Some Float32Array.empty
            end); [|discriminate].
  intros H. injection H as <-. auto.
Qed.

Lemma rowToNeuron_throws row e :
  rowToNeuron row = Throw e ->
  e = RangeError /\
  exists blob, NeuronRow.embedding row = Some blob /\
               (List.length blob mod 4 <> 0)%nat.
Proof.
  unfold rowToNeuron.
  destruct (NeuronRow.embedding row) as [blob|]; [|discriminate].
  unfold Float32Array.of_buffer.
  destruct (Nat.eqb_spec (List.length blob mod 4) 0); [discriminate|].
  intros H. injection H as <-. split; [reflexivity|]. now exists blob.
Qed.

Lemma rowsToNeurons_ok rows :
  forall ns,
    rowsToNeurons rows = Ok ns ->
    Forall2 (fun row n => rowToNeuron row = Ok n) rows ns.
Proof.
  induction rows as [|row rows IH]; simpl; intros ns H.
  - injection H as <-. constructor.
  - destruct (rowToNeuron row) as [n|e] eqn:E; [|discriminate].
    destruct (rowsToNeurons rows) as [ns'|e]; [|discriminate].
    injection H as <-. constructor; auto.
Qed.

Lemma rowsToNeurons_throws rows e :
  rowsToNeurons rows = Throw e ->
  exists row, In row rows /\ rowToNeuron row = Throw e.
Proof.
  induction rows as [|row rows IH]; simpl; [discriminate|].
  destruct (rowToNeuron row) as [n|e'] eqn:E.
  - destruct (rowsToNeurons rows) as [ns'|e'']; [discriminate|].
    intros H. injection H as ->. destruct (IH eq_refl) as (r & Hin & Hr).
    exists r. auto.
  - intros H. injection H as ->. exists row. auto.
Qed.

Lemma Forall2_StronglySorted {A B} (F : A -> B -> Prop)
  (R : A -> A -> Prop) (R' : B -> B -> Prop) l l' :
  (forall a1 a2 b1 b2, F a1 b1 -> F a2 b2 -> R a1 a2 -> R' b1 b2) ->
  Forall2 F l l' -> StronglySorted R l -> StronglySorted R' l'.
Proof.
  intros HR H. induction H as [|a b l l' Hab Hl IH]; intros Hs;
    [constructor|].
  inversion Hs as [|? ? Hs' Ha]; subst. constructor; [auto|].
  clear IH Hs Hs'. induction Hl as [|a' b' l l' Hab' _ IH'];
    [constructor|].
  inversion Ha; subst. constructor; eauto.
Qed.

Lemma Forall2_map_eq {A B C} (F : A -> B -> Prop) (f : A -> C) (g : B -> C)
  l l' :
  (forall a b, F a b -> g b = f a) ->
  Forall2 F l l' -> map g l' = map f l.
Proof.
  intros HF. induction 1 as [|a b l l' Hab _ IH]; simpl; [reflexivity|].
  now rewrite IH, (HF a b Hab).
Qed.

Lemma converted_in_file filePath rows ns :
  Forall2 (fun row n => rowToNeuron row = Ok n) rows ns ->
  Forall (fun r => NeuronRow.file_path r = filePath) rows ->
  Forall (fun n => Neuron.file_path n = filePath) ns.
Proof.
  induction 1 as [|r n rows' ns' Hrn _ IH]; intros Hrows; [constructor|].
  inversion Hrows as [|? ? Hr Hrest]; subst. constructor; [|auto].
  now destruct (rowToNeuron_fields r n Hrn) as (_ & -> & _).
Qed.

(** X10: when [getNeuronsByFile] returns, it returns the neurons of the
    file, each once, by ascending [start_line]; when [getAllNeurons]
    returns, it returns every neuron once, by [file_path] and then
    [start_line]; either throws only a [RangeError], when a stored
    embedding has a byte length that is no multiple of 4; neither
    writes. *)
Theorem X10_neuron_lists :
  forall (s : Store) (filePath : string),
    (forall ns,
        result (getNeuronsByFile filePath) s = Ok ns ->
        Permutation (map Neuron.id ns)
          (map NeuronRow.id (filter (in_file filePath) (neurons s))) /\
        Forall (fun n => Neuron.file_path n = filePath) ns /\
        StronglySorted
          (fun x y => (Neuron.start_line x <= Neuron.start_line y)%Z) ns) /\
    (forall ns,
        result getAllNeurons s = Ok ns ->
        Permutation (map Neuron.id ns) (map NeuronRow.id (neurons s)) /\
        StronglySorted
          (fun x y =>
             String.compare (Neuron.file_path x) (Neuron.file_path y) = Lt \/
             (Neuron.file_path x = Neuron.file_path y /\
              (Neuron.start_line x <= Neuron.start_line y)%Z)) ns) /\
    (forall e,
        result (getNeuronsByFile filePath) s = Throw e \/
        result getAllNeurons s = Throw e ->
        e = RangeError /\
        exists row blob,
          In row (neurons s) /\ NeuronRow.embedding row = Some blob /\
          (List.length blob mod 4 <> 0)%nat) /\
    exec (getNeuronsByFile filePath) s = s /\
    exec getAllNeurons s = s.
Proof.
  intros s filePath. split; [|split; [|split; [|split]]].
  - intros ns. unfold result, getNeuronsByFile.
    set (rows := order_by by_start_line (filter (in_file filePath) (neurons s))).
    destruct (rowsToNeurons rows) as [ns'|e] eqn:E; simpl; [|discriminate].
    intros H. injection H as ->. apply rowsToNeurons_ok in E.
    assert (Hperm : Permutation rows (filter (in_file filePath) (neurons s)))
      by apply order_by_perm.
    split; [|split].
    + rewrite (Forall2_map_eq _ NeuronRow.id Neuron.id _ _
                 (fun a b H => proj1 (rowToNeuron_fields a b H)) E).
      now apply Permutation_map.
    + assert (Hrows : Forall (fun r => NeuronRow.file_path r = filePath) rows).
      { apply Forall_forall. intros r Hin.
        apply (Permutation_in _ Hperm), filter_In in Hin.
        now apply String.eqb_eq. }
      exact (converted_in_file filePath rows ns E Hrows).
    + refine (Forall2_StronglySorted _
                (fun x y => by_start_line x y = true) _ rows ns _ E _).
      * intros a1 a2 b1 b2 H1 H2.
        destruct (rowToNeuron_fields _ _ H1) as (_ & _ & ->).
        destruct (rowToNeuron_fields _ _ H2) as (_ & _ & ->).
        unfold by_start_line. now rewrite Z.leb_le.
      * apply order_by_StronglySorted;
          [apply by_start_line_total | apply by_start_line_trans].
  - intros ns. unfold result, getAllNeurons.
    set (rows := order_by by_file_then_line (neurons s)).
    destruct (rowsToNeurons rows) as [ns'|e] eqn:E; simpl; [|discriminate].
    intros H. injection H as ->. apply rowsToNeurons_ok in E. split.
    + rewrite (Forall2_map_eq _ NeuronRow.id Neuron.id _ _
                 (fun a b H => proj1 (rowToNeuron_fields a b H)) E).
      apply Permutation_map, order_by_perm.
    + refine (Forall2_StronglySorted _
                (fun x y => by_file_then_line x y = true) _ rows ns _ E _).
      * intros a1 a2 b1 b2 H1 H2.
        destruct (rowToNeuron_fields _ _ H1) as (_ & -> & ->).
        destruct (rowToNeuron_fields _ _ H2) as (_ & -> & ->).
        now rewrite by_file_then_line_iff.
      * apply order_by_StronglySorted;
          [apply by_file_then_line_total | apply by_file_then_line_trans].
  - intros e [H|H]; unfold result, getNeuronsByFile, getAllNeurons in H.
    + destruct (rowsToNeurons _) as [ns'|e'] eqn:E; simpl in H;
        [discriminate|].
      injection H as ->. apply rowsToNeurons_throws in E.
      destruct E as (row & Hin & Hrow).
      destruct (rowToNeuron_throws row e Hrow) as (-> & blob & Hb & Hlen).
      split; [reflexivity|]. exists row, blob. split; [|auto].
      apply (Permutation_in _ (order_by_perm by_start_line _)) in Hin.
      now apply filter_In in Hin.
    + destruct (rowsToNeurons _) as [ns'|e'] eqn:E; simpl in H;
        [discriminate|].
      injection H as ->. apply rowsToNeurons_throws in E.
      destruct E as (row & Hin & Hrow).
      destruct (rowToNeuron_throws row e Hrow) as (-> & blob & Hb & Hlen).
      split; [reflexivity|]. exists row, blob. split; [|auto].
      now apply (Permutation_in _ (order_by_perm by_file_then_line _)) in Hin.
  - unfold exec, getNeuronsByFile. now destruct (rowsToNeurons _).
  - unfold exec, getAllNeurons. now destruct (rowsToNeurons _).
Qed.

Lemma X10_witness :
  let ns :=
    [neuron_of (Sample.chunk "x") "N1" "2026-01-01T00:00:00.000Z";
     neuron_of (Sample.chunk "y") "N3" "2026-01-01T00:00:00.000Z"] in
  Permutation (map Neuron.id ns)
    (map NeuronRow.id (filter (in_file "src/a.ts") (neurons Sample.two_edges)))
  /\
  Forall (fun n => Neuron.file_path n = "src/a.ts"%string) ns /\
  StronglySorted
    (fun x y => (Neuron.start_line x <= Neuron.start_line y)%Z) ns.
Proof.
  apply (proj1 (X10_neuron_lists Sample.two_edges "src/a.ts")).
  reflexivity.
Defined.

(* ================================================================== *)
(** ** One neuron: the round trip and the buffer that does not convert *)

Lemma createNeuron_as_insert input id now :
  createNeuron input id now
  = (insert_neuron (neuron_row input id now) ;;; getNeuron id).
Proof. reflexivity. Qed.

(** X11: with a new uuid and an embedding that is a view on the whole of
    its buffer, [createNeuron] appends one row and returns the neuron with
    every input field and every byte of the embedding as given,
    [activation_count] 0, no [last_activated], and both timestamps now;
    [getNeuron] returns the same neuron afterwards. *)
Theorem X11_createNeuron_round_trip :
  forall (s : Store) (input : NeuronCreateInput.t) (id now : string),
    neuron_exists id s = false ->
    whole_buffer (NeuronCreateInput.embedding input) ->
    createNeuron input id now s
    = (Ok (Some (neuron_of input id now)),
       set_neurons s (neurons s ++ [neuron_row input id now])) /\
    result (getNeuron id) (exec (createNeuron input id now) s)
    = Ok (Some (neuron_of input id now)).
Proof.
  intros s input id now Hfresh [Hoff Hlen].
  assert (Hget : getNeuron id
                   (set_neurons s (neurons s ++ [neuron_row input id now]))
                 = (Ok (Some (neuron_of input id now)),
                    set_neurons s (neurons s ++ [neuron_row input id now]))).
  { unfold getNeuron. cbn [neurons set_neurons].
    rewrite (find_app_new _ _ _ Hfresh)
      by (cbn [neuron_row NeuronRow.id]; apply String.eqb_refl).
    unfold rowToNeuron, neuron_row, neuron_of. cbn [NeuronRow.embedding].
    now rewrite (of_buffer_whole _ Hoff Hlen). }
  assert (E : createNeuron input id now s
              = (Ok (Some (neuron_of input id now)),
                 set_neurons s (neurons s ++ [neuron_row input id now]))).
  { rewrite createNeuron_as_insert. unfold bind, insert_neuron.
    cbn [neuron_row NeuronRow.id]. unfold neuron_exists in Hfresh.
    rewrite Hfresh. exact Hget. }
  split; [exact E|]. unfold exec, result. rewrite E. cbn [snd].
  now rewrite Hget.
Qed.

Lemma X11_witness :
  createNeuron (Sample.chunk "w") "N7" "2026-01-09T00:00:00.000Z"
    Sample.two_edges
  = (Ok (Some (neuron_of (Sample.chunk "w") "N7" "2026-01-09T00:00:00.000Z")),
     set_neurons Sample.two_edges
       (neurons Sample.two_edges ++
        [neuron_row (Sample.chunk "w") "N7" "2026-01-09T00:00:00.000Z"])) /\
  result (getNeuron "N7")
    (exec (createNeuron (Sample.chunk "w") "N7" "2026-01-09T00:00:00.000Z")
       Sample.two_edges)
  = Ok (Some (neuron_of (Sample.chunk "w") "N7" "2026-01-09T00:00:00.000Z")).
Proof.
  apply (X11_createNeuron_round_trip Sample.two_edges (Sample.chunk "w")
           "N7" "2026-01-09T00:00:00.000Z").
  - reflexivity.
  - split; reflexivity.
Defined.

Lemma rowsToNeurons_only_RangeError rows e :
  rowsToNeurons rows = Throw e -> e = RangeError.
Proof.
  intros H. apply rowsToNeurons_throws in H. destruct H as (row & _ & Hrow).
  now apply rowToNeuron_throws in Hrow.
Qed.

Lemma rowsToNeurons_stops rows row e :
  In row rows -> rowToNeuron row = Throw e ->
  exists e', rowsToNeurons rows = Throw e'.
Proof.
  induction rows as [|r rows IH]; intros Hin Hrow; [destruct Hin|].
  simpl. destruct (rowToNeuron r) as [n|e1] eqn:E; [|now exists e1].
  destruct Hin as [->|Hin]; [congruence|].
  destruct (IH Hin Hrow) as (e' & ->). now exists e'.
Qed.

(** X12: an embedding whose buffer has a byte length that is no multiple
    of 4 is stored and then cannot be read: with a new uuid
    [createNeuron] inserts the row and throws a [RangeError] on reading it
    back, the row stays, and from then on [getNeuron] of the id,
    [getNeuronsByFile] of its file and [getAllNeurons] throw as well. *)
Theorem X12_unreadable_embedding_is_stored :
  forall (s : Store) (input : NeuronCreateInput.t) (id now : string),
    neuron_exists id s = false ->
    (List.length (Float32Array.buffer (NeuronCreateInput.embedding input))
       mod 4 <> 0)%nat ->
    let s' := set_neurons s (neurons s ++ [neuron_row input id now]) in
    createNeuron input id now s = (Throw RangeError, s') /\
    result (getNeuron id) s' = Throw RangeError /\
    result (getNeuronsByFile (NeuronCreateInput.file_path input)) s'
    = Throw RangeError /\
    result getAllNeurons s' = Throw RangeError.
Proof.
  intros s input id now Hfresh Hlen s'.
  assert (Hrow : rowToNeuron (neuron_row input id now) = Throw RangeError).
  { unfold rowToNeuron, neuron_row. cbn [NeuronRow.embedding].
    unfold Float32Array.of_buffer.
    now destruct (Nat.eqb_spec
                    (List.length
                       (Float32Array.buffer (NeuronCreateInput.embedding input))
                     mod 4) 0). }
  assert (Hget : getNeuron id s' = (Throw RangeError, s')).
  { unfold getNeuron, s'. cbn [neurons set_neurons].
    rewrite (find_app_new _ _ _ Hfresh)
      by (cbn [neuron_row NeuronRow.id]; apply String.eqb_refl).
    now rewrite Hrow. }
  assert (Hin : In (neuron_row input id now) (neurons s')).
  { unfold s'. cbn [neurons set_neurons]. apply in_or_app. right. now left. }
  split; [|split; [|split]].
  - rewrite createNeuron_as_insert. unfold bind, insert_neuron.
    cbn [neuron_row NeuronRow.id]. unfold neuron_exists in Hfresh.
    rewrite Hfresh. exact Hget.
  - unfold result. now rewrite Hget.
  - destruct (rowsToNeurons_stops
                (order_by by_start_line
                   (filter (in_file (NeuronCreateInput.file_path input))
                      (neurons s')))
                (neuron_row input id now) RangeError) as (e & He);
      [|exact Hrow|].
    + apply (Permutation_in _ (Permutation_sym (order_by_perm _ _))).
      apply filter_In. split; [exact Hin|]. apply String.eqb_refl.
    + unfold result, getNeuronsByFile. rewrite He. cbn [fst]. f_equal.
      exact (rowsToNeurons_only_RangeError _ e He).
  - destruct (rowsToNeurons_stops (order_by by_file_then_line (neurons s'))
                (neuron_row input id now) RangeError) as (e & He);
      [|exact Hrow|].
    + now apply (Permutation_in _ (Permutation_sym (order_by_perm _ _))).
    + unfold result, getAllNeurons. rewrite He. cbn [fst]. f_equal.
      exact (rowsToNeurons_only_RangeError _ e He).
Qed.

Lemma X12_witness :
  createNeuron (Sample.chunk_of Sample.odd_buffer) "N7"
    "2026-01-09T00:00:00.000Z" Sample.two_edges
  = (Throw RangeError,
     set_neurons Sample.two_edges
       (neurons Sample.two_edges ++
        [neuron_row (Sample.chunk_of Sample.odd_buffer) "N7"
           "2026-01-09T00:00:00.000Z"])) /\
  result (getNeuron "N7")
    (set_neurons Sample.two_edges
       (neurons Sample.two_edges ++
        [neuron_row (Sample.chunk_of Sample.odd_buffer) "N7"
           "2026-01-09T00:00:00.000Z"])) = Throw RangeError /\
  result (getNeuronsByFile "src/a.ts")
    (set_neurons Sample.two_edges
       (neurons Sample.two_edges ++
        [neuron_row (Sample.chunk_of Sample.odd_buffer) "N7"
           "2026-01-09T00:00:00.000Z"])) = Throw RangeError /\
  result getAllNeurons
    (set_neurons Sample.two_edges
       (neurons Sample.two_edges ++
        [neuron_row (Sample.chunk_of Sample.odd_buffer) "N7"
           "2026-01-09T00:00:00.000Z"])) = Throw RangeError.
Proof.
  apply (X12_unreadable_embedding_is_stored Sample.two_edges
           (Sample.chunk_of Sample.odd_buffer) "N7"
           "2026-01-09T00:00:00.000Z").
  - reflexivity.
  - simpl. discriminate.
Defined.

(* ================================================================== *)
(** ** The manifest of indexed files *)

Lemma find_app {A} (p : A -> bool) l l' :
  find p (l ++ l') =
  match find p l with Some x => Some x | None => find p l' end.
Proof.
  induction l as [|x l IH]; simpl; [reflexivity|]. now destruct (p x).
Qed.

Lemma find_filter_kept {A} (p keep : A -> bool) l :
  (forall x, p x = true -> keep x = true) ->
  find p (filter keep l) = find p l.
Proof.
  intros H. induction l as [|x l IH]; simpl; [reflexivity|].
  destruct (keep x) eqn:Ek; simpl.
  - now rewrite IH.
  - destruct (p x) eqn:Ep; [|exact IH]. rewrite (H x Ep) in Ek. discriminate.
Qed.

Lemma other_path_kept p q f :
  q <> p -> has_path q f = true -> negb (has_path p f) = true.
Proof.
  unfold has_path. rewrite String.eqb_eq. intros Hne <-.
  apply negb_true_iff. now apply String.eqb_neq.
Qed.

Lemma filter_path_gone p l :
  filter (has_path p) (filter (fun f => negb (has_path p f)) l) = [].
Proof.
  apply filter_none. intros f Hin. apply filter_In in Hin.
  now apply negb_true_iff.
Qed.

Lemma length_without_path p l f :
  NoDup (map IndexedFile.path l) ->
  find (has_path p) l = Some f ->
  S (List.length (filter (fun f => negb (has_path p f)) l)) = List.length l.
Proof.
  induction l as [|x l IH]; simpl; intros Hnd Hfind; [discriminate|].
  inversion Hnd as [|? ? Hx Hl]; subst.
  destruct (has_path p x) eqn:E; simpl.
  - f_equal. f_equal. apply filter_all. intros y Hy. apply negb_true_iff.
    destruct (has_path p y) eqn:Ey; [|reflexivity].
    exfalso. apply Hx. unfold has_path in E, Ey.
    apply String.eqb_eq in E, Ey. rewrite E, <- Ey. now apply in_map.
  - f_equal. now apply IH.
Qed.

Lemma has_path_mk p l c n h : has_path p (IndexedFile.mk p l c n h) = true.
Proof. apply String.eqb_refl. Qed.

(** X13: [upsertIndexedFile] is an upsert on the path: afterwards the path
    has exactly one row, that of the call with [last_indexed] now, and
    [getIndexedFile] returns it; every other path reads as before; the
    graph and the query log are untouched; the number of rows grows by one
    for a new path and stays when a row of the path is replaced. *)
Theorem X13_upsertIndexedFile :
  forall (b : Brain) (file : IndexedFileInput.t) (now : string),
    let b' := upsertIndexedFile file now b in
    let row :=
      IndexedFile.mk (IndexedFileInput.path file)
        (IndexedFileInput.language file) (IndexedFileInput.neuron_count file)
        now (IndexedFileInput.content_hash file) in
    getIndexedFile (IndexedFileInput.path file) b' = Some row /\
    filter (has_path (IndexedFileInput.path file)) (getAllIndexedFiles b')
    = [row] /\
    (forall q, q <> IndexedFileInput.path file ->
               getIndexedFile q b' = getIndexedFile q b) /\
    graph b' = graph b /\ query_log b' = query_log b /\
    (getIndexedFile (IndexedFileInput.path file) b = None ->
     List.length (getAllIndexedFiles b')
     = S (List.length (getAllIndexedFiles b))) /\
    (unique_paths b ->
     getIndexedFile (IndexedFileInput.path file) b <> None ->
     List.length (getAllIndexedFiles b') = List.length (getAllIndexedFiles b)).
Proof.
  intros b file now b' row. subst b' row.
  unfold getIndexedFile, getAllIndexedFiles, upsertIndexedFile.
  cbn [indexed_files graph query_log].
  repeat split.
  - rewrite find_app.
    rewrite (proj2 (find_none_existsb _ _)).
    + cbn [find]. now rewrite has_path_mk.
    + apply not_true_iff_false. intros H. apply existsb_exists in H.
      destruct H as (f & Hin & Hf). apply filter_In in Hin.
      destruct Hin as [_ Hne]. rewrite Hf in Hne. discriminate.
  - rewrite filter_app, filter_path_gone. cbn [filter app].
    now rewrite has_path_mk.
  - intros q Hq. rewrite find_app, find_filter_kept
      by (intros f; now apply other_path_kept).
    destruct (find (has_path q) (indexed_files b)); [reflexivity|].
    cbn [find]. unfold has_path at 1. cbn [IndexedFile.path].
    apply not_eq_sym, String.eqb_neq in Hq. now rewrite Hq.
  - intros Hnone. rewrite length_app, Nat.add_comm. cbn [List.length Nat.add].
    f_equal. f_equal. apply filter_all. intros f Hin. apply negb_true_iff.
    apply find_none with (x := f) in Hnone; assumption.
  - intros Hu Hsome. rewrite length_app, Nat.add_comm.
    cbn [List.length Nat.add].
    destruct (find (has_path (IndexedFileInput.path file)) (indexed_files b))
      as [f|] eqn:E; [|contradiction].
    now apply (length_without_path (IndexedFileInput.path file) _ f).
Qed.

Lemma X13_witness :
  let b := upsertIndexedFile (IndexedFileInput.mk "src/a.ts" "ts" 2 "9f86d081")
             "2026-01-02 00:00:00" empty_brain in
  let b' := upsertIndexedFile (IndexedFileInput.mk "src/b.ts" "ts" 1 "60303ae2")
              "2026-01-03 00:00:00" b in
  getIndexedFile "src/a.ts" b' = getIndexedFile "src/a.ts" b /\
  List.length (getAllIndexedFiles b') = S (List.length (getAllIndexedFiles b))
  /\
  List.length
    (getAllIndexedFiles
       (upsertIndexedFile (IndexedFileInput.mk "src/a.ts" "ts" 3 "d4735e3a")
          "2026-01-04 00:00:00" b'))
  = List.length (getAllIndexedFiles b').
Proof.
  intros b b'. split; [|split].
  - apply (X13_upsertIndexedFile b
             (IndexedFileInput.mk "src/b.ts" "ts" 1 "60303ae2")
             "2026-01-03 00:00:00"). discriminate.
  - apply (X13_upsertIndexedFile b
             (IndexedFileInput.mk "src/b.ts" "ts" 1 "60303ae2")
             "2026-01-03 00:00:00"). reflexivity.
  - apply (X13_upsertIndexedFile b'
             (IndexedFileInput.mk "src/a.ts" "ts" 3 "d4735e3a")
             "2026-01-04 00:00:00").
    + repeat constructor; simpl; intuition discriminate.
    + discriminate.
Defined.

(** X14: [deleteIndexedFile] removes the row of the path and nothing else:
    the path then reads as [undefined], every other path reads as before,
    the graph and the query log are untouched, and deleting a path that
    has no row changes nothing. *)
Theorem X14_deleteIndexedFile :
  forall (b : Brain) (filePath : string),
    let b' := deleteIndexedFile filePath b in
    getIndexedFile filePath b' = None /\
    (forall q, q <> filePath -> getIndexedFile q b' = getIndexedFile q b) /\
    graph b' = graph b /\ query_log b' = query_log b /\
    (getIndexedFile filePath b = None -> b' = b).
Proof.
  intros b filePath b'.
  unfold b', getIndexedFile, deleteIndexedFile.
  cbn [indexed_files graph query_log]. repeat split.
  - apply find_none_existsb, not_true_iff_false. intros H.
    apply existsb_exists in H. destruct H as (f & Hin & Hf).
    apply filter_In in Hin. destruct Hin as [_ Hne]. rewrite Hf in Hne.
    discriminate.
  - intros q Hq. apply find_filter_kept. intros f.
    now apply other_path_kept.
  - intros Hnone. destruct b as [g files log]. cbn [indexed_files] in *.
    f_equal. apply filter_all. intros f Hin. apply negb_true_iff.
    apply find_none with (x := f) in Hnone; assumption.
Qed.

Lemma X14_witness :
  let b := upsertIndexedFile (IndexedFileInput.mk "src/a.ts" "ts" 2 "9f86d081")
             "2026-01-02 00:00:00" empty_brain in
  getIndexedFile "src/a.ts" (deleteIndexedFile "src/b.ts" b)
  = getIndexedFile "src/a.ts" b /\
  deleteIndexedFile "src/b.ts" b = b.
Proof.
  intros b. split.
  - apply (X14_deleteIndexedFile b "src/b.ts"). discriminate.
  - apply (X14_deleteIndexedFile b "src/b.ts"). reflexivity.
Defined.

(* ================================================================== *)
(** ** The query log and the statistics *)

(** X15: [logQuery] with a new uuid appends one entry holding the query,
    the two id lists and the time, and of the statistics only
    [total_queries] changes, by one; with a uuid that is in use it throws
    the primary-key failure and logs nothing. *)
Theorem X15_logQuery :
  forall (b : Brain) (query : string) (activatedIds : list string)
         (usedIds : option (list string)) (id now : string),
    (existsb (fun q => String.eqb (QueryLog.id q) id) (query_log b) = false ->
     exists b',
       logQuery query activatedIds usedIds id now b = (Ok tt, b') /\
       query_log b'
       = (query_log b ++ [QueryLog.mk id query activatedIds usedIds now])%list
       /\
       graph b' = graph b /\
       getAllIndexedFiles b' = getAllIndexedFiles b /\
       getStats b'
       = GraphStats.mk (GraphStats.neuron_count (getStats b))
           (GraphStats.synapse_count (getStats b))
           (GraphStats.file_count (getStats b))
           (GraphStats.languages (getStats b))
           (GraphStats.last_indexed (getStats b))
           (GraphStats.total_queries (getStats b) + 1) 0) /\
    (existsb (fun q => String.eqb (QueryLog.id q) id) (query_log b) = true ->
     logQuery query activatedIds usedIds id now b
     = (Throw SqliteConstraintPrimaryKey, b)).
Proof.
  intros b query activatedIds usedIds id now. unfold logQuery.
  split; intros ->; [|reflexivity].
  eexists. split; [reflexivity|]. repeat split.
  unfold getStats. cbn [graph indexed_files query_log GraphStats.neuron_count
                        GraphStats.synapse_count GraphStats.file_count
                        GraphStats.languages GraphStats.last_indexed
                        GraphStats.total_queries].
  f_equal. rewrite length_app. cbn [List.length]. lia.
Qed.

Lemma X15_witness :
  (exists b',
      logQuery "where is x" ["N1"; "N3"]%string None "Q1" "2026-01-02 00:00:01"
        empty_brain = (Ok tt, b') /\
      query_log b'
      = (query_log empty_brain ++
         [QueryLog.mk "Q1" "where is x" ["N1"; "N3"]%string None
            "2026-01-02 00:00:01"])%list /\
      graph b' = graph empty_brain /\
      getAllIndexedFiles b' = getAllIndexedFiles empty_brain /\
      getStats b'
      = GraphStats.mk (GraphStats.neuron_count (getStats empty_brain))
          (GraphStats.synapse_count (getStats empty_brain))
          (GraphStats.file_count (getStats empty_brain))
          (GraphStats.languages (getStats empty_brain))
          (GraphStats.last_indexed (getStats empty_brain))
          (GraphStats.total_queries (getStats empty_brain) + 1) 0) /\
  logQuery "again" [] (Some []) "Q1" "2026-01-02 00:00:02"
    (snd (logQuery "where is x" ["N1"; "N3"]%string None "Q1"
            "2026-01-02 00:00:01" empty_brain))
  = (Throw SqliteConstraintPrimaryKey,
     snd (logQuery "where is x" ["N1"; "N3"]%string None "Q1"
            "2026-01-02 00:00:01" empty_brain)).
Proof.
  split.
  - apply (X15_logQuery empty_brain "where is x" ["N1"; "N3"]%string None
             "Q1" "2026-01-02 00:00:01"). reflexivity.
  - apply (X15_logQuery
             (snd (logQuery "where is x" ["N1"; "N3"]%string None "Q1"
                     "2026-01-02 00:00:01" empty_brain))
             "again" [] (Some []) "Q1" "2026-01-02 00:00:02"). reflexivity.
Defined.

(** X16: the [languages] of [getStats] are the languages of the stored
    neurons, each once and without the empty text. *)
Theorem X16_getStats_languages :
  forall (b : Brain),
    NoDup (GraphStats.languages (getStats b)) /\
    forall l,
      In l (GraphStats.languages (getStats b)) <->
      l <> EmptyString /\
      exists n, In n (neurons (graph b)) /\ NeuronRow.language n = l.
Proof.
  intros b. unfold getStats, distinct_languages.
  cbn [GraphStats.languages]. split; [apply NoDup_nodup|].
  intros l. rewrite nodup_In, filter_In, in_map_iff, negb_true_iff,
    String.eqb_neq.
  split.
  - intros [(n & Hl & Hin) Hne]. split; [exact Hne|]. now exists n.
  - intros [Hne (n & Hin & Hl)]. split; [now exists n | exact Hne].
Qed.

Lemma max_text_from (l : list string) :
  forall a,
  exists m,
    fold_left
      (fun acc t =>
         match acc with
         | None => Some t
         | Some m => if String.leb m t then Some t else Some m
         end) l (Some a) = Some m /\
    (m = a \/ In m l) /\
    String.leb a m = true /\
    forall t, In t l -> String.leb t m = true.
Proof.
  induction l as [|t l IH]; intros a.
  - exists a. simpl. repeat split; auto using string_leb_refl.
  - simpl. destruct (String.leb a t) eqn:E.
    + destruct (IH t) as (m & Hm & Hin & Hle & Hall).
      exists m. split; [exact Hm|]. split; [|split].
      * right. destruct Hin as [->|Hin]; auto.
      * now apply (string_leb_trans a t m).
      * intros u [<-|Hu]; auto.
    + destruct (IH a) as (m & Hm & Hin & Hle & Hall).
      exists m. split; [exact Hm|]. split; [|split].
      * destruct Hin as [->|Hin]; auto.
      * exact Hle.
      * intros u [<-|Hu]; [|auto].
        apply (string_leb_trans t a m); [|exact Hle].
        destruct (String.leb_total a t) as [H|H]; congruence.
Qed.

(** X17: the [last_indexed] of [getStats] is [null] exactly when no file
    is indexed, and otherwise the [last_indexed] of a stored file that none
    of the others exceeds in the byte order of texts. *)
Theorem X17_getStats_last_indexed :
  forall (b : Brain),
    (GraphStats.last_indexed (getStats b) = None <-> indexed_files b = []) /\
    forall m,
      GraphStats.last_indexed (getStats b) = Some m ->
      (exists f, In f (indexed_files b) /\ IndexedFile.last_indexed f = m) /\
      forall f, In f (indexed_files b) ->
                String.leb (IndexedFile.last_indexed f) m = true.
Proof.
  intros b. unfold getStats. cbn [GraphStats.last_indexed]. unfold max_text.
  destruct (indexed_files b) as [|f0 files]; simpl.
  - split; [tauto|]. discriminate.
  - destruct (max_text_from (map IndexedFile.last_indexed files)
                (IndexedFile.last_indexed f0)) as (m & -> & Hin & Hle & Hall).
    split; [split; discriminate|].
    intros m' H. injection H as <-. split.
    + destruct Hin as [->|Hin]; [exists f0; auto|].
      apply in_map_iff in Hin. destruct Hin as (f & Hf & Hin).
      exists f. auto.
    + intros f [<-|Hf]; [exact Hle|]. apply Hall. now apply in_map.
Qed.

Lemma X17_witness :
  let b :=
    upsertIndexedFile (IndexedFileInput.mk "src/b.ts" "ts" 1 "60303ae2")
      "2026-01-02 00:00:00"
      (upsertIndexedFile (IndexedFileInput.mk "src/a.ts" "ts" 2 "9f86d081")
         "2026-01-03 00:00:00" empty_brain) in
  (exists f, In f (indexed_files b) /\
             IndexedFile.last_indexed f = "2026-01-03 00:00:00"%string) /\
  forall f, In f (indexed_files b) ->
            String.leb (IndexedFile.last_indexed f) "2026-01-03 00:00:00"
            = true.
Proof.
  intros b.
  apply (proj2 (X17_getStats_last_indexed b) "2026-01-03 00:00:00"%string).
  reflexivity.
Defined.

(* ================================================================== *)
(** ** Migrating *)












(** *** The script of version 1 *)








(** X20: a version row whose text does not start with an integer reads as
    NaN, NaN is not below 1, and the file is left exactly as it is, so the
    tables it lacks are not created. *)
Theorem X20_unreadable_version_is_not_migrated :
  forall (db : Migration.Database) (rows : list (string * string))
         (value : string),
    Migration.meta db = Some rows ->
    Migration.select_version rows = Some value ->
    Migration.parseInt value = None ->
    Migration.open db = Ok db.
Proof.
  intros [meta objects] rows value Hm Hv Hnan.
  cbn [Migration.meta] in Hm. subst meta.
  unfold Migration.open, Migration.migrate, Migration.meta_rows.
  cbn [Migration.meta Migration.objects]. now rewrite Hv, Hnan.
Qed.

Lemma X20_witness :
  Migration.open (Migration.mkDatabase (Some [("schema_version", "v1")]) [])
  = Ok (Migration.mkDatabase (Some [("schema_version", "v1")]) []).
Proof.
  apply (X20_unreadable_version_is_not_migrated
           (Migration.mkDatabase (Some [("schema_version", "v1")]) [])
           [("schema_version", "v1")] "v1"); reflexivity.
Defined.

(* ================================================================== *)
(** ** What an observation creates *)

Lemma existsb_same_edge_kept x y ty (where_ : Synapse.t -> bool)
  (set_ : Synapse.t -> Synapse.t) l :
  (forall r, same_edge x y ty (set_ r) = same_edge x y ty r) ->
  existsb (same_edge x y ty)
    (map (fun r : Synapse.t => if where_ r then set_ r else r) l)
  = existsb (same_edge x y ty) l.
Proof.
  intros Hset. induction l as [|r l IH]; [reflexivity|]. simpl.
  rewrite IH. destruct (where_ r); [now rewrite Hset | reflexivity].
Qed.

(** X21: [findOrCreateCoActivationSynapse(a, b)] stores at most one more
    row, touches no neuron, and changes which triples are stored for
    [(a, b, co_activation)] only: in particular it never creates the
    opposite edge [(b, a, co_activation)]. *)
Theorem X21_observation_creates_one_direction :
  forall (s : Store) (a b id now_iso now_sql x y : string)
         (ty : SynapseType),
    let s' :=
      exec (findOrCreateCoActivationSynapse a b id now_iso now_sql) s in
    neurons s' = neurons s /\
    (List.length (synapses s') <= S (List.length (synapses s)))%nat /\
    ((x, y, ty) <> (a, b, co_activation) ->
     existsb (same_edge x y ty) (synapses s')
     = existsb (same_edge x y ty) (synapses s)).
Proof.
  intros s a b id now_iso now_sql x y ty s'. unfold s'.
  rewrite findOrCreateCoActivationSynapse_exec.
  destruct (find (same_edge a b co_activation) (synapses s)).
  - split; [reflexivity|]. split.
    + rewrite update_synapses_rows, length_map. lia.
    + intros _. rewrite update_synapses_rows.
      now apply existsb_same_edge_kept.
  - destruct (insert_or_ignore_synapse_exec
                (SynapseCreateInput.mk a b 0.3 co_activation None)
                id now_iso s) as [->|(_ & _ & ->)].
    + split; [reflexivity|]. split; [lia | reflexivity].
    + split; [reflexivity|]. cbn [synapses set_synapses]. split.
      * rewrite length_app. simpl. lia.
      * intros Hne. rewrite existsb_app. cbn [existsb].
        replace (same_edge x y ty _) with false;
          [now rewrite !orb_false_r|].
        symmetry. apply not_true_iff_false. intros H. apply Hne.
        apply same_edge_iff in H. simpl in H.
        now destruct H as (-> & -> & ->).
Qed.

Lemma X21_witness :
  existsb (same_edge "N3" "N1" co_activation)
    (synapses
       (exec (findOrCreateCoActivationSynapse "N1" "N3" "S2"
                "2026-01-02T00:00:00.000Z" "2026-01-02 00:00:00")
          Sample.two_neurons))
  = existsb (same_edge "N3" "N1" co_activation) (synapses Sample.two_neurons).
Proof.
  apply (X21_observation_creates_one_direction Sample.two_neurons "N1" "N3"
           "S2" "2026-01-02T00:00:00.000Z" "2026-01-02 00:00:00" "N3" "N1"
           co_activation).
  discriminate.
Defined.

(* ================================================================== *)
(** ** Weights in range, from inputs in range *)

(** X22: as long as every created weight lies in [[0, 1]] and no delta is
    negative, every stored weight stays in [[0, 1]] through any sequence
    of [createNeuron], [createSynapse], [createSynapsesBatch],
    [strengthenSynapse], [weakenSynapse], [decayUnusedSynapses] and
    [findOrCreateCoActivationSynapse] calls. *)
Theorem X22_weights_in_range_from_inputs_in_range :
  forall (julianday : string -> option Q) (cs : list Call) (s : Store),
    Forall weights_admissible cs ->
    weight_in_range s ->
    weight_in_range (run julianday cs s).
Proof.
  intros julianday cs. unfold run.
  induction cs as [|c cs IH]; intros s Hcs Hs; [exact Hs|].
  inversion Hcs as [|? ? Hc Hrest]; subst. simpl.
  apply IH; [exact Hrest|]. now apply call_weight_in_range.
Qed.

Lemma X22_witness :
  weight_in_range
    (run Sample.julianday
       [CreateSynapse (Sample.edge imports 0.5) "S1" "2026-01-02T00:00:00.000Z";
        CreateSynapsesBatch
          [("S3"%string, SynapseCreateInput.mk "N3" "N1" 1 calls None)]
          "2026-01-02T00:00:00.000Z";
        FindOrCreateCoActivationSynapse "N1" "N3" "S2"
          "2026-01-02T00:00:00.000Z" "2026-01-02 00:00:00";
        StrengthenSynapse "N1" "N3" (Some 0.7) "2026-01-03 00:00:00";
        WeakenSynapse "N3" "N1" (Some 3);
        DecayUnusedSynapses (Some 7) None 2461060.5]
       Sample.two_neurons).
Proof.
  apply (X22_weights_in_range_from_inputs_in_range Sample.julianday).
  - repeat constructor; simpl; lra.
  - constructor.
Defined.
